(** * Inventory management: order lines, the inventory ledger and the catalog

    A shallow embedding of [db.py] (MongoDB, through mongoengine), of
    [redis_db.py] (the Redis catalog) and of the document classes of
    [models.py].

    The functions of [db.py] talk to two stores and catch the exceptions the
    stores raise.  A function is therefore embedded as a tree of store
    operations ([prog]); [run] executes such a tree call after call against a
    [world], and [interleave] executes several of them operation by
    operation, the way concurrent callers of the same stores would. *)

From Stdlib Require Import ZArith List String Ascii Bool Lia.
From stdpp Require Import base option list strings gmap pretty.

Local Open Scope string_scope.
Local Open Scope Z_scope.

(** ** Python values and [int()] *)

(** The quantity of an order line reaches [db.py] either as an [int] (gui.py
    converts the fields named quantity and price) or as the text of the entry
    (the field named new_quantity is not converted).  [int()] is that of
    CPython 3.11. *)
Inductive pyval : Type :=
| PyInt (z : Z)
| PyStr (s : string).

(** A text is held as the bytes of its UTF-8 encoding, the way a string
    literal of this file holds it; [int()] reads its code points. *)
Definition byte_val (c : ascii) : Z := Z.of_nat (nat_of_ascii c).

(** The six payload bits of a continuation byte. *)
Definition continuation (c : ascii) : option Z :=
  let n := byte_val c in
  if (128 <=? n) && (n <? 192) then Some (n - 128) else None.

(** The code points of a text; [None] for bytes that are no well-formed
    UTF-8 (overlong forms, surrogates and code points past U+10FFFF
    included), which encode no text. *)
Fixpoint utf8_decode (s : string) : option (list Z) :=
  match s with
  | EmptyString => Some []
  | String b0 s1 =>
      let n0 := byte_val b0 in
      if n0 <? 128 then cons n0 <$> utf8_decode s1
      else if n0 <? 194 then None
      else if n0 <? 224 then
        match s1 with
        | String b1 s2 =>
            match continuation b1 with
            | Some c1 => cons ((n0 - 192) * 64 + c1) <$> utf8_decode s2
            | None => None
            end
        | EmptyString => None
        end
      else if n0 <? 240 then
        match s1 with
        | String b1 (String b2 s3) =>
            match continuation b1, continuation b2 with
            | Some c1, Some c2 =>
                let cp := (n0 - 224) * 4096 + c1 * 64 + c2 in
                if (cp <? 2048) || ((55296 <=? cp) && (cp <=? 57343)) then None
                else cons cp <$> utf8_decode s3
            | _, _ => None
            end
        | _ => None
        end
      else if n0 <? 245 then
        match s1 with
        | String b1 (String b2 (String b3 s4)) =>
            match continuation b1, continuation b2, continuation b3 with
            | Some c1, Some c2, Some c3 =>
                let cp := (n0 - 240) * 262144 + c1 * 4096 + c2 * 64 + c3 in
                if (cp <? 65536) || (1114111 <? cp) then None
                else cons cp <$> utf8_decode s4
            | _, _, _ => None
            end
        | _ => None
        end
      else None
  end.

(** The white space outside ASCII (Unicode 14.0, the tables of CPython
    3.11). *)
Definition is_unicode_space (cp : Z) : bool :=
  (cp =? 0x85) || (cp =? 0xa0) || (cp =? 0x1680)
  || ((0x2000 <=? cp) && (cp <=? 0x200a))
  || (cp =? 0x2028) || (cp =? 0x2029) || (cp =? 0x202f) || (cp =? 0x205f)
  || (cp =? 0x3000).

(** The decimal digits of Unicode 14.0 come in runs of ten, zero to nine;
    these are the zeros. *)
Definition decimal_zeros : list Z :=
  [0x30; 0x660; 0x6f0; 0x7c0; 0x966; 0x9e6; 0xa66; 0xae6; 0xb66; 0xbe6; 0xc66;
   0xce6; 0xd66; 0xde6; 0xe50; 0xed0; 0xf20; 0x1040; 0x1090; 0x17e0; 0x1810;
   0x1946; 0x19d0; 0x1a80; 0x1a90; 0x1b50; 0x1bb0; 0x1c40; 0x1c50; 0xa620;
   0xa8d0; 0xa900; 0xa9d0; 0xa9f0; 0xaa50; 0xabf0; 0xff10; 0x104a0; 0x10d30;
   0x11066; 0x110f0; 0x11136; 0x111d0; 0x112f0; 0x11450; 0x114d0; 0x11650;
   0x116c0; 0x11730; 0x118e0; 0x11950; 0x11c50; 0x11d50; 0x11da0; 0x16a60;
   0x16ac0; 0x16b50; 0x1d7ce; 0x1d7d8; 0x1d7e2; 0x1d7ec; 0x1d7f6; 0x1e140;
   0x1e2f0; 0x1e950; 0x1fbf0].

Definition decimal (cp : Z) : option Z :=
  (fun zero => cp - zero)
    <$> List.find (fun zero => (zero <=? cp) && (cp <=? zero + 9)) decimal_zeros.

(** What [int()] makes of a code point before it parses: a code point below
    127 stays, white space outside ASCII becomes a space, a decimal digit
    the ASCII digit of its value, anything else a question mark. *)
Definition to_ascii (cp : Z) : ascii :=
  if cp <? 127 then ascii_of_nat (Z.to_nat cp)
  else if is_unicode_space cp then " "%char
  else match decimal cp with
       | Some d => ascii_of_nat (Z.to_nat (48 + d))
       | None => "?"%char
       end.

(** White space as the parser skips it at both ends: the characters 9 to 13
    and the space (28 to 31, which [str.strip] removes, are not skipped). *)
Definition is_space (c : ascii) : bool :=
  let n := nat_of_ascii c in
  ((9 <=? n)%nat && (n <=? 13)%nat) || (n =? 32)%nat.

Definition digit_val (c : ascii) : option Z :=
  let n := nat_of_ascii c in
  if ((48 <=? n)%nat && (n <=? 57)%nat) then Some (Z.of_nat (n - 48)) else None.

Fixpoint lstrip (s : string) : string :=
  match s with
  | String c s' => if is_space c then lstrip s' else s
  | EmptyString => EmptyString
  end.

Fixpoint rev_string (acc s : string) : string :=
  match s with
  | String c s' => rev_string (String c acc) s'
  | EmptyString => acc
  end.

Definition strip (s : string) : string :=
  rev_string "" (lstrip (rev_string "" (lstrip s))).

(** The most digits [int()] converts, [sys.int_info.default_max_str_digits]
    (CPython 3.11, and the later releases of 3.7 to 3.10). *)
Definition int_max_str_digits : Z := 4300.

(** What came before the character being read: nothing, a digit, or an
    underscore.  An underscore is accepted between two digits only. *)
Inductive lexstate : Type := AtStart | AfterDigit | AfterUnderscore.

(** [acc] is the value of the digits read so far and [count] their
    number. *)
Fixpoint digits (st : lexstate) (acc count : Z) (s : string) : option Z :=
  match s with
  | EmptyString =>
      match st with
      | AfterDigit => if int_max_str_digits <? count then None else Some acc
      | _ => None
      end
  | String c s' =>
      match digit_val c with
      | Some d => digits AfterDigit (10 * acc + d) (count + 1) s'
      | None =>
          if Ascii.eqb c "_"
          then match st with
               | AfterDigit => digits AfterUnderscore acc count s'
               | _ => None
               end
          else None
      end
  end.

(** [int(s)] in base ten for a text [s]: [None] stands for [ValueError]. *)
Definition int_of_str (s : string) : option Z :=
  match utf8_decode s with
  | None => None
  | Some cps =>
      match strip (string_of_list_ascii (List.map to_ascii cps)) with
      | String c s' =>
          if Ascii.eqb c "-" then Z.opp <$> digits AtStart 0 0 s'
          else if Ascii.eqb c "+" then digits AtStart 0 0 s'
          else digits AtStart 0 0 (String c s')
      | EmptyString => None
      end
  end.

(** [int(v)]: the identity on an [int], the parser on a text. *)
Definition py_int (v : pyval) : option Z :=
  match v with
  | PyInt z => Some z
  | PyStr s => int_of_str s
  end.

(** [str(v)], also the bytes Redis stores for [v]. *)
Definition py_str (v : pyval) : string :=
  match v with
  | PyInt z => pretty z
  | PyStr s => s
  end.

(** Truth value of a text: the empty text is false. *)
Definition truthy (s : string) : bool :=
  match s with EmptyString => false | _ => true end.

(** ** The documents of [models.py] *)

Module Retailer.
Record doc : Type := Doc {
  retailer_id : string;
  name : string;
  location : string;
  contact_info : string
}.
End Retailer.

Module Order.
(** [retailer] is a reference field: it holds the primary key of the
    retailer.  [order_date] is the clock reading at creation. *)
Record doc : Type := Doc {
  order_id : string;
  retailer : string;
  order_date : Z
}.
End Order.

Module Inventory.
Record doc : Type := Doc {
  inventory_id : string;
  product_id : string;
  quantity : Z;
  location : string
}.
End Inventory.

Module OrderDetails.
(** [id] is the object id the store gives a line when it is inserted;
    [order] holds the primary key of the order. *)
Record doc : Type := Doc {
  id : nat;
  order : string;
  product_id : string;
  quantity : Z
}.
End OrderDetails.

(** ** The two stores *)

(** A collection lists its documents in the order they were inserted, which
    is the order [.first()] follows. *)
Record Mongo : Type := MkMongo {
  Retailer_objects : list Retailer.doc;
  Order_objects : list Order.doc;
  Inventory_objects : list Inventory.doc;
  OrderDetails_objects : list OrderDetails.doc;
  next_id : nat
}.

(** [oracle]: for each store write still to come, whether the store raises
    (and with what text) instead of applying it; past its end no write fails.
    A write that raises has not been applied, and queries always answer.
    [clock]: what [datetime.now()] reads.  Quantities are integers without
    the size limit of the stored representation. *)
Record world : Type := MkWorld {
  mongo : Mongo;
  redis : gmap string (gmap string string);
  oracle : list (option string);
  clock : Z
}.

Inductive exn : Type :=
| ValidationError (msg : string)
| OperationError (msg : string).

Definition str (e : exn) : string :=
  match e with
  | ValidationError m => m
  | OperationError m => m
  end.

Inductive outcome (A : Type) : Type :=
| Return (a : A)
| Raise (e : exn).
Arguments Return {A} a.
Arguments Raise {A} e.

(** ** Store operations *)

(** The atomic update operators of mongoengine that [db.py] uses on the
    quantity of an inventory record. *)
Inductive update_operator : Type :=
| inc__quantity (amount : Z)
| dec__quantity (amount : Z).

(** One constructor per call that reaches a store; the index is the type of
    what the call answers.  The [_first] operations are the queries
    [Cls.objects(...).first()]; the others act on the document whose primary
    key they carry. *)
Inductive store_op : Type -> Type :=
| Retailer_first (retailer_id : string) : store_op (option Retailer.doc)
| Order_first (order_id : string) : store_op (option Order.doc)
| Inventory_first_by_id (inventory_id : string) : store_op (option Inventory.doc)
| Inventory_first_by_product (product_id : string) : store_op (option Inventory.doc)
| OrderDetails_first (order product_id : string) : store_op (option OrderDetails.doc)
| Datetime_now : store_op Z
| Redis_exists (key : string) : store_op bool
| Inventory_save (d : Inventory.doc) : store_op unit
| Order_save (d : Order.doc) : store_op unit
| OrderDetails_save (order product_id : string) (quantity : Z) : store_op unit
| Inventory_update (pk : string) (u : update_operator) : store_op unit
| OrderDetails_set_quantity (pk : nat) (quantity : Z) : store_op unit
| OrderDetails_delete (pk : nat) : store_op unit
| Redis_hmset (key : string) (mapping : list (string * string)) : store_op unit.

(** [save()] of a document with a primary key: the stored document with that
    key is replaced where it stands, and the document is appended when there
    is none. *)
Fixpoint upsert {A : Type} (same : A -> bool) (d : A) (l : list A) : list A :=
  match l with
  | [] => [d]
  | x :: l' => if same x then d :: l' else x :: upsert same d l'
  end.

(** An update through the primary key changes the documents that carry it
    (the store keeps at most one). *)
Definition update_where {A : Type} (sel : A -> bool) (f : A -> A) (l : list A) : list A :=
  List.map (fun x => if sel x then f x else x) l.

Definition delete_where {A : Type} (sel : A -> bool) (l : list A) : list A :=
  List.filter (fun x => negb (sel x)) l.

Definition has_inventory_id (pk : string) (d : Inventory.doc) : bool :=
  String.eqb pk (Inventory.inventory_id d).

Definition has_product_id (product_id : string) (d : Inventory.doc) : bool :=
  String.eqb product_id (Inventory.product_id d).

Definition has_order_id (pk : string) (d : Order.doc) : bool :=
  String.eqb pk (Order.order_id d).

Definition has_retailer_id (pk : string) (d : Retailer.doc) : bool :=
  String.eqb pk (Retailer.retailer_id d).

Definition is_line (order product_id : string) (d : OrderDetails.doc) : bool :=
  String.eqb order (OrderDetails.order d) && String.eqb product_id (OrderDetails.product_id d).

Definition has_id (pk : nat) (d : OrderDetails.doc) : bool :=
  Nat.eqb pk (OrderDetails.id d).

Definition apply_operator (u : update_operator) (d : Inventory.doc) : Inventory.doc :=
  let amount := match u with inc__quantity a => a | dec__quantity a => - a end in
  Inventory.Doc (Inventory.inventory_id d) (Inventory.product_id d)
                (Inventory.quantity d + amount) (Inventory.location d).

Definition set_quantity (q : Z) (d : OrderDetails.doc) : OrderDetails.doc :=
  OrderDetails.Doc (OrderDetails.id d) (OrderDetails.order d) (OrderDetails.product_id d) q.

Definition with_mongo (m : Mongo) (w : world) : world :=
  MkWorld m (redis w) (oracle w) (clock w).

Definition with_redis (r : gmap string (gmap string string)) (w : world) : world :=
  MkWorld (mongo w) r (oracle w) (clock w).

Definition with_oracle (o : list (option string)) (w : world) : world :=
  MkWorld (mongo w) (redis w) o (clock w).

Definition with_inventory (l : list Inventory.doc) (m : Mongo) : Mongo :=
  MkMongo (Retailer_objects m) (Order_objects m) l (OrderDetails_objects m) (next_id m).

Definition with_orders (l : list Order.doc) (m : Mongo) : Mongo :=
  MkMongo (Retailer_objects m) l (Inventory_objects m) (OrderDetails_objects m) (next_id m).

Definition with_order_details (l : list OrderDetails.doc) (n : nat) (m : Mongo) : Mongo :=
  MkMongo (Retailer_objects m) (Order_objects m) (Inventory_objects m) l n.

(** What a write does to the stores once the store accepts it. *)
Definition apply_write (op : store_op unit) (w : world) : world :=
  match op in store_op T return world with
  | Inventory_save d =>
      with_mongo (with_inventory
        (upsert (has_inventory_id (Inventory.inventory_id d)) d
                (Inventory_objects (mongo w))) (mongo w)) w
  | Order_save d =>
      with_mongo (with_orders
        (upsert (has_order_id (Order.order_id d)) d (Order_objects (mongo w))) (mongo w)) w
  | OrderDetails_save o p q =>
      with_mongo (with_order_details
        (OrderDetails_objects (mongo w) ++ [OrderDetails.Doc (next_id (mongo w)) o p q])
        (S (next_id (mongo w))) (mongo w)) w
  | Inventory_update pk u =>
      with_mongo (with_inventory
        (update_where (has_inventory_id pk) (apply_operator u)
                      (Inventory_objects (mongo w))) (mongo w)) w
  | OrderDetails_set_quantity pk q =>
      with_mongo (with_order_details
        (update_where (has_id pk) (set_quantity q) (OrderDetails_objects (mongo w)))
        (next_id (mongo w)) (mongo w)) w
  | OrderDetails_delete pk =>
      with_mongo (with_order_details
        (delete_where (has_id pk) (OrderDetails_objects (mongo w)))
        (next_id (mongo w)) (mongo w)) w
  | Redis_hmset key mapping =>
      with_redis (<[key := foldr (fun fv h => <[fv.1 := fv.2]> h)
                                 (default ∅ (redis w !! key)) mapping]> (redis w)) w
  | _ => w
  end.

(** A write consults the oracle: the store either raises and leaves
    everything as it was, or applies the write. *)
Definition write (op : store_op unit) (w : world) : outcome unit * world :=
  match oracle w with
  | Some msg :: o => (Raise (OperationError msg), with_oracle o w)
  | None :: o => (Return tt, apply_write op (with_oracle o w))
  | [] => (Return tt, apply_write op w)
  end.

(** One store operation, executed in one step. *)
Definition exec {B : Type} (op : store_op B) (w : world) : outcome B * world :=
  match op in store_op T return outcome T * world with
  | Retailer_first rid =>
      (Return (List.find (has_retailer_id rid) (Retailer_objects (mongo w))), w)
  | Order_first oid =>
      (Return (List.find (has_order_id oid) (Order_objects (mongo w))), w)
  | Inventory_first_by_id iid =>
      (Return (List.find (has_inventory_id iid) (Inventory_objects (mongo w))), w)
  | Inventory_first_by_product pid =>
      (Return (List.find (has_product_id pid) (Inventory_objects (mongo w))), w)
  | OrderDetails_first o p =>
      (Return (List.find (is_line o p) (OrderDetails_objects (mongo w))), w)
  | Datetime_now => (Return (clock w), w)
  | Redis_exists key => (Return (bool_decide (is_Some (redis w !! key))), w)
  | Inventory_save d => write (Inventory_save d) w
  | Order_save d => write (Order_save d) w
  | OrderDetails_save o p q => write (OrderDetails_save o p q) w
  | Inventory_update pk u => write (Inventory_update pk u) w
  | OrderDetails_set_quantity pk q => write (OrderDetails_set_quantity pk q) w
  | OrderDetails_delete pk => write (OrderDetails_delete pk) w
  | Redis_hmset key mapping => write (Redis_hmset key mapping) w
  end.

(** ** Programs over the stores *)

Inductive prog (A : Type) : Type :=
| Ret (a : A)
| Throw (e : exn)
| Do {B : Type} (op : store_op B) (k : outcome B -> prog A).
Arguments Ret {A} a.
Arguments Throw {A} e.
Arguments Do {A B} op k.

(** A store call in Python: its answer, or the exception it raises. *)
Definition call {B : Type} (op : store_op B) : prog B :=
  Do op (fun r => match r with Return b => Ret b | Raise e => Throw e end).

Fixpoint bind {A B : Type} (p : prog A) (f : A -> prog B) : prog B :=
  match p with
  | Ret a => f a
  | Throw e => Throw e
  | Do op k => Do op (fun r => bind (k r) f)
  end.

(** [try: p except Exception as e: h e] *)
Fixpoint try_except {A : Type} (p : prog A) (h : exn -> prog A) : prog A :=
  match p with
  | Ret a => Ret a
  | Throw e => h e
  | Do op k => Do op (fun r => try_except (k r) h)
  end.

Notation "'let*' x ':=' p 'in' q" := (bind p (fun x => q))
  (at level 10, x name, p at level 100, q at level 200).
Notation "p ';;' q" := (bind p (fun _ => q))
  (at level 100, q at level 200, right associativity).

(** Sequential execution: every operation of the call runs before anything
    else touches the stores. *)
Fixpoint run {A : Type} (p : prog A) (w : world) : outcome A * world :=
  match p with
  | Ret a => (Return a, w)
  | Throw e => (Raise e, w)
  | Do op k => let (r, w') := exec op w in run (k r) w'
  end.

(** Concurrent execution: [step] runs the next store operation of one call;
    [interleave] follows a schedule that names, step after step, the call
    that moves. *)
Definition step {A : Type} (p : prog A) (w : world) : prog A * world :=
  match p with
  | Do op k => let (r, w') := exec op w in (k r, w')
  | _ => (p, w)
  end.

Fixpoint interleave {A : Type} (schedule : list nat) (ps : list (prog A)) (w : world)
  : list (prog A) * world :=
  match schedule with
  | [] => (ps, w)
  | i :: schedule' =>
      match ps !! i with
      | Some p => let (p', w') := step p w in interleave schedule' (<[i := p']> ps) w'
      | None => interleave schedule' ps w
      end
  end.

(** Calls made one after the other. *)
Fixpoint run_all {A : Type} (ps : list (prog A)) (w : world) : list (outcome A) * world :=
  match ps with
  | [] => ([], w)
  | p :: ps' =>
      let (r, w') := run p w in
      let (rs, w'') := run_all ps' w' in (r :: rs, w'')
  end.

(** ** [db.py] *)

Module db.

(** What [save()] does to an integer field before it writes: the value must
    convert with [int()], and the converted value is what is stored. *)
Definition IntField_clean (cls pk field : string) (value : pyval) : prog Z :=
  match py_int value with
  | Some z => Ret z
  | None =>
      Throw (ValidationError
        ("ValidationError (" +:+ cls +:+ ":" +:+ pk +:+ ") (" +:+ py_str value
         +:+ " could not be converted to int: ['" +:+ field +:+ "'])"))
  end.

Definition check_product_exists_in_redis (product_id : string) : prog bool :=
  call (Redis_exists ("product:" +:+ product_id)).

Definition create_inventory (inventory_id product_id : string) (quantity : pyval)
    (warehouse_location : string) : prog (bool * string) :=
  let* found := check_product_exists_in_redis product_id in
  if found then
    try_except
      (let* q := IntField_clean "Inventory" inventory_id "quantity" quantity in
       call (Inventory_save (Inventory.Doc inventory_id product_id q warehouse_location)) ;;
       Ret (true, "Inventory item " +:+ inventory_id +:+ " created with product "
                  +:+ product_id +:+ "."))
      (fun e => Ret (false, "Failed to create inventory: " +:+ str e))
  else
    Ret (false, "Unable to locate the product in the database. Please add the product entry first by using the Create Product option.").

Definition create_order (order_id retailer_id : string) : prog (bool * string) :=
  try_except
    (let* order_date := call Datetime_now in
     let* retailer := call (Retailer_first retailer_id) in
     match retailer with
     | None => Ret (false, "Retailer does not exist.")
     | Some retailer =>
         call (Order_save (Order.Doc order_id (Retailer.retailer_id retailer) order_date)) ;;
         Ret (true, "Order " +:+ order_id +:+ " created successfully.")
     end)
    (fun e => Ret (false, "Failed to create order: " +:+ str e)).

Definition create_order_detail (order_id product_id : string) (quantity : pyval)
  : prog (bool * string) :=
  match py_int quantity with
  | None => Ret (false, "Quantity must be an integer.")
  | Some quantity =>
      let* order := call (Order_first order_id) in
      match order with
      | None => Ret (false, "Order does not exist.")
      | Some order =>
          let* inventory_item := call (Inventory_first_by_product product_id) in
          match inventory_item with
          | None => Ret (false, "Not enough inventory or product does not exist.")
          | Some inventory_item =>
              if Inventory.quantity inventory_item <? quantity
              then Ret (false, "Not enough inventory or product does not exist.")
              else
                try_except
                  (call (Inventory_update (Inventory.inventory_id inventory_item)
                                          (dec__quantity quantity)) ;;
                   call (OrderDetails_save (Order.order_id order) product_id quantity) ;;
                   Ret (true, "Order detail added successfully."))
                  (fun e =>
                     call (Inventory_update (Inventory.inventory_id inventory_item)
                                            (inc__quantity quantity)) ;;
                     Ret (false, "Failed to create order detail: " +:+ str e))
          end
      end
  end.

Definition update_inventory_quantity (inventory_id : string) (new_quantity : pyval)
  : prog (bool * string) :=
  let* inventory := call (Inventory_first_by_id inventory_id) in
  match inventory with
  | Some inventory =>
      let* q := IntField_clean "Inventory" (Inventory.inventory_id inventory)
                               "quantity" new_quantity in
      call (Inventory_save (Inventory.Doc (Inventory.inventory_id inventory)
                                          (Inventory.product_id inventory) q
                                          (Inventory.location inventory))) ;;
      Ret (true, "Inventory item " +:+ inventory_id +:+ " updated successfully.")
  | None => Ret (false, "Inventory item not found.")
  end.

(** [new_retailer_id] defaults to [None]; [if new_retailer_id:] holds for a
    text that is not empty. *)
Definition update_order (order_id : string) (new_retailer_id : option string)
  : prog (bool * string) :=
  let* order := call (Order_first order_id) in
  match order with
  | None => Ret (false, "Order not found.")
  | Some order =>
      let save_and_report (order : Order.doc) : prog (bool * string) :=
        call (Order_save order) ;;
        Ret (true, "Order " +:+ order_id +:+ " updated.") in
      if truthy (default "" new_retailer_id) then
        let* new_retailer := call (Retailer_first (default "" new_retailer_id)) in
        match new_retailer with
        | Some new_retailer =>
            save_and_report (Order.Doc (Order.order_id order)
                                       (Retailer.retailer_id new_retailer)
                                       (Order.order_date order))
        | None => Ret (false, "New retailer not found. Order's retailer not updated.")
        end
      else save_and_report order
  end.

Definition update_order_detail (order_id product_id : string) (new_quantity : pyval)
  : prog (bool * string) :=
  match py_int new_quantity with
  | None => Ret (false, "Quantity must be an integer.")
  | Some new_quantity =>
      let* order_detail := call (OrderDetails_first order_id product_id) in
      match order_detail with
      | None => Ret (false, "Order detail not found.")
      | Some order_detail =>
          let* inventory_item := call (Inventory_first_by_product product_id) in
          match inventory_item with
          | None => Ret (false, "Inventory item not found.")
          | Some inventory_item =>
              let quantity_difference := new_quantity - OrderDetails.quantity order_detail in
              if (0 <? quantity_difference)
                 && (Inventory.quantity inventory_item <? quantity_difference)
              then Ret (false, "Insufficient inventory to fulfill the updated quantity.")
              else
                try_except
                  (call (Inventory_update (Inventory.inventory_id inventory_item)
                                          (inc__quantity (- quantity_difference))) ;;
                   call (OrderDetails_set_quantity (OrderDetails.id order_detail)
                                                   new_quantity) ;;
                   Ret (true, "Order detail and inventory updated successfully."))
                  (fun e => Ret (false, "Failed to update order detail: " +:+ str e))
          end
      end
  end.

Definition delete_order_detail (order_id product_id : string) : prog (bool * string) :=
  let* order_detail := call (OrderDetails_first order_id product_id) in
  match order_detail with
  | None => Ret (false, "Order detail not found.")
  | Some order_detail =>
      let* inventory_item := call (Inventory_first_by_product product_id) in
      match inventory_item with
      | None => Ret (false, "Inventory item not found for this product.")
      | Some inventory_item =>
          try_except
            (call (Inventory_update (Inventory.inventory_id inventory_item)
                                    (inc__quantity (OrderDetails.quantity order_detail))) ;;
             call (OrderDetails_delete (OrderDetails.id order_detail)) ;;
             Ret (true, "Order detail deleted successfully and inventory updated."))
            (fun e => Ret (false, "Failed to delete order detail: " +:+ str e))
      end
  end.

End db.

(** ** [redis_db.py] *)

Module redis_db.

Definition create_supplier (supplier_id name location contact_info : string)
  : prog (bool * string) :=
  let key := "supplier:" +:+ supplier_id in
  let* present := call (Redis_exists key) in
  if present then Ret (false, "Supplier already exists.")
  else
    call (Redis_hmset key [("name", name); ("location", location);
                           ("contact_info", contact_info)]) ;;
    Ret (true, "Supplier added to Redis.").

Definition create_product (product_id name description : string) (price : pyval)
    (supplier_id : string) : prog (bool * string) :=
  let* supplier := call (Redis_exists ("supplier:" +:+ supplier_id)) in
  if negb supplier then Ret (false, "Supplier does not exist. Add the supplier first.")
  else
    let key := "product:" +:+ product_id in
    let* present := call (Redis_exists key) in
    if present then Ret (false, "Product already exists.")
    else
      call (Redis_hmset key [("name", name); ("description", description);
                             ("price", py_str price); ("supplier_id", supplier_id)]) ;;
      Ret (true, "Product added to Redis.").

End redis_db.

(** ** Observations on a world *)

(** The quantity on hand for a product: that of the record the order-line
    functions work on, the first inventory record of the product. *)
Definition stock (product_id : string) (w : world) : option Z :=
  Inventory.quantity <$> List.find (has_product_id product_id) (Inventory_objects (mongo w)).

(** The line [retrieve_order_detail], [update_order_detail] and
    [delete_order_detail] work on for a pair of order and product. *)
Definition line_of (order_id product_id : string) (w : world) : option OrderDetails.doc :=
  List.find (is_line order_id product_id) (OrderDetails_objects (mongo w)).

(** The store accepts the next [n] writes. *)
Fixpoint writes_succeed (n : nat) (o : list (option string)) : bool :=
  match n, o with
  | O, _ => true
  | S _, [] => true
  | S n', None :: o' => writes_succeed n' o'
  | S _, Some _ :: _ => false
  end.

(** The writes a call sends to the stores, in the order it sends them,
    whether the store applies them or raises. *)
Definition as_write {B : Type} (op : store_op B) : list (store_op unit) :=
  match op with
  | Inventory_save d => [Inventory_save d]
  | Order_save d => [Order_save d]
  | OrderDetails_save o p q => [OrderDetails_save o p q]
  | Inventory_update pk u => [Inventory_update pk u]
  | OrderDetails_set_quantity pk q => [OrderDetails_set_quantity pk q]
  | OrderDetails_delete pk => [OrderDetails_delete pk]
  | Redis_hmset key mapping => [Redis_hmset key mapping]
  | _ => []
  end.

Fixpoint writes_sent {A : Type} (p : prog A) (w : world) : list (store_op unit) :=
  match p with
  | Do op k => let (r, w') := exec op w in (as_write op ++ writes_sent (k r) w')%list
  | _ => []
  end.

Definition inventory_nonneg (w : world) : Prop :=
  Forall (fun d => 0 <= Inventory.quantity d) (Inventory_objects (mongo w)).

(** The debits that fit, in the words of the specification: going through
    the requested amounts in order, an amount is granted when it does not
    exceed what is left, and what is left shrinks by the granted amounts
    only. *)
Fixpoint granted (available : Z) (amounts : list Z) : list bool :=
  match amounts with
  | [] => []
  | a :: amounts' =>
      if available <? a then false :: granted available amounts'
      else true :: granted (available - a) amounts'
  end.

Fixpoint remaining (available : Z) (amounts : list Z) : Z :=
  match amounts with
  | [] => available
  | a :: amounts' =>
      if available <? a then remaining available amounts'
      else remaining (available - a) amounts'
  end.

(** The program a call has become once it has ended. *)
Definition finished {A : Type} (r : outcome A) : prog A :=
  match r with
  | Return a => Ret a
  | Raise e => Throw e
  end.

(** What a create answers when the store accepts every write. *)
Definition verdict (fits : bool) : outcome (bool * string) :=
  if fits then Return (true, "Order detail added successfully.")
  else Return (false, "Not enough inventory or product does not exist.").

(** Debit requests on one product, each for an order and an amount, as the
    creates that carry them out. *)
Definition debit_calls (product_id : string) (requests : list (string * Z))
  : list (prog (bool * string)) :=
  List.map (fun r => db.create_order_detail r.1 product_id (PyInt r.2)) requests.

(** The store keeps one inventory record per primary key. *)
Definition inventory_ids_unique (w : world) : Prop :=
  List.NoDup (List.map Inventory.inventory_id (Inventory_objects (mongo w))).

(** ** Example states *)

(** A shop with two products on hand, ten of P1 and two of P2, and two
    orders of one retailer; no order line yet. *)
Definition shop : Mongo :=
  MkMongo [Retailer.Doc "R1" "Acme" "Leeds" "acme@example.org"]
          [Order.Doc "O1" "R1" 0; Order.Doc "O2" "R1" 0]
          [Inventory.Doc "I1" "P1" 10 "A1"; Inventory.Doc "I2" "P2" 2 "B4"]
          [] 0.

(** The same shop after order O1 took four of P1. *)
Definition shop_with_line : Mongo :=
  MkMongo [Retailer.Doc "R1" "Acme" "Leeds" "acme@example.org"]
          [Order.Doc "O1" "R1" 0; Order.Doc "O2" "R1" 0]
          [Inventory.Doc "I1" "P1" 6 "A1"; Inventory.Doc "I2" "P2" 2 "B4"]
          [OrderDetails.Doc 0 "O1" "P1" 4] 1.

(** A catalog with supplier S1 and its product P1. *)
Definition catalog : gmap string (gmap string string) :=
  <["product:P1" := <["name" := "Bolt"]> (<["supplier_id" := "S1"]> ∅)]>
    (<["supplier:S1" := <["name" := "Acme Metals"]> ∅]> ∅).

(** A world where the store accepts every write. *)
Definition calm (m : Mongo) : world := MkWorld m catalog [] 1000.

(** A world where the store fails the writes the list says. *)
Definition faulty (m : Mongo) (faults : list (option string)) : world :=
  MkWorld m catalog faults 1000.

(** ** Footprints *)

(** The operations that leave the orders, the retailers, the catalog and the
    clock alone: every query, and the writes to the inventory and to the
    order lines. *)
Definition ledger_op {B : Type} (op : store_op B) : bool :=
  match op with
  | Order_save _ => false
  | Redis_hmset _ _ => false
  | _ => true
  end.

(** The operations that leave the document store alone: every query, and
    the writes to the catalog. *)
Definition catalog_op {B : Type} (op : store_op B) : bool :=
  match op with
  | Redis_hmset _ _ => true
  | Inventory_save _ | Order_save _ | OrderDetails_save _ _ _ => false
  | Inventory_update _ _ | OrderDetails_set_quantity _ _ | OrderDetails_delete _ => false
  | _ => true
  end.

(** A program all of whose store operations, on every path, are among the
    allowed ones. *)
Inductive uses_only (allowed : forall B : Type, store_op B -> bool) {A : Type}
  : prog A -> Prop :=
| uses_Ret (a : A) : uses_only allowed (Ret a)
| uses_Throw (e : exn) : uses_only allowed (Throw e)
| uses_Do {B : Type} (op : store_op B) (k : outcome B -> prog A) :
    allowed B op = true ->
    (forall r, uses_only allowed (k r)) ->
    uses_only allowed (Do op k).

Definition same_orders_and_catalog (w w' : world) : Prop :=
  Order_objects (mongo w') = Order_objects (mongo w)
  /\ Retailer_objects (mongo w') = Retailer_objects (mongo w)
  /\ redis w' = redis w
  /\ clock w' = clock w.

(** ** The rest of the interface of the stores *)

(** The exceptions of the functions below: those of the store, a reference
    to a document that is gone, a query on a name that is no field of the
    document class, a missing key of a dict, an index past the end of a
    list. *)
Inductive pyexn : Type :=
| Stored (e : exn)
| DoesNotExist (msg : string)
| InvalidQueryError (field : string)
| KeyError (key : string)
| IndexError (msg : string).

Inductive result (A : Type) : Type :=
| Value (a : A)
| Exception (e : pyexn).
Arguments Value {A} a.
Arguments Exception {A} e.

(** What a function hands back beside its flag: a message or a dict.  A
    dict is compared without regard to the order of its keys, hence a finite
    map. *)
Inductive pyobj : Type :=
| Str (s : string)
| Dict (d : gmap string pyval).

(** The operations of [store_op], and the ones the remaining functions
    need: [_all] is the iteration over [Cls.objects], [Order_dereference] the
    access to the order behind a reference field, [Order_with_id] the query
    [Order.objects.with_id], [Redis_keys] the keys under a prefix (for
    [keys] and [scan_iter] with the pattern prefix followed by a star), each
    key once, in an order the store chooses. *)
Inductive wide_op : Type -> Type :=
| Narrow {B : Type} (op : store_op B) : wide_op B
| Retailer_save (d : Retailer.doc) : wide_op unit
| Retailer_delete (pk : string) : wide_op unit
| Order_delete (pk : string) : wide_op unit
| Inventory_delete (pk : string) : wide_op unit
| Retailer_all : wide_op (list Retailer.doc)
| Inventory_all : wide_op (list Inventory.doc)
| OrderDetails_all : wide_op (list OrderDetails.doc)
| Order_dereference (pk : string) : wide_op Order.doc
| Order_with_id (pk : string) : wide_op (option Order.doc)
| Redis_hgetall (key : string) : wide_op (gmap string string)
| Redis_keys (prefix : string) : wide_op (list string)
| Redis_delete (key : string) : wide_op bool.

Definition with_retailers (l : list Retailer.doc) (m : Mongo) : Mongo :=
  MkMongo l (Order_objects m) (Inventory_objects m) (OrderDetails_objects m) (next_id m).

(** A write that answers [answer]: it consults the oracle as [write]
    does. *)
Definition commit {B : Type} (answer : B) (change : world -> world) (w : world)
  : result B * world :=
  match oracle w with
  | Some msg :: o => (Exception (Stored (OperationError msg)), with_oracle o w)
  | None :: o => (Value answer, change (with_oracle o w))
  | [] => (Value answer, change w)
  end.

Definition perform {B : Type} (op : wide_op B) (w : world) : result B * world :=
  match op in wide_op T return result T * world with
  | Narrow op =>
      match exec op w with
      | (Return b, w') => (Value b, w')
      | (Raise e, w') => (Exception (Stored e), w')
      end
  | Retailer_save d =>
      commit tt (fun w0 => with_mongo (with_retailers
        (upsert (has_retailer_id (Retailer.retailer_id d)) d
                (Retailer_objects (mongo w0))) (mongo w0)) w0) w
  | Retailer_delete pk =>
      commit tt (fun w0 => with_mongo (with_retailers
        (delete_where (has_retailer_id pk) (Retailer_objects (mongo w0))) (mongo w0)) w0) w
  | Order_delete pk =>
      commit tt (fun w0 => with_mongo (with_orders
        (delete_where (has_order_id pk) (Order_objects (mongo w0))) (mongo w0)) w0) w
  | Inventory_delete pk =>
      commit tt (fun w0 => with_mongo (with_inventory
        (delete_where (has_inventory_id pk) (Inventory_objects (mongo w0))) (mongo w0)) w0) w
  | Retailer_all => (Value (Retailer_objects (mongo w)), w)
  | Inventory_all => (Value (Inventory_objects (mongo w)), w)
  | OrderDetails_all => (Value (OrderDetails_objects (mongo w)), w)
  | Order_dereference pk =>
      match List.find (has_order_id pk) (Order_objects (mongo w)) with
      | Some d => (Value d, w)
      | None =>
          (Exception (DoesNotExist ("Trying to dereference unknown document " +:+ pk)), w)
      end
  | Order_with_id pk => (Value (List.find (has_order_id pk) (Order_objects (mongo w))), w)
  | Redis_hgetall key => (Value (default ∅ (redis w !! key)), w)
  | Redis_keys prefix =>
      (Value (List.filter (String.prefix prefix) (map_to_list (redis w)).*1), w)
  | Redis_delete key =>
      commit (bool_decide (is_Some (redis w !! key)))
             (fun w0 => with_redis (delete key (redis w0)) w0) w
  end.

Inductive script (A : Type) : Type :=
| Finish (a : A)
| Raised (e : pyexn)
| Step {B : Type} (op : wide_op B) (k : result B -> script A).
Arguments Finish {A} a.
Arguments Raised {A} e.
Arguments Step {A B} op k.

Definition ask {B : Type} (op : wide_op B) : script B :=
  Step op (fun r => match r with Value b => Finish b | Exception e => Raised e end).

Fixpoint and_then {A B : Type} (p : script A) (f : A -> script B) : script B :=
  match p with
  | Finish a => f a
  | Raised e => Raised e
  | Step op k => Step op (fun r => and_then (k r) f)
  end.

(** [try: p except ...: h]; the handler answers [None] for the exceptions
    the clause does not name. *)
Fixpoint rescue {A : Type} (p : script A) (h : pyexn -> option (script A)) : script A :=
  match p with
  | Finish a => Finish a
  | Raised e => match h e with Some q => q | None => Raised e end
  | Step op k => Step op (fun r => rescue (k r) h)
  end.

Notation "'do*' x ':=' p 'in' q" := (and_then p (fun x => q))
  (at level 10, x name, p at level 100, q at level 200).
Notation "p ';;;' q" := (and_then p (fun _ => q))
  (at level 100, q at level 200, right associativity).

Fixpoint play {A : Type} (p : script A) (w : world) : result A * world :=
  match p with
  | Finish a => (Value a, w)
  | Raised e => (Exception e, w)
  | Step op k => let (r, w') := perform op w in play (k r) w'
  end.

(** A text between double quotes. *)
Definition quoted (s : string) : string :=
  String (ascii_of_nat 34) s +:+ String (ascii_of_nat 34) "".

(** [str(e)] *)
Definition text_of (e : pyexn) : string :=
  match e with
  | Stored e => str e
  | DoesNotExist m => m
  | InvalidQueryError f => "Cannot resolve field " +:+ quoted f
  | KeyError k => "b'" +:+ k +:+ "'"
  | IndexError m => m
  end.

(** [d[key]] on a dict read from a hash. *)
Definition item (h : gmap string string) (key : string) : script string :=
  match h !! key with
  | Some v => Finish v
  | None => Raised (KeyError key)
  end.

(** [s.split(sep)] for a separator of one character. *)
Fixpoint split_on (sep : ascii) (acc s : string) : list string :=
  match s with
  | EmptyString => [rev_string "" acc]
  | String c s' =>
      if Ascii.eqb c sep then rev_string "" acc :: split_on sep "" s'
      else split_on sep (String c acc) s'
  end.

Definition split (sep : ascii) (s : string) : list string := split_on sep "" s.

(** [l[i]] *)
Definition index {A : Type} (l : list A) (i : nat) : script A :=
  match List.nth_error l i with
  | Some x => Finish x
  | None => Raised (IndexError "list index out of range")
  end.

(** *** The rest of [db.py] *)

Module db_rest.

Definition create_retailer (retailer_id name location contact_info : string)
  : script (bool * string) :=
  rescue
    (ask (Retailer_save (Retailer.Doc retailer_id name location contact_info)) ;;;
     Finish (true, "Retailer " +:+ name +:+ " created successfully."))
    (fun e => Some (Finish (false, "Failed to create retailer: " +:+ text_of e))).

Definition retrieve_inventory (inventory_id : string) : script (bool * pyobj) :=
  do* inventory := ask (Narrow (Inventory_first_by_id inventory_id)) in
  match inventory with
  | Some inventory =>
      Finish (true, Dict (<["Inventory ID" := PyStr (Inventory.inventory_id inventory)]>
                         (<["Product ID" := PyStr (Inventory.product_id inventory)]>
                          (<["Quantity" := PyInt (Inventory.quantity inventory)]>
                           (<["Location" := PyStr (Inventory.location inventory)]> ∅)))))
  | None => Finish (false, Str "Inventory item not found.")
  end.

Definition retrieve_order_detail (order_id product_id : string) : script (bool * pyobj) :=
  do* order_detail := ask (Narrow (OrderDetails_first order_id product_id)) in
  match order_detail with
  | Some order_detail =>
      do* order := ask (Order_dereference (OrderDetails.order order_detail)) in
      Finish (true, Dict (<["Order ID" := PyStr (Order.order_id order)]>
                         (<["Product ID" := PyStr (OrderDetails.product_id order_detail)]>
                          (<["Quantity" := PyInt (OrderDetails.quantity order_detail)]> ∅))))
  | None => Finish (false, Str "Order detail not found.")
  end.

Definition retrieve_retailer (retailer_id : string) : script (bool * pyobj) :=
  do* retailer := ask (Narrow (Retailer_first retailer_id)) in
  match retailer with
  | Some retailer =>
      Finish (true, Dict (<["Retailer ID" := PyStr (Retailer.retailer_id retailer)]>
                         (<["Name" := PyStr (Retailer.name retailer)]>
                          (<["Location" := PyStr (Retailer.location retailer)]>
                           (<["Contact Info" := PyStr (Retailer.contact_info retailer)]> ∅)))))
  | None => Finish (false, Str "Retailer not found.")
  end.

(** The update is the query [Retailer.objects(id=retailer.id)].  A query
    resolves the names of the declared fields and the alias [pk]; [id] is
    the name of no field of [Retailer], whose primary key is [retailer_id]
    (reading [retailer.id] is fine: the class attribute [id] is the primary
    key).  So [update] raises when it builds the query, before anything is
    sent to the store, and the function has no handler. *)
Definition update_retailer (retailer_id : string)
    (new_name new_location new_contact_info : option string) : script (bool * string) :=
  do* retailer := ask (Narrow (Retailer_first retailer_id)) in
  match retailer with
  | Some retailer =>
      if bool_decide (is_Some new_name) || bool_decide (is_Some new_location)
         || bool_decide (is_Some new_contact_info)
      then
        (Raised (InvalidQueryError "id") : script unit) ;;;
        Finish (true, "Retailer " +:+ retailer_id +:+ " updated successfully.")
      else Finish (false, "No updates provided.")
  | None => Finish (false, "Retailer not found.")
  end.

Definition delete_inventory (inventory_id : string) : script (bool * string) :=
  do* inventory := ask (Narrow (Inventory_first_by_id inventory_id)) in
  match inventory with
  | Some inventory =>
      ask (Inventory_delete (Inventory.inventory_id inventory)) ;;;
      Finish (true, "Inventory item " +:+ inventory_id +:+ " deleted successfully.")
  | None => Finish (false, "Inventory item not found.")
  end.

Definition delete_order (order_id : string) : script (bool * string) :=
  do* order := ask (Narrow (Order_first order_id)) in
  match order with
  | Some order =>
      ask (Order_delete (Order.order_id order)) ;;;
      Finish (true, "Order " +:+ order_id +:+ " deleted successfully.")
  | None => Finish (false, "Order not found.")
  end.

Definition delete_retailer (retailer_id : string) : script (bool * string) :=
  do* retailer := ask (Narrow (Retailer_first retailer_id)) in
  match retailer with
  | Some retailer =>
      ask (Retailer_delete (Retailer.retailer_id retailer)) ;;;
      Finish (true, "Retailer " +:+ retailer_id +:+ " deleted successfully.")
  | None => Finish (false, "Retailer not found.")
  end.

Definition get_all_inventory : script (list (string * string * Z * string)) :=
  do* objects := ask Inventory_all in
  Finish (List.map (fun inv => (Inventory.inventory_id inv, Inventory.product_id inv,
                                Inventory.quantity inv, Inventory.location inv)) objects).

Definition get_all_retailers : script (list (string * string * string * string)) :=
  do* objects := ask Retailer_all in
  Finish (List.map (fun ret => (Retailer.retailer_id ret, Retailer.name ret,
                                Retailer.location ret, Retailer.contact_info ret)) objects).

(** The body of the loop of [get_all_order_details] for one line (what it
    prints when the order is gone is left out). *)
Definition order_detail_row (od : OrderDetails.doc) : script (string * string * Z) :=
  do* order_id :=
    rescue
      (do* referred := ask (Order_dereference (OrderDetails.order od)) in
       do* order := ask (Order_with_id (Order.order_id referred)) in
       Finish (match order with
               | Some order => Order.order_id order
               | None => "Unknown"
               end))
      (fun e => match e with
                | DoesNotExist _ => Some (Finish "Unknown")
                | _ => None
                end) in
  let product_id :=
    if truthy (OrderDetails.product_id od) then OrderDetails.product_id od else "Unknown" in
  Finish (order_id, product_id, OrderDetails.quantity od).

Fixpoint order_detail_rows (ods : list OrderDetails.doc)
  : script (list (string * string * Z)) :=
  match ods with
  | [] => Finish []
  | od :: ods' =>
      do* row := order_detail_row od in
      do* rows := order_detail_rows ods' in
      Finish (row :: rows)
  end.

Definition get_all_order_details : script (list (string * string * Z)) :=
  do* objects := ask OrderDetails_all in
  order_detail_rows objects.

End db_rest.

(** *** The rest of [redis_db.py] *)

Module redis_db_rest.

Definition retrieve_supplier (supplier_id : string) : script (bool * pyobj) :=
  let key := "supplier:" +:+ supplier_id in
  do* present := ask (Narrow (Redis_exists key)) in
  if present then
    do* supplier := ask (Redis_hgetall key) in
    Finish (true, Dict (PyStr <$> supplier))
  else Finish (false, Str "Supplier not found.").

Definition retrieve_product (product_id : string) : script (bool * pyobj) :=
  let key := "product:" +:+ product_id in
  do* present := ask (Narrow (Redis_exists key)) in
  if present then
    do* product := ask (Redis_hgetall key) in
    Finish (true, Dict (PyStr <$> product))
  else Finish (false, Str "Product not found.").

(** The keyword arguments that are not [None], as the mapping [hmset]
    gets. *)
Definition given (kwargs : list (string * option pyval)) : list (string * string) :=
  List.flat_map (fun kv => match kv.2 with
                           | Some v => [(kv.1, py_str v)]
                           | None => []
                           end) kwargs.

Definition update_supplier (supplier_id : string) (kwargs : list (string * option pyval))
  : script (bool * string) :=
  let key := "supplier:" +:+ supplier_id in
  do* present := ask (Narrow (Redis_exists key)) in
  if negb present then Finish (false, "Supplier not found.")
  else
    match given kwargs with
    | [] => Finish (false, "No updates provided.")
    | updates =>
        ask (Narrow (Redis_hmset key updates)) ;;;
        Finish (true, "Supplier updated successfully.")
    end.

Definition update_product (product_id : string) (kwargs : list (string * option pyval))
  : script (bool * string) :=
  let key := "product:" +:+ product_id in
  do* present := ask (Narrow (Redis_exists key)) in
  if negb present then Finish (false, "Product not found.")
  else
    match given kwargs with
    | [] => Finish (false, "No updates provided.")
    | updates =>
        ask (Narrow (Redis_hmset key updates)) ;;;
        Finish (true, "Product updated successfully.")
    end.

Definition delete_supplier (supplier_id : string) : script (bool * string) :=
  let key := "supplier:" +:+ supplier_id in
  do* removed := ask (Redis_delete key) in
  if removed then Finish (true, "Supplier " +:+ supplier_id +:+ " deleted successfully.")
  else Finish (false, "Supplier " +:+ supplier_id +:+ " not found or already deleted.").

Definition delete_product (product_id : string) : script (bool * string) :=
  let key := "product:" +:+ product_id in
  do* removed := ask (Redis_delete key) in
  if removed then Finish (true, "Product " +:+ product_id +:+ " deleted successfully.")
  else Finish (false, "Product " +:+ product_id +:+ " not found or already deleted.").

(** One entry of [get_all_products]: the dict built from a key and its
    hash. *)
Definition product_details (key : string) : script (gmap string string) :=
  do* product := ask (Redis_hgetall key) in
  do* product_id := index (split ":" key) 1 in
  do* name := item product "name" in
  do* description := item product "description" in
  do* price := item product "price" in
  do* supplier_id := item product "supplier_id" in
  Finish (<["product_id" := product_id]>
          (<["name" := name]>
           (<["description" := description]>
            (<["price" := price]>
             (<["supplier_id" := supplier_id]> ∅))))).

Definition supplier_details (key : string) : script (gmap string string) :=
  do* supplier := ask (Redis_hgetall key) in
  do* supplier_id := index (split ":" key) 1 in
  do* name := item supplier "name" in
  do* location := item supplier "location" in
  do* contact_info := item supplier "contact_info" in
  Finish (<["supplier_id" := supplier_id]>
          (<["name" := name]>
           (<["location" := location]>
            (<["contact_info" := contact_info]> ∅)))).

Fixpoint for_each {A : Type} (body : string -> script A) (keys : list string)
  : script (list A) :=
  match keys with
  | [] => Finish []
  | key :: keys' =>
      do* x := body key in
      do* xs := for_each body keys' in
      Finish (x :: xs)
  end.

Definition get_all_products : script (list (gmap string string)) :=
  do* product_keys := ask (Redis_keys "product:") in
  for_each product_details product_keys.

Definition get_all_suppliers : script (list (gmap string string)) :=
  do* supplier_keys := ask (Redis_keys "supplier:") in
  for_each supplier_details supplier_keys.

End redis_db_rest.

(** *** [redisQueries.py] *)

Module redisQueries.

(** The names the loop of [list_products_by_supplier] collects from the
    keys it still has to visit. *)
Fixpoint names_of (supplier_id : string) (keys : list string) : script (list string) :=
  match keys with
  | [] => Finish []
  | product_key :: keys' =>
      do* product := ask (Redis_hgetall product_key) in
      if String.eqb (default "" (product !! "supplier_id")) supplier_id
      then
        do* name := item product "name" in
        do* names := names_of supplier_id keys' in
        Finish (name :: names)
      else names_of supplier_id keys'
  end.

Definition list_products_by_supplier (supplier_id : string) : script (list string) :=
  do* all_product_keys := ask (Redis_keys "product:") in
  names_of supplier_id all_product_keys.

End redisQueries.

(** ** Well-formed catalogs *)

(** Every product of the catalog has the four attributes [create_product]
    stores. *)
Definition complete_products (kv : gmap string (gmap string string)) : Prop :=
  forall (key : string) (h : gmap string string),
    String.prefix "product:" key = true -> kv !! key = Some h ->
    is_Some (h !! "name") /\ is_Some (h !! "description")
    /\ is_Some (h !! "price") /\ is_Some (h !! "supplier_id").

(** The text before the first colon. *)
Fixpoint before_colon (s : string) : string :=
  match s with
  | EmptyString => EmptyString
  | String c s' => if Ascii.eqb c ":" then EmptyString else String c (before_colon s')
  end.

Fixpoint has_colon (s : string) : bool :=
  match s with
  | EmptyString => false
  | String c s' => Ascii.eqb c ":" || has_colon s'
  end.

(** The dict [get_all_products] builds for a product of a complete
    catalog. *)
Definition listed (product_id : string) (h : gmap string string) : gmap string string :=
  <["product_id" := before_colon product_id]>
    (<["name" := default "" (h !! "name")]>
     (<["description" := default "" (h !! "description")]>
      (<["price" := default "" (h !! "price")]>
       (<["supplier_id" := default "" (h !! "supplier_id")]> ∅)))).

(** A text without its first [n] characters. *)
Fixpoint skip (n : nat) (s : string) : string :=
  match n, s with
  | S n', String _ s' => skip n' s'
  | _, _ => s
  end.

(** A catalog as the functions build it: supplier S1 and two of its
    products, one of them with a colon in its id. *)
Definition full_catalog : gmap string (gmap string string) :=
  <["product:P1" := <["name" := "Bolt"]> (<["description" := "M8"]>
                     (<["price" := "3"]> (<["supplier_id" := "S1"]> ∅)))]>
    (<["product:A:7" := <["name" := "Nut"]> (<["description" := "M8"]>
                         (<["price" := "1"]> (<["supplier_id" := "S1"]> ∅)))]>
       (<["supplier:S1" := <["name" := "Acme Metals"]> (<["location" := "Leeds"]>
                            (<["contact_info" := "acme@example.org"]> ∅))]> ∅)).

Definition tidy (m : Mongo) : world := MkWorld m full_catalog [] 1000.

(** ** Two creates at once *)

(** How far a create has come: nothing done; order read; inventory read
    and found sufficient, with the record as it was read; inventory
    debited; line saved; turned down by the check. *)
Inductive stage : Type :=
| Fresh
| SawOrder
| Checked (snapshot : Inventory.doc)
| Debited (snapshot : Inventory.doc)
| Granted
| Refused.

(** What is left to run of [db.create_order_detail] at each stage. *)
Definition program_at (order_id product_id : string) (quantity : Z) (order : Order.doc)
    (st : stage) : prog (bool * string) :=
  let rollback (snapshot : Inventory.doc) (e : exn) : prog (bool * string) :=
    call (Inventory_update (Inventory.inventory_id snapshot) (inc__quantity quantity)) ;;
    Ret (false, "Failed to create order detail: " +:+ str e) in
  match st with
  | Fresh => db.create_order_detail order_id product_id (PyInt quantity)
  | SawOrder =>
      let* inventory_item := call (Inventory_first_by_product product_id) in
      match inventory_item with
      | None => Ret (false, "Not enough inventory or product does not exist.")
      | Some inventory_item =>
          if Inventory.quantity inventory_item <? quantity
          then Ret (false, "Not enough inventory or product does not exist.")
          else
            try_except
              (call (Inventory_update (Inventory.inventory_id inventory_item)
                                      (dec__quantity quantity)) ;;
               call (OrderDetails_save (Order.order_id order) product_id quantity) ;;
               Ret (true, "Order detail added successfully."))
              (rollback inventory_item)
      end
  | Checked snapshot =>
      try_except
        (call (Inventory_update (Inventory.inventory_id snapshot) (dec__quantity quantity)) ;;
         call (OrderDetails_save (Order.order_id order) product_id quantity) ;;
         Ret (true, "Order detail added successfully."))
        (rollback snapshot)
  | Debited snapshot =>
      try_except
        (call (OrderDetails_save (Order.order_id order) product_id quantity) ;;
         Ret (true, "Order detail added successfully."))
        (rollback snapshot)
  | Granted => Ret (true, "Order detail added successfully.")
  | Refused => Ret (false, "Not enough inventory or product does not exist.")
  end.

(** What a create at a stage has taken from the stock. *)
Definition taken (st : stage) (quantity : Z) : Z :=
  match st with
  | Debited _ | Granted => quantity
  | _ => 0
  end.

(** The record a create has read is the record of the product. *)
Definition reads_record (item : Inventory.doc) (st : stage) : Prop :=
  match st with
  | Checked snapshot | Debited snapshot =>
      Inventory.inventory_id snapshot = Inventory.inventory_id item
  | _ => True
  end.

(** The world while the creates run: no failure of the store, the orders
    of the start, and the record of the product lowered by what has been
    taken. *)
Definition ledger_at (w0 : world) (product_id : string) (item : Inventory.doc) (total : Z)
    (w : world) : Prop :=
  oracle w = []
  /\ Order_objects (mongo w) = Order_objects (mongo w0)
  /\ exists item',
       List.find (has_product_id product_id) (Inventory_objects (mongo w)) = Some item'
       /\ Inventory.inventory_id item' = Inventory.inventory_id item
       /\ Inventory.quantity item' = Inventory.quantity item - total.

(** ** [int()] on some texts *)

(** Signs, single underscores and white space at the ends are accepted,
    and so are the decimal digits and the spaces outside ASCII (the
    Arabic-Indic three, fullwidth digits, the no-break space); the
    characters 28 to 31 are not skipped, and a text that is no integer
    literal is refused. *)
Example int_of_str_examples :
  int_of_str " +1_000 " = Some 1000
  /\ int_of_str "٣" = Some 3
  /\ int_of_str "-１２" = Some (-12)
  /\ int_of_str " 7　" = Some 7
  /\ int_of_str (String (ascii_of_nat 28) "4") = None
  /\ int_of_str "4.0" = None
  /\ int_of_str "1__0" = None
  /\ int_of_str "" = None.
Proof. vm_compute. repeat split; reflexivity. Qed.

(** ** Lemmas on the collections *)

Lemma apply_operator_undo (q : Z) (d : Inventory.doc) :
  apply_operator (inc__quantity q) (apply_operator (dec__quantity q) d) = d.
Proof.
  destruct d as [i p n l]; unfold apply_operator; cbn.
  f_equal; lia.
Qed.


Lemma has_inventory_id_apply (pk : string) (u : update_operator) (d : Inventory.doc) :
  has_inventory_id pk (apply_operator u d) = has_inventory_id pk d.
Proof. reflexivity. Qed.

Lemma has_product_id_apply (p : string) (u : update_operator) (d : Inventory.doc) :
  has_product_id p (apply_operator u d) = has_product_id p d.
Proof. reflexivity. Qed.

Lemma has_inventory_id_self (d : Inventory.doc) :
  has_inventory_id (Inventory.inventory_id d) d = true.
Proof. apply String.eqb_refl. Qed.

Lemma has_id_self (d : OrderDetails.doc) : has_id (OrderDetails.id d) d = true.
Proof. apply Nat.eqb_refl. Qed.

Lemma update_where_undo (pk : string) (q : Z) (l : list Inventory.doc) :
  update_where (has_inventory_id pk) (apply_operator (inc__quantity q))
    (update_where (has_inventory_id pk) (apply_operator (dec__quantity q)) l) = l.
Proof.
  unfold update_where.
  induction l as [|d l IH]; cbn; [reflexivity|].
  rewrite IH; f_equal.
  destruct (has_inventory_id pk d) eqn:E.
  - rewrite has_inventory_id_apply, E. apply apply_operator_undo.
  - rewrite E. reflexivity.
Qed.

Lemma update_where_id {A : Type} (sel : A -> bool) (f : A -> A) (l : list A) :
  (forall x, f x = x) -> update_where sel f l = l.
Proof.
  intros Hf. unfold update_where.
  induction l as [|x l IH]; cbn; [reflexivity|].
  rewrite IH, Hf. destruct (sel x); reflexivity.
Qed.

(** A query sees the updated document where it saw the original one, as
    long as the update leaves alone what the query looks at. *)
Lemma find_update_where {A : Type} (P sel : A -> bool) (f : A -> A) (l : list A) :
  (forall x, P (f x) = P x) ->
  List.find P (update_where sel f l)
  = (fun x => if sel x then f x else x) <$> List.find P l.
Proof.
  intros HP. unfold update_where.
  induction l as [|x l IH]; cbn; [reflexivity|].
  destruct (sel x) eqn:E.
  - rewrite HP. destruct (P x); cbn; [rewrite E; reflexivity | exact IH].
  - destruct (P x); cbn; [rewrite E; reflexivity | exact IH].
Qed.

Lemma find_app_new {A : Type} (P : A -> bool) (l : list A) (x : A) :
  List.find P l = None -> P x = true -> List.find P (l ++ [x]) = Some x.
Proof.
  intros Hl Hx.
  induction l as [|y l IH]; cbn in *.
  - rewrite Hx. reflexivity.
  - destruct (P y); [discriminate | auto].
Qed.

Lemma find_holds {A : Type} (P : A -> bool) (l : list A) (x : A) :
  List.find P l = Some x -> P x = true.
Proof. intros H. apply List.find_some in H. tauto. Qed.

Lemma find_upsert {A : Type} (P : A -> bool) (d : A) (l : list A) :
  P d = true -> List.find P (upsert P d l) = Some d.
Proof.
  intros Hd.
  induction l as [|x l IH]; cbn.
  - rewrite Hd. reflexivity.
  - destruct (P x) eqn:E; cbn; [rewrite Hd | rewrite E]; auto.
Qed.

Lemma Forall_upsert {A : Type} (Q : A -> Prop) (same : A -> bool) (d : A) (l : list A) :
  Forall Q l -> Q d -> Forall Q (upsert same d l).
Proof.
  intros Hl Hd.
  induction Hl as [|x l Hx Hl IH]; cbn.
  - constructor; auto.
  - destruct (same x); constructor; auto.
Qed.

(** ** Tactics *)

Ltac exec_store :=
  cbn [run bind call exec try_except write apply_write str
       oracle mongo redis clock with_oracle with_mongo with_redis
       with_inventory with_orders with_order_details
       Retailer_objects Order_objects Inventory_objects OrderDetails_objects next_id].

Ltac exec_store_in H :=
  cbn [run bind call exec try_except write apply_write str
       oracle mongo redis clock with_oracle with_mongo with_redis
       with_inventory with_orders with_order_details
       Retailer_objects Order_objects Inventory_objects OrderDetails_objects next_id] in H.

Ltac open_world w :=
  let rs := fresh "retailers" in
  let os := fresh "orders" in
  let ivs := fresh "inventory" in
  let ds := fresh "details" in
  let n := fresh "n" in
  let r := fresh "kv" in
  let o := fresh "faults" in
  let c := fresh "now" in
  destruct w as [[rs os ivs ds n] r o c];
  cbn [oracle mongo redis clock Retailer_objects Order_objects Inventory_objects
       OrderDetails_objects next_id] in *.

(** As [exec_store], following the writes sent as well. *)
Ltac trace_store :=
  cbn [writes_sent as_write app
       run bind call exec try_except write apply_write str
       oracle mongo redis clock with_oracle with_mongo with_redis
       with_inventory with_orders with_order_details
       Retailer_objects Order_objects Inventory_objects OrderDetails_objects next_id].

(** Splits on what the oracle says about the next write. *)
Ltac next_write faults :=
  let m := fresh "m" in
  destruct faults as [|[m|] faults]; cbn [writes_succeed] in *; try discriminate.

(** ** Order-line creation *)

(** C1 (defect of the code).  When a create has passed validation and the
    checks on the order and on the inventory:
    - if the store accepts the debit and then refuses the new order line,
      the create sends three writes, the debit of [q], the line and the
      credit of the same [q], and returns the failure with both collections
      as they were before the call (the failure is returned once the store
      has accepted the credit);
    - more generally, whenever the store accepts the debit, a create that
      returns a failure has left the document store as it was;
    - but if the store refuses the debit itself, the same handler runs: the
      create sends the debit and the credit, and returns the failure with
      the quantity on hand raised by [q], which was never taken off;
    - and if the store accepts the debit and refuses both the line and the
      credit, the exception of the credit leaves the function and the
      quantity on hand stays lowered by [q]. *)
Theorem create_order_detail_compensates :
  (forall (w : world) (order_id product_id : string) (quantity : pyval) (q : Z)
          (order : Order.doc) (item : Inventory.doc) (msg : string)
          (rest : list (option string)),
      py_int quantity = Some q ->
      List.find (has_order_id order_id) (Order_objects (mongo w)) = Some order ->
      List.find (has_product_id product_id) (Inventory_objects (mongo w)) = Some item ->
      q <= Inventory.quantity item ->
      oracle w = None :: Some msg :: rest ->
      writes_succeed 1 rest = true ->
      exists w',
        run (db.create_order_detail order_id product_id quantity) w
        = (Return (false, "Failed to create order detail: " +:+ msg), w')
        /\ writes_sent (db.create_order_detail order_id product_id quantity) w
           = [Inventory_update (Inventory.inventory_id item) (dec__quantity q);
              OrderDetails_save order_id product_id q;
              Inventory_update (Inventory.inventory_id item) (inc__quantity q)]
        /\ mongo w' = mongo w)
  /\ (forall (w w' : world) (order_id product_id : string) (quantity : pyval)
             (msg : string),
      writes_succeed 1 (oracle w) = true ->
      run (db.create_order_detail order_id product_id quantity) w = (Return (false, msg), w') ->
      mongo w' = mongo w)
  /\ (forall (w : world) (order_id product_id : string) (quantity : pyval) (q : Z)
             (order : Order.doc) (item : Inventory.doc) (msg : string)
             (rest : list (option string)),
      py_int quantity = Some q ->
      List.find (has_order_id order_id) (Order_objects (mongo w)) = Some order ->
      List.find (has_product_id product_id) (Inventory_objects (mongo w)) = Some item ->
      q <= Inventory.quantity item ->
      oracle w = Some msg :: rest ->
      writes_succeed 1 rest = true ->
      exists w',
        run (db.create_order_detail order_id product_id quantity) w
        = (Return (false, "Failed to create order detail: " +:+ msg), w')
        /\ writes_sent (db.create_order_detail order_id product_id quantity) w
           = [Inventory_update (Inventory.inventory_id item) (dec__quantity q);
              Inventory_update (Inventory.inventory_id item) (inc__quantity q)]
        /\ stock product_id w' = Some (Inventory.quantity item + q))
  /\ (forall (w : world) (order_id product_id : string) (quantity : pyval) (q : Z)
             (order : Order.doc) (item : Inventory.doc) (msg msg' : string)
             (rest : list (option string)),
      py_int quantity = Some q ->
      List.find (has_order_id order_id) (Order_objects (mongo w)) = Some order ->
      List.find (has_product_id product_id) (Inventory_objects (mongo w)) = Some item ->
      q <= Inventory.quantity item ->
      oracle w = None :: Some msg :: Some msg' :: rest ->
      exists w',
        run (db.create_order_detail order_id product_id quantity) w
        = (Raise (OperationError msg'), w')
        /\ stock product_id w' = Some (Inventory.quantity item - q)
        /\ OrderDetails_objects (mongo w') = OrderDetails_objects (mongo w)).
Proof.
  split; [| split; [| split]].
  - intros w order_id product_id quantity q order item msg rest Hq Ho Hi Hle Hor Hrest.
    assert (Hid : Order.order_id order = order_id).
    { apply find_holds in Ho. symmetry. apply String.eqb_eq. exact Ho. }
    open_world w; subst faults.
    unfold db.create_order_detail. rewrite Hq.
    trace_store. rewrite Ho.
    trace_store. rewrite Hi.
    apply Z.ltb_ge in Hle. rewrite Hle.
    trace_store. rewrite Hid.
    next_write rest; trace_store;
      (eexists; split; [reflexivity|]);
      (split; [reflexivity|]); exec_store;
      rewrite update_where_undo; reflexivity.
  - intros w w' o p v msg Hok H.
    open_world w.
    unfold db.create_order_detail in H.
    destruct (py_int v) as [q|]; exec_store_in H; [| inversion H; reflexivity].
    destruct (List.find (has_order_id o) orders) as [order|];
      exec_store_in H; [| inversion H; reflexivity].
    destruct (List.find (has_product_id p) inventory) as [item|];
      exec_store_in H; [| inversion H; reflexivity].
    destruct (Inventory.quantity item <? q); exec_store_in H; [inversion H; reflexivity |].
    destruct faults as [|[m|] faults]; cbn [writes_succeed] in Hok;
      exec_store_in H; try discriminate.
    destruct faults as [|[m|] faults]; exec_store_in H; try discriminate.
    destruct faults as [|[m'|] faults]; exec_store_in H; try discriminate;
      inversion H; subst; cbn [mongo]; rewrite update_where_undo; reflexivity.
  - intros w order_id product_id quantity q order item msg rest Hq Ho Hi Hle Hor Hrest.
    open_world w; subst faults.
    unfold db.create_order_detail. rewrite Hq.
    trace_store. rewrite Ho.
    trace_store. rewrite Hi.
    apply Z.ltb_ge in Hle. rewrite Hle.
    trace_store.
    next_write rest; trace_store;
      (eexists; split; [reflexivity|]); (split; [reflexivity|]);
      unfold stock; exec_store;
      rewrite find_update_where by apply has_product_id_apply;
      rewrite Hi; cbn [fmap option_fmap option_map];
      rewrite has_inventory_id_self; reflexivity.
  - intros w order_id product_id quantity q order item msg msg' rest Hq Ho Hi Hle Hor.
    open_world w; subst faults.
    unfold db.create_order_detail. rewrite Hq.
    exec_store. rewrite Ho.
    exec_store. rewrite Hi.
    apply Z.ltb_ge in Hle. rewrite Hle.
    exec_store.
    eexists; split; [reflexivity|]; split; [| reflexivity].
    unfold stock; exec_store.
    rewrite find_update_where by apply has_product_id_apply.
    rewrite Hi; cbn [fmap option_fmap option_map].
    rewrite has_inventory_id_self. reflexivity.
Qed.

Lemma create_order_detail_compensates_witness :
  (exists w',
     run (db.create_order_detail "O1" "P1" (PyInt 4)) (faulty shop [None; Some "timed out"])
     = (Return (false, "Failed to create order detail: timed out"), w')
     /\ writes_sent (db.create_order_detail "O1" "P1" (PyInt 4))
                    (faulty shop [None; Some "timed out"])
        = [Inventory_update "I1" (dec__quantity 4);
           OrderDetails_save "O1" "P1" 4;
           Inventory_update "I1" (inc__quantity 4)]
     /\ mongo w' = shop)
  /\ mongo (snd (run (db.create_order_detail "O1" "P1" (PyInt 4))
                     (faulty shop [None; Some "timed out"; None]))) = shop
  /\ (exists w',
        run (db.create_order_detail "O1" "P1" (PyInt 4)) (faulty shop [Some "down"])
        = (Return (false, "Failed to create order detail: down"), w')
        /\ writes_sent (db.create_order_detail "O1" "P1" (PyInt 4))
                       (faulty shop [Some "down"])
           = [Inventory_update "I1" (dec__quantity 4);
              Inventory_update "I1" (inc__quantity 4)]
        /\ stock "P1" w' = Some 14)
  /\ (exists w',
        run (db.create_order_detail "O1" "P1" (PyInt 4))
            (faulty shop [None; Some "timed out"; Some "down"])
        = (Raise (OperationError "down"), w')
        /\ stock "P1" w' = Some 6
        /\ OrderDetails_objects (mongo w') = OrderDetails_objects shop).
Proof.
  destruct create_order_detail_compensates as (Hback & Hsame & Hslip & Hlost).
  split; [| split; [| split]].
  - apply (Hback (faulty shop [None; Some "timed out"]) "O1" "P1" (PyInt 4) 4
                 (Order.Doc "O1" "R1" 0) (Inventory.Doc "I1" "P1" 10 "A1") "timed out" []);
      try reflexivity.
    cbn. lia.
  - apply (Hsame (faulty shop [None; Some "timed out"; None]) _ "O1" "P1" (PyInt 4)
                 "Failed to create order detail: timed out");
      reflexivity.
  - apply (Hslip (faulty shop [Some "down"]) "O1" "P1" (PyInt 4) 4
                 (Order.Doc "O1" "R1" 0) (Inventory.Doc "I1" "P1" 10 "A1") "down" []);
      try reflexivity.
    cbn. lia.
  - apply (Hlost (faulty shop [None; Some "timed out"; Some "down"]) "O1" "P1" (PyInt 4) 4
                 (Order.Doc "O1" "R1" 0) (Inventory.Doc "I1" "P1" 10 "A1")
                 "timed out" "down" []);
      try reflexivity.
    cbn. lia.
Defined.

(** The last clause of the claim, that the inventory after any failed
    create is the inventory before it, fails when the store refuses the
    debit: ten of P1 before the call, fourteen after it. *)
Lemma create_order_detail_compensates_counterexample :
  ~ (forall (w w' : world) (order_id product_id : string) (quantity : pyval)
            (msg : string),
        run (db.create_order_detail order_id product_id quantity) w
        = (Return (false, msg), w') ->
        Inventory_objects (mongo w') = Inventory_objects (mongo w)).
Proof.
  intros H.
  pose proof (H (faulty shop [Some "down"])
                (faulty (with_inventory
                           [Inventory.Doc "I1" "P1" 14 "A1"; Inventory.Doc "I2" "P2" 2 "B4"]
                           shop) [])
                "O1" "P1" (PyInt 4) "Failed to create order detail: down" eq_refl) as Hinv.
  discriminate Hinv.
Qed.

(** C2.  A create whose quantity converts to the integer [q], on an existing
    order and with at least [q] on hand for the product, succeeds when the
    store accepts its two writes: the quantity on hand goes down by [q] and a
    line of quantity [q] for the order and the product is in the collection
    afterwards. *)
Theorem create_order_detail_debits
    (w : world) (order_id product_id : string) (quantity : pyval) (q : Z)
    (order : Order.doc) (item : Inventory.doc) :
  py_int quantity = Some q ->
  List.find (has_order_id order_id) (Order_objects (mongo w)) = Some order ->
  List.find (has_product_id product_id) (Inventory_objects (mongo w)) = Some item ->
  q <= Inventory.quantity item ->
  writes_succeed 2 (oracle w) = true ->
  exists w',
    run (db.create_order_detail order_id product_id quantity) w
    = (Return (true, "Order detail added successfully."), w')
    /\ stock product_id w' = Some (Inventory.quantity item - q)
    /\ In (OrderDetails.Doc (next_id (mongo w)) order_id product_id q)
          (OrderDetails_objects (mongo w')).
Proof.
  intros Hq Ho Hi Hle Hok.
  assert (Hid : Order.order_id order = order_id).
  { apply find_holds in Ho. symmetry. apply String.eqb_eq. exact Ho. }
  open_world w.
  unfold db.create_order_detail. rewrite Hq.
  exec_store. rewrite Ho.
  exec_store. rewrite Hi.
  apply Z.ltb_ge in Hle. rewrite Hle.
  next_write faults; [| next_write faults];
    exec_store; (eexists; split; [reflexivity|]);
    unfold stock; exec_store;
    (split;
     [ rewrite find_update_where by apply has_product_id_apply;
       rewrite Hi; cbn [fmap option_fmap option_map];
       rewrite has_inventory_id_self; reflexivity
     | rewrite Hid; apply in_or_app; right; left; reflexivity ]).
Qed.


Lemma create_order_detail_debits_witness :
  exists w',
    run (db.create_order_detail "O1" "P1" (PyInt 4)) (calm shop)
    = (Return (true, "Order detail added successfully."), w')
    /\ stock "P1" w' = Some 6
    /\ In (OrderDetails.Doc 0 "O1" "P1" 4) (OrderDetails_objects (mongo w')).
Proof.
  apply (create_order_detail_debits
           (calm shop) "O1" "P1" (PyInt 4) 4
           (Order.Doc "O1" "R1" 0) (Inventory.Doc "I1" "P1" 10 "A1"));
    try reflexivity.
  cbn. lia.
Defined.




(** What a successful create has done: it passed the three checks and the
    store applied both of its writes. *)
Lemma create_order_detail_success
    (w w1 : world) (order_id product_id : string) (quantity : pyval) (msg : string) :
  run (db.create_order_detail order_id product_id quantity) w = (Return (true, msg), w1) ->
  exists (q : Z) (order : Order.doc) (item : Inventory.doc),
    py_int quantity = Some q
    /\ List.find (has_order_id order_id) (Order_objects (mongo w)) = Some order
    /\ List.find (has_product_id product_id) (Inventory_objects (mongo w)) = Some item
    /\ q <= Inventory.quantity item
    /\ Inventory_objects (mongo w1)
       = update_where (has_inventory_id (Inventory.inventory_id item))
                      (apply_operator (dec__quantity q)) (Inventory_objects (mongo w))
    /\ OrderDetails_objects (mongo w1)
       = (OrderDetails_objects (mongo w)
          ++ [OrderDetails.Doc (next_id (mongo w)) order_id product_id q])%list
    /\ Order_objects (mongo w1) = Order_objects (mongo w).
Proof.
  intros H.
  open_world w.
  unfold db.create_order_detail in H.
  destruct (py_int quantity) as [q|]; exec_store_in H; [| congruence].
  destruct (List.find (has_order_id order_id) orders) as [order|] eqn:Ho;
    exec_store_in H; [| congruence].
  destruct (List.find (has_product_id product_id) inventory) as [item|] eqn:Hi;
    exec_store_in H; [| congruence].
  destruct (Inventory.quantity item <? q) eqn:Hlt; exec_store_in H; [congruence |].
  apply Z.ltb_ge in Hlt.
  assert (Hid : Order.order_id order = order_id).
  { apply find_holds in Ho. symmetry. apply String.eqb_eq. exact Ho. }
  rewrite Hid in H.
  exists q, order, item.
  destruct faults as [|[m|] faults]; exec_store_in H.
  - inversion H; subst; cbn; auto 10.
  - destruct faults as [|[m'|] faults]; exec_store_in H; congruence.
  - destruct faults as [|[m'|] faults]; exec_store_in H.
    + inversion H; subst; cbn; auto 10.
    + destruct faults as [|[m''|] faults]; exec_store_in H; congruence.
    + inversion H; subst; cbn; auto 10.
Qed.

(** C4 (amended).  When the pair of order and product has no line yet, a
    successful create followed by a delete of the same pair gives the
    inventory collection back exactly as it was before the create: the delete
    finds the new line and credits the quantity the create debited. *)
Theorem create_then_delete_restores
    (w w1 : world) (order_id product_id : string) (quantity : pyval) (msg : string) :
  line_of order_id product_id w = None ->
  run (db.create_order_detail order_id product_id quantity) w = (Return (true, msg), w1) ->
  writes_succeed 2 (oracle w1) = true ->
  exists w2,
    run (db.delete_order_detail order_id product_id) w1
    = (Return (true, "Order detail deleted successfully and inventory updated."), w2)
    /\ Inventory_objects (mongo w2) = Inventory_objects (mongo w).
Proof.
  intros Hnone Hcreate Hok.
  apply create_order_detail_success in Hcreate
    as (q & order & item & _ & _ & Hi & _ & Hinv & Hdet & _).
  unfold line_of in Hnone.
  open_world w1. subst inventory details.
  unfold db.delete_order_detail.
  exec_store.
  rewrite (find_app_new _ _ _ Hnone)
    by (unfold is_line; cbn; rewrite !String.eqb_refl; reflexivity).
  exec_store.
  rewrite find_update_where by apply has_product_id_apply.
  rewrite Hi. cbn [fmap option_fmap option_map].
  rewrite has_inventory_id_self.
  next_write faults; try next_write faults; exec_store;
    (eexists; split; [reflexivity|]); exec_store;
    apply update_where_undo.
Qed.

Lemma create_then_delete_restores_witness :
  exists w2,
    run (db.delete_order_detail "O1" "P1")
        (snd (run (db.create_order_detail "O1" "P1" (PyInt 4)) (calm shop)))
    = (Return (true, "Order detail deleted successfully and inventory updated."), w2)
    /\ Inventory_objects (mongo w2) = Inventory_objects shop.
Proof.
  apply (create_then_delete_restores (calm shop) _ "O1" "P1" (PyInt 4)
           "Order detail added successfully."); reflexivity.
Defined.

Lemma create_then_delete_counterexample :
  ~ (forall (w w1 w2 : world) (order_id product_id : string) (quantity : pyval)
            (m1 m2 : string),
        run (db.create_order_detail order_id product_id quantity) w = (Return (true, m1), w1) ->
        run (db.delete_order_detail order_id product_id) w1 = (Return (true, m2), w2) ->
        stock product_id w2 = stock product_id w).
Proof.
  intros H.
  pose proof (H (calm shop_with_line)
                (snd (run (db.create_order_detail "O1" "P1" (PyInt 1)) (calm shop_with_line)))
                (snd (run (db.delete_order_detail "O1" "P1")
                       (snd (run (db.create_order_detail "O1" "P1" (PyInt 1))
                                 (calm shop_with_line)))))
                "O1" "P1" (PyInt 1) _ _ eq_refl eq_refl) as Hstock.
  vm_compute in Hstock.
  discriminate Hstock.
Qed.

(** ** The inventory ledger *)

Lemma inventory_id_determines (l : list Inventory.doc) (x y : Inventory.doc) :
  List.NoDup (List.map Inventory.inventory_id l) ->
  In x l -> In y l -> Inventory.inventory_id x = Inventory.inventory_id y -> x = y.
Proof.
  induction l as [|d l IH]; cbn; intros Hnd Hx Hy Hid; [contradiction|].
  inversion Hnd as [|? ? Hfresh Hnd']; subst.
  destruct Hx as [-> | Hx], Hy as [-> | Hy]; auto.
  - exfalso. apply Hfresh. rewrite Hid. apply List.in_map. exact Hy.
  - exfalso. apply Hfresh. rewrite <- Hid. apply List.in_map. exact Hx.
Qed.

(** An update through the primary key of a stored record keeps every
    quantity non-negative when the updated record ends non-negative. *)
Lemma nonneg_update_where (l : list Inventory.doc) (item : Inventory.doc)
    (u : update_operator) :
  List.NoDup (List.map Inventory.inventory_id l) ->
  In item l ->
  Forall (fun d => 0 <= Inventory.quantity d) l ->
  0 <= Inventory.quantity (apply_operator u item) ->
  Forall (fun d => 0 <= Inventory.quantity d)
         (update_where (has_inventory_id (Inventory.inventory_id item))
                       (apply_operator u) l).
Proof.
  intros Hnd Hin Hall Hitem.
  unfold update_where.
  rewrite List.Forall_forall in *.
  intros y Hy. apply List.in_map_iff in Hy as (x & <- & Hx).
  destruct (has_inventory_id (Inventory.inventory_id item) x) eqn:E; [| auto].
  apply String.eqb_eq in E.
  rewrite (inventory_id_determines l x item Hnd Hx Hin (eq_sym E)).
  exact Hitem.
Qed.

Lemma find_in {A : Type} (P : A -> bool) (l : list A) (x : A) :
  List.find P l = Some x -> In x l.
Proof. intros H. apply List.find_some in H. tauto. Qed.

(** The primary keys of the inventory stay unique. *)

Lemma ids_update_where (sel : Inventory.doc -> bool) (u : update_operator)
    (l : list Inventory.doc) :
  List.map Inventory.inventory_id (update_where sel (apply_operator u) l)
  = List.map Inventory.inventory_id l.
Proof.
  unfold update_where. rewrite List.map_map.
  apply List.map_ext. intros d. destruct (sel d); reflexivity.
Qed.

Lemma ids_upsert (d : Inventory.doc) (l : list Inventory.doc) :
  List.NoDup (List.map Inventory.inventory_id l) ->
  List.NoDup (List.map Inventory.inventory_id
                (upsert (has_inventory_id (Inventory.inventory_id d)) d l)).
Proof.
  induction l as [|x l IH]; cbn; intros Hnd.
  - repeat constructor. intros [].
  - inversion Hnd as [|? ? Hfresh Hnd']; subst.
    destruct (has_inventory_id (Inventory.inventory_id d) x) eqn:E; cbn.
    + apply String.eqb_eq in E. rewrite E. exact Hnd.
    + constructor; [| auto].
      intros Hin. apply List.in_map_iff in Hin as (y & Hy & Hin).
      assert (Hcases : y = d \/ In y l).
      { clear - Hin. induction l as [|z l IH]; cbn in *.
        - destruct Hin as [<- | []]. now left.
        - destruct (has_inventory_id (Inventory.inventory_id d) z).
          + destruct Hin as [<- | Hin]; [now left | right; now right].
          + destruct Hin as [<- | Hin]; [right; now left |].
            destruct (IH Hin) as [-> | H]; [now left | right; now right]. }
      destruct Hcases as [-> | Hl].
      * apply String.eqb_neq in E. congruence.
      * apply Hfresh. rewrite <- Hy. apply List.in_map. exact Hl.
Qed.

Lemma exec_keeps_ids_unique {B : Type} (op : store_op B) (w : world) :
  inventory_ids_unique w -> inventory_ids_unique (snd (exec op w)).
Proof.
  unfold inventory_ids_unique. intros H.
  open_world w.
  destruct op; cbn [exec snd]; try exact H;
    unfold write; cbn [oracle];
    (destruct faults as [|[m|] faults]; cbn [snd]; exec_store; try exact H;
     rewrite ?ids_update_where; try exact H; apply ids_upsert; exact H).
Qed.

(** Whatever a call does, sequentially, it keeps the keys unique. *)
Lemma run_keeps_ids_unique {A : Type} (p : prog A) (w : world) :
  inventory_ids_unique w -> inventory_ids_unique (snd (run p w)).
Proof.
  revert w. induction p as [a | e | B op k IH]; intros w Hw; cbn [run snd]; auto.
  pose proof (exec_keeps_ids_unique op w Hw) as Hstep.
  destruct (exec op w) as [r w1]. cbn [snd] in Hstep. apply IH. exact Hstep.
Qed.

(** C5 (amended).  From a state where every inventory quantity is
    non-negative: an order-line create keeps them so when the store accepts
    its debit, an order-line update always does, an order-line delete does
    when the line it removes holds a non-negative quantity, and inventory
    creation and the administrative set, which store the integer they are
    given, do when that integer is non-negative. *)
Theorem inventory_stays_nonneg :
  (forall (w w' : world) (order_id product_id : string) (quantity : pyval)
          (r : outcome (bool * string)),
      inventory_ids_unique w -> inventory_nonneg w ->
      writes_succeed 1 (oracle w) = true ->
      run (db.create_order_detail order_id product_id quantity) w = (r, w') ->
      inventory_nonneg w')
  /\ (forall (w w' : world) (order_id product_id : string) (new_quantity : pyval)
             (r : outcome (bool * string)),
      inventory_ids_unique w -> inventory_nonneg w ->
      run (db.update_order_detail order_id product_id new_quantity) w = (r, w') ->
      inventory_nonneg w')
  /\ (forall (w w' : world) (order_id product_id : string) (line : OrderDetails.doc)
             (r : outcome (bool * string)),
      inventory_ids_unique w -> inventory_nonneg w ->
      line_of order_id product_id w = Some line ->
      0 <= OrderDetails.quantity line ->
      run (db.delete_order_detail order_id product_id) w = (r, w') ->
      inventory_nonneg w')
  /\ (forall (w w' : world) (inventory_id product_id location : string) (quantity : pyval)
             (q : Z) (r : outcome (bool * string)),
      inventory_nonneg w ->
      py_int quantity = Some q -> 0 <= q ->
      run (db.create_inventory inventory_id product_id quantity location) w = (r, w') ->
      inventory_nonneg w')
  /\ (forall (w w' : world) (inventory_id : string) (new_quantity : pyval)
             (q : Z) (r : outcome (bool * string)),
      inventory_nonneg w ->
      py_int new_quantity = Some q -> 0 <= q ->
      run (db.update_inventory_quantity inventory_id new_quantity) w = (r, w') ->
      inventory_nonneg w').
Proof.
  unfold inventory_ids_unique, inventory_nonneg.
  repeat split.
  - intros w w' o p v r Hnd Hall Hok H.
    open_world w.
    unfold db.create_order_detail in H.
    destruct (py_int v) as [q|]; exec_store_in H; [| inversion H; subst; exact Hall].
    destruct (List.find (has_order_id o) orders) as [order|];
      exec_store_in H; [| inversion H; subst; exact Hall].
    destruct (List.find (has_product_id p) inventory) as [item|] eqn:Hi;
      exec_store_in H; [| inversion H; subst; exact Hall].
    destruct (Inventory.quantity item <? q) eqn:Hlt;
      exec_store_in H; [inversion H; subst; exact Hall |].
    apply Z.ltb_ge in Hlt.
    assert (Hdebit : Forall (fun d => 0 <= Inventory.quantity d)
                       (update_where (has_inventory_id (Inventory.inventory_id item))
                                     (apply_operator (dec__quantity q)) inventory)).
    { apply nonneg_update_where; auto; [eapply find_in; eauto | cbn; lia]. }
    next_write faults; exec_store_in H;
      [ inversion H; subst; exact Hdebit |].
    destruct faults as [|[m|] faults]; exec_store_in H;
      [ inversion H; subst; exact Hdebit | | inversion H; subst; exact Hdebit ].
    destruct faults as [|[m'|] faults]; exec_store_in H;
      inversion H; subst; cbn; rewrite ?update_where_undo; assumption.
  - intros w w' o p v r Hnd Hall H.
    open_world w.
    unfold db.update_order_detail in H.
    destruct (py_int v) as [q|]; exec_store_in H; [| inversion H; subst; exact Hall].
    destruct (List.find (is_line o p) details) as [line|];
      exec_store_in H; [| inversion H; subst; exact Hall].
    destruct (List.find (has_product_id p) inventory) as [item|] eqn:Hi;
      exec_store_in H; [| inversion H; subst; exact Hall].
    destruct ((0 <? q - OrderDetails.quantity line)
              && (Inventory.quantity item <? q - OrderDetails.quantity line)) eqn:Hlt;
      exec_store_in H; [inversion H; subst; exact Hall |].
    assert (Hitem : 0 <= Inventory.quantity item).
    { rewrite List.Forall_forall in Hall. apply Hall. eapply find_in; eauto. }
    assert (Hdebit : Forall (fun d => 0 <= Inventory.quantity d)
                       (update_where (has_inventory_id (Inventory.inventory_id item))
                          (apply_operator (inc__quantity (- (q - OrderDetails.quantity line))))
                          inventory)).
    { apply nonneg_update_where; auto; [eapply find_in; eauto |].
      apply andb_false_iff in Hlt. cbn.
      destruct Hlt as [Hlt | Hlt]; [apply Z.ltb_ge in Hlt | apply Z.ltb_ge in Hlt]; lia. }
    destruct faults as [|[m|] faults]; exec_store_in H;
      [ inversion H; subst; exact Hdebit | inversion H; subst; exact Hall |].
    destruct faults as [|[m|] faults]; exec_store_in H;
      inversion H; subst; exact Hdebit.
  - intros w w' o p line r Hnd Hall Hline Hq H.
    unfold line_of in Hline.
    open_world w.
    unfold db.delete_order_detail in H.
    exec_store_in H. rewrite Hline in H.
    exec_store_in H.
    destruct (List.find (has_product_id p) inventory) as [item|] eqn:Hi;
      exec_store_in H; [| inversion H; subst; exact Hall].
    assert (Hitem : 0 <= Inventory.quantity item).
    { rewrite List.Forall_forall in Hall. apply Hall. eapply find_in; eauto. }
    assert (Hcredit : Forall (fun d => 0 <= Inventory.quantity d)
                        (update_where (has_inventory_id (Inventory.inventory_id item))
                           (apply_operator (inc__quantity (OrderDetails.quantity line)))
                           inventory)).
    { apply nonneg_update_where; auto; [eapply find_in; eauto | cbn; lia]. }
    destruct faults as [|[m|] faults]; exec_store_in H;
      [ inversion H; subst; exact Hcredit | inversion H; subst; exact Hall |].
    destruct faults as [|[m|] faults]; exec_store_in H;
      inversion H; subst; exact Hcredit.
  - intros w w' i p loc v q r Hall Hq Hpos H.
    open_world w.
    unfold db.create_inventory, db.check_product_exists_in_redis, db.IntField_clean in H.
    rewrite Hq in H. exec_store_in H.
    destruct (bool_decide (is_Some (kv !! ("product:" +:+ p))));
      exec_store_in H; [| inversion H; subst; exact Hall].
    destruct faults as [|[m|] faults]; exec_store_in H;
      inversion H; subst; cbn; try exact Hall;
      apply Forall_upsert; auto.
  - intros w w' i v q r Hall Hq Hpos H.
    open_world w.
    unfold db.update_inventory_quantity, db.IntField_clean in H.
    rewrite Hq in H. exec_store_in H.
    destruct (List.find (has_inventory_id i) inventory) as [item|];
      exec_store_in H; [| inversion H; subst; exact Hall].
    destruct faults as [|[m|] faults]; exec_store_in H;
      inversion H; subst; cbn; try exact Hall;
      apply Forall_upsert; auto.
Qed.

Lemma shop_ids_unique (m : Mongo) (faults : list (option string)) :
  List.map Inventory.inventory_id (Inventory_objects m) = ["I1"; "I2"] ->
  inventory_ids_unique (faulty m faults).
Proof.
  intros H. unfold inventory_ids_unique. cbn. rewrite H.
  repeat constructor; cbn; intuition discriminate.
Qed.

Lemma shop_nonneg : inventory_nonneg (calm shop).
Proof. unfold inventory_nonneg. cbn. repeat constructor; cbn; lia. Qed.

Lemma shop_with_line_nonneg : inventory_nonneg (calm shop_with_line).
Proof. unfold inventory_nonneg. cbn. repeat constructor; cbn; lia. Qed.

Lemma inventory_stays_nonneg_witness :
  inventory_nonneg (snd (run (db.create_order_detail "O1" "P1" (PyInt 4)) (calm shop)))
  /\ inventory_nonneg
       (snd (run (db.update_order_detail "O1" "P1" (PyStr "7")) (calm shop_with_line)))
  /\ inventory_nonneg (snd (run (db.delete_order_detail "O1" "P1") (calm shop_with_line)))
  /\ inventory_nonneg (snd (run (db.create_inventory "I3" "P1" (PyInt 5) "C2") (calm shop)))
  /\ inventory_nonneg (snd (run (db.update_inventory_quantity "I1" (PyStr "12")) (calm shop))).
Proof.
  destruct inventory_stays_nonneg as (Hcreate & Hupdate & Hdelete & Hnew & Hset).
  split; [| split; [| split; [| split]]].
  - apply (Hcreate (calm shop) _ "O1" "P1" (PyInt 4)
                   (Return (true, "Order detail added successfully.")));
      [ apply (shop_ids_unique shop []); reflexivity | exact shop_nonneg
      | reflexivity | reflexivity ].
  - apply (Hupdate (calm shop_with_line) _ "O1" "P1" (PyStr "7")
                   (Return (true, "Order detail and inventory updated successfully.")));
      [ apply (shop_ids_unique shop_with_line []); reflexivity
      | exact shop_with_line_nonneg | reflexivity ].
  - apply (Hdelete (calm shop_with_line) _ "O1" "P1" (OrderDetails.Doc 0 "O1" "P1" 4)
                   (Return (true, "Order detail deleted successfully and inventory updated.")));
      [ apply (shop_ids_unique shop_with_line []); reflexivity
      | exact shop_with_line_nonneg | reflexivity | cbn; lia | reflexivity ].
  - apply (Hnew (calm shop) _ "I3" "P1" "C2" (PyInt 5) 5
                (Return (true, "Inventory item I3 created with product P1.")));
      [ exact shop_nonneg | reflexivity | lia | reflexivity ].
  - apply (Hset (calm shop) _ "I1" (PyStr "12") 12
                (Return (true, "Inventory item I1 updated successfully.")));
      [ exact shop_nonneg | reflexivity | lia | reflexivity ].
Defined.

Lemma inventory_stays_nonneg_counterexample :
  ~ (forall (w w' : world) (inventory_id : string) (new_quantity : pyval)
            (r : outcome (bool * string)),
        inventory_nonneg w ->
        run (db.update_inventory_quantity inventory_id new_quantity) w = (r, w') ->
        inventory_nonneg w').
Proof.
  intros H.
  pose proof (H (calm shop) _ "I1" (PyStr "-5") _ shop_nonneg eq_refl) as Hneg.
  unfold inventory_nonneg in Hneg. cbn in Hneg.
  inversion Hneg as [|? ? Hfirst _]. cbn in Hfirst. lia.
Qed.

(** ** Validation of the quantity *)

(** C6 (amended).  A quantity that is not an integer, that is a text
    [int()] refuses, makes create and update return the validation failure
    without any store operation: the program is the bare return.  An integer
    passes the validation whatever its sign: the call never answers with the
    validation failure. *)
Theorem quantity_validation (order_id product_id : string) (quantity : pyval) :
  (py_int quantity = None ->
     db.create_order_detail order_id product_id quantity
     = Ret (false, "Quantity must be an integer.")
     /\ db.update_order_detail order_id product_id quantity
        = Ret (false, "Quantity must be an integer."))
  /\ (forall q : Z, py_int quantity = Some q ->
      forall w : world,
        fst (run (db.create_order_detail order_id product_id quantity) w)
        <> Return (false, "Quantity must be an integer.")
        /\ fst (run (db.update_order_detail order_id product_id quantity) w)
           <> Return (false, "Quantity must be an integer.")).
Proof.
  split.
  - intros Hq. unfold db.create_order_detail, db.update_order_detail.
    rewrite Hq. split; reflexivity.
  - intros q Hq w. open_world w.
    unfold db.create_order_detail, db.update_order_detail. rewrite Hq.
    split.
    + exec_store.
      destruct (List.find (has_order_id order_id) orders) as [order|];
        exec_store; [| cbn; discriminate].
      destruct (List.find (has_product_id product_id) inventory) as [item|];
        exec_store; [| cbn; discriminate].
      destruct (Inventory.quantity item <? q); exec_store; [cbn; discriminate |].
      destruct faults as [|[m|] faults]; exec_store;
        do 2 (try (destruct faults as [|[?m|] faults]; exec_store));
        cbn; discriminate.
    + exec_store.
      destruct (List.find (is_line order_id product_id) details) as [line|];
        exec_store; [| cbn; discriminate].
      destruct (List.find (has_product_id product_id) inventory) as [item|];
        exec_store; [| cbn; discriminate].
      destruct ((0 <? q - OrderDetails.quantity line)
                && (Inventory.quantity item <? q - OrderDetails.quantity line));
        exec_store; [cbn; discriminate |].
      destruct faults as [|[m|] faults]; exec_store;
        try (destruct faults as [|[?m|] faults]; exec_store);
        cbn; discriminate.
Qed.

Lemma quantity_validation_witness :
  db.create_order_detail "O1" "P1" (PyStr "four") = Ret (false, "Quantity must be an integer.")
  /\ db.update_order_detail "O1" "P1" (PyStr "1.5") = Ret (false, "Quantity must be an integer.")
  /\ fst (run (db.create_order_detail "O1" "P1" (PyStr "-5")) (calm shop))
     <> Return (false, "Quantity must be an integer.").
Proof.
  split; [| split].
  - apply (proj1 (quantity_validation "O1" "P1" (PyStr "four"))). reflexivity.
  - apply (proj1 (quantity_validation "O1" "P1" (PyStr "1.5"))). reflexivity.
  - apply (proj2 (quantity_validation "O1" "P1" (PyStr "-5")) (-5)). reflexivity.
Defined.

Lemma quantity_validation_counterexample :
  ~ (forall (w : world) (order_id product_id : string) (quantity : pyval) (q : Z),
        py_int quantity = Some q -> q <= 0 ->
        exists msg : string,
          run (db.create_order_detail order_id product_id quantity) w
          = (Return (false, msg), w)).
Proof.
  intros H.
  destruct (H (calm shop) "O1" "P1" (PyInt (-5)) (-5) eq_refl ltac:(lia)) as [msg Hrun].
  discriminate Hrun.
Qed.

(** ** Order-line update *)

Lemma is_line_set_quantity (order product_id : string) (q : Z) (d : OrderDetails.doc) :
  is_line order product_id (set_quantity q d) = is_line order product_id d.
Proof. reflexivity. Qed.



(** ** Orders *)

Lemma has_order_id_eq (pk : string) (d : Order.doc) :
  has_order_id pk d = true -> Order.order_id d = pk.
Proof. intros H. symmetry. apply String.eqb_eq. exact H. Qed.

Lemma has_retailer_id_eq (pk : string) (d : Retailer.doc) :
  has_retailer_id pk d = true -> Retailer.retailer_id d = pk.
Proof. intros H. symmetry. apply String.eqb_eq. exact H. Qed.

(** C8.  [create_order] fails with the retailer-not-found message and
    leaves the stores as they were when no retailer has the given id;
    otherwise the order stored under the order id refers to that retailer and
    carries the clock reading of the call.  [update_order], on an existing
    order and given a replacement retailer id, fails with the
    retailer-not-found message and changes nothing when no retailer has that
    id, and otherwise stores the order with the new retailer. *)
Theorem orders_refer_to_retailers :
  (forall (w : world) (order_id retailer_id : string),
      List.find (has_retailer_id retailer_id) (Retailer_objects (mongo w)) = None ->
      run (db.create_order order_id retailer_id) w
      = (Return (false, "Retailer does not exist."), w))
  /\ (forall (w : world) (order_id retailer_id : string) (retailer : Retailer.doc),
      List.find (has_retailer_id retailer_id) (Retailer_objects (mongo w)) = Some retailer ->
      writes_succeed 1 (oracle w) = true ->
      exists w',
        run (db.create_order order_id retailer_id) w
        = (Return (true, "Order " +:+ order_id +:+ " created successfully."), w')
        /\ List.find (has_order_id order_id) (Order_objects (mongo w'))
           = Some (Order.Doc order_id retailer_id (clock w)))
  /\ (forall (w : world) (order_id new_retailer_id : string) (order : Order.doc),
      List.find (has_order_id order_id) (Order_objects (mongo w)) = Some order ->
      truthy new_retailer_id = true ->
      List.find (has_retailer_id new_retailer_id) (Retailer_objects (mongo w)) = None ->
      run (db.update_order order_id (Some new_retailer_id)) w
      = (Return (false, "New retailer not found. Order's retailer not updated."), w))
  /\ (forall (w : world) (order_id new_retailer_id : string) (order : Order.doc)
             (retailer : Retailer.doc),
      List.find (has_order_id order_id) (Order_objects (mongo w)) = Some order ->
      truthy new_retailer_id = true ->
      List.find (has_retailer_id new_retailer_id) (Retailer_objects (mongo w)) = Some retailer ->
      writes_succeed 1 (oracle w) = true ->
      exists w',
        run (db.update_order order_id (Some new_retailer_id)) w
        = (Return (true, "Order " +:+ order_id +:+ " updated."), w')
        /\ List.find (has_order_id order_id) (Order_objects (mongo w'))
           = Some (Order.Doc order_id new_retailer_id (Order.order_date order))).
Proof.
  repeat split.
  - intros w o r Hr. open_world w.
    unfold db.create_order. exec_store. rewrite Hr. reflexivity.
  - intros w o r retailer Hr Hok. open_world w.
    pose proof (has_retailer_id_eq _ _ (find_holds _ _ _ Hr)) as Hid.
    unfold db.create_order. exec_store. rewrite Hr, Hid.
    next_write faults; exec_store;
      (eexists; split; [reflexivity|]); exec_store;
      apply (find_upsert (has_order_id o)); apply String.eqb_refl.
  - intros w o r order Ho Ht Hr. open_world w.
    unfold db.update_order. exec_store. rewrite Ho.
    change (default "" (Some r)) with r. rewrite Ht. exec_store. rewrite Hr. reflexivity.
  - intros w o r order retailer Ho Ht Hr Hok. open_world w.
    pose proof (has_retailer_id_eq _ _ (find_holds _ _ _ Hr)) as Hid.
    pose proof (has_order_id_eq _ _ (find_holds _ _ _ Ho)) as Hoid.
    unfold db.update_order. exec_store. rewrite Ho.
    change (default "" (Some r)) with r. rewrite Ht. exec_store. rewrite Hr, Hid, Hoid.
    next_write faults; exec_store;
      (eexists; split; [reflexivity|]); exec_store;
      apply (find_upsert (has_order_id o)); apply String.eqb_refl.
Qed.

Lemma orders_refer_to_retailers_witness :
  run (db.create_order "O3" "R9") (calm shop) = (Return (false, "Retailer does not exist."), calm shop)
  /\ (exists w',
        run (db.create_order "O3" "R1") (calm shop)
        = (Return (true, "Order O3 created successfully."), w')
        /\ List.find (has_order_id "O3") (Order_objects (mongo w'))
           = Some (Order.Doc "O3" "R1" 1000))
  /\ run (db.update_order "O1" (Some "R9")) (calm shop)
     = (Return (false, "New retailer not found. Order's retailer not updated."), calm shop)
  /\ (exists w',
        run (db.update_order "O1" (Some "R1")) (calm shop)
        = (Return (true, "Order O1 updated."), w')
        /\ List.find (has_order_id "O1") (Order_objects (mongo w'))
           = Some (Order.Doc "O1" "R1" 0)).
Proof.
  destruct orders_refer_to_retailers as (Hnone & Hnew & Hmissing & Hset).
  split; [| split; [| split]].
  - apply (Hnone (calm shop) "O3" "R9"). reflexivity.
  - apply (Hnew (calm shop) "O3" "R1" (Retailer.Doc "R1" "Acme" "Leeds" "acme@example.org"));
      reflexivity.
  - apply (Hmissing (calm shop) "O1" "R9" (Order.Doc "O1" "R1" 0)); reflexivity.
  - apply (Hset (calm shop) "O1" "R1" (Order.Doc "O1" "R1" 0)
                (Retailer.Doc "R1" "Acme" "Leeds" "acme@example.org")); reflexivity.
Defined.

(** ** The catalog *)

(** C10 (amended).  Creating a product whose id the catalog already holds
    fails and leaves both stores as they were: with the already-exists
    message when the supplier named in the call is in the catalog, and with
    the supplier-missing message, which is checked first, when it is not.
    Creating a supplier whose id the catalog already holds fails with the
    already-exists message and leaves both stores as they were. *)
Theorem catalog_entries_are_not_overwritten :
  (forall (w : world) (product_id name description : string) (price : pyval)
          (supplier_id : string),
      is_Some (redis w !! ("product:" +:+ product_id)) ->
      run (redis_db.create_product product_id name description price supplier_id) w
      = (Return (false,
                 if bool_decide (is_Some (redis w !! ("supplier:" +:+ supplier_id)))
                 then "Product already exists."
                 else "Supplier does not exist. Add the supplier first."), w))
  /\ (forall (w : world) (supplier_id name location contact_info : string),
      is_Some (redis w !! ("supplier:" +:+ supplier_id)) ->
      run (redis_db.create_supplier supplier_id name location contact_info) w
      = (Return (false, "Supplier already exists."), w)).
Proof.
  split.
  - intros w p name description price s Hp. open_world w.
    unfold redis_db.create_product. exec_store.
    destruct (bool_decide (is_Some (kv !! ("supplier:" +:+ s)))); cbn [negb]; exec_store.
    + rewrite (bool_decide_eq_true_2 _ Hp). reflexivity.
    + reflexivity.
  - intros w s name location contact Hs. open_world w.
    unfold redis_db.create_supplier. exec_store.
    rewrite (bool_decide_eq_true_2 _ Hs). reflexivity.
Qed.

Lemma catalog_entries_are_not_overwritten_witness :
  run (redis_db.create_product "P1" "Nut" "M8" (PyInt 3) "S1") (calm shop)
  = (Return (false, "Product already exists."), calm shop)
  /\ run (redis_db.create_supplier "S1" "Other" "Hull" "other@example.org") (calm shop)
     = (Return (false, "Supplier already exists."), calm shop).
Proof.
  split.
  - apply (proj1 catalog_entries_are_not_overwritten (calm shop) "P1" "Nut" "M8" (PyInt 3) "S1").
    eexists. reflexivity.
  - apply (proj2 catalog_entries_are_not_overwritten (calm shop) "S1" "Other" "Hull"
                 "other@example.org").
    eexists. reflexivity.
Defined.

Lemma catalog_entries_counterexample :
  ~ (forall (w : world) (product_id name description : string) (price : pyval)
            (supplier_id : string),
        is_Some (redis w !! ("product:" +:+ product_id)) ->
        run (redis_db.create_product product_id name description price supplier_id) w
        = (Return (false, "Product already exists."), w)).
Proof.
  intros H.
  assert (Hp : is_Some (redis (calm shop) !! ("product:" +:+ "P1"))).
  { eexists. reflexivity. }
  specialize (H (calm shop) "P1" "Nut" "M8" (PyInt 3) "S9" Hp).
  vm_compute in H. discriminate H.
Qed.

(** ** Debits from several callers *)

(** Scheduled alone, a call ends, after as many steps as it has store
    operations, where [run] takes it. *)
Lemma interleave_alone {A : Type} (p : prog A) (w : world) :
  exists n : nat,
    interleave (List.repeat 0%nat n) [p] w = ([finished (fst (run p w))], snd (run p w)).
Proof.
  revert w. induction p as [a | e | B op k IH]; intros w.
  - exists 0%nat. reflexivity.
  - exists 0%nat. reflexivity.
  - destruct (exec op w) as [r w1] eqn:E.
    destruct (IH r w1) as [n Hn].
    exists (S n). cbn [List.repeat interleave lookup list_lookup step run].
    rewrite E. cbn [insert list_insert]. exact Hn.
Qed.

(** One create against a store that accepts every write. *)
Lemma create_order_detail_calm
    (w : world) (order_id product_id : string) (a : Z)
    (order : Order.doc) (item : Inventory.doc) :
  List.find (has_order_id order_id) (Order_objects (mongo w)) = Some order ->
  List.find (has_product_id product_id) (Inventory_objects (mongo w)) = Some item ->
  oracle w = [] ->
  exists w',
    run (db.create_order_detail order_id product_id (PyInt a)) w
    = (verdict (negb (Inventory.quantity item <? a)), w')
    /\ Order_objects (mongo w') = Order_objects (mongo w)
    /\ oracle w' = []
    /\ List.find (has_product_id product_id) (Inventory_objects (mongo w'))
       = Some (if Inventory.quantity item <? a then item
               else apply_operator (dec__quantity a) item).
Proof.
  intros Ho Hi Hor.
  open_world w. subst faults.
  unfold db.create_order_detail. cbn [py_int].
  exec_store. rewrite Ho. exec_store. rewrite Hi.
  destruct (Inventory.quantity item <? a); exec_store.
  - eexists. split; [reflexivity|]. cbn. auto.
  - eexists. split; [reflexivity|]. exec_store.
    split; [reflexivity|]. split; [reflexivity|].
    rewrite find_update_where by apply has_product_id_apply.
    rewrite Hi. cbn [fmap option_fmap option_map].
    rewrite has_inventory_id_self. reflexivity.
Qed.

(** C9 (amended).  The debit is a check made by the caller on the record it
    has read, followed by an unconditional atomic decrement.  When the
    creates on one product run one after the other against a store that
    accepts every write, the ones granted are those that fit what is left at
    their turn, the others fail with the insufficient-inventory message,
    and the quantity on hand ends at what the granted ones leave, never
    below zero. *)
Theorem sequential_debits_fit
    (requests : list (string * Z)) (w : world) (product_id : string)
    (item : Inventory.doc) :
  Forall (fun r => List.find (has_order_id r.1) (Order_objects (mongo w)) <> None) requests ->
  List.find (has_product_id product_id) (Inventory_objects (mongo w)) = Some item ->
  oracle w = [] ->
  0 <= Inventory.quantity item ->
  fst (run_all (debit_calls product_id requests) w)
  = List.map verdict (granted (Inventory.quantity item) (List.map snd requests))
  /\ stock product_id (snd (run_all (debit_calls product_id requests) w))
     = Some (remaining (Inventory.quantity item) (List.map snd requests))
  /\ 0 <= remaining (Inventory.quantity item) (List.map snd requests).
Proof.
  revert w item.
  induction requests as [|[o a] requests IH]; intros w item Hos Hi Hor Hpos.
  - cbn. unfold stock. rewrite Hi. auto.
  - inversion Hos as [|? ? Ho Hos']; subst. cbn [fst] in Ho.
    destruct (List.find (has_order_id o) (Order_objects (mongo w))) as [order|] eqn:Eo;
      [| contradiction].
    destruct (create_order_detail_calm w o product_id a order item Eo Hi Hor)
      as (w' & Hrun & Hord & Hor' & Hi').
    cbn [debit_calls List.map run_all fst snd granted remaining].
    fold (debit_calls product_id requests).
    rewrite Hrun.
    rewrite <- Hord in Hos'.
    destruct (Inventory.quantity item <? a) eqn:Hlt.
    + destruct (IH w' item Hos' Hi' Hor' Hpos) as (Hres & Hstock & Hrem).
      destruct (run_all (debit_calls product_id requests) w') as [rs w''].
      cbn [fst snd negb] in *. rewrite Hres. auto.
    + apply Z.ltb_ge in Hlt.
      assert (Hpos' : 0 <= Inventory.quantity (apply_operator (dec__quantity a) item))
        by (cbn; lia).
      destruct (IH w' _ Hos' Hi' Hor' Hpos') as (Hres & Hstock & Hrem).
      destruct (run_all (debit_calls product_id requests) w') as [rs w''].
      cbn [fst snd negb] in *.
      replace (Inventory.quantity item - a)
        with (Inventory.quantity (apply_operator (dec__quantity a) item))
        by (cbn; lia).
      rewrite Hres. auto.
Qed.

Lemma sequential_debits_fit_witness :
  fst (run_all (debit_calls "P1" [("O1", 6); ("O2", 6); ("O1", 4)]) (calm shop))
  = [verdict true; verdict false; verdict true]
  /\ stock "P1" (snd (run_all (debit_calls "P1" [("O1", 6); ("O2", 6); ("O1", 4)]) (calm shop)))
     = Some 0
  /\ 0 <= 0.
Proof.
  apply (sequential_debits_fit [("O1", 6); ("O2", 6); ("O1", 4)] (calm shop) "P1"
           (Inventory.Doc "I1" "P1" 10 "A1")).
  - repeat constructor; cbn; discriminate.
  - reflexivity.
  - reflexivity.
  - cbn. lia.
Defined.

(** Two creates of six on a stock of ten, the second reading the stock
    before the first has written: both are granted. *)
Lemma both_debits_granted_under_race :
  interleave [0; 0; 1; 1; 0; 1; 0; 1]%nat
             (debit_calls "P1" [("O1", 6); ("O2", 6)]) (calm shop)
  = ([Ret (true, "Order detail added successfully.");
      Ret (true, "Order detail added successfully.")],
     calm (MkMongo (Retailer_objects shop) (Order_objects shop)
                   [Inventory.Doc "I1" "P1" (-2) "A1"; Inventory.Doc "I2" "P2" 2 "B4"]
                   [OrderDetails.Doc 0 "O1" "P1" 6; OrderDetails.Doc 1 "O2" "P1" 6] 2)).
Proof. reflexivity. Qed.

Lemma concurrent_debits_counterexample :
  ~ (forall (schedule : list nat) (requests : list (string * Z)) (product_id : string)
            (w : world),
        inventory_nonneg w ->
        inventory_nonneg (snd (interleave schedule (debit_calls product_id requests) w))).
Proof.
  intros H.
  pose proof (H [0; 0; 1; 1; 0; 1; 0; 1]%nat [("O1", 6); ("O2", 6)] "P1" (calm shop)
                shop_nonneg) as Hneg.
  rewrite both_debits_granted_under_race in Hneg.
  unfold inventory_nonneg in Hneg. cbn in Hneg.
  inversion Hneg as [|? ? Hfirst _]. cbn in Hfirst. lia.
Qed.

(** ** Order lines through their life *)

Lemma update_where_twice (pk : string) (a b : Z) (l : list Inventory.doc) :
  update_where (has_inventory_id pk) (apply_operator (inc__quantity b))
    (update_where (has_inventory_id pk) (apply_operator (inc__quantity a)) l)
  = update_where (has_inventory_id pk) (apply_operator (inc__quantity (a + b))) l.
Proof.
  unfold update_where. rewrite List.map_map.
  apply List.map_ext. intros d.
  destruct (has_inventory_id pk d) eqn:E.
  - rewrite has_inventory_id_apply, E.
    destruct d as [i p n loc]; unfold apply_operator; cbn. f_equal. lia.
  - rewrite E. reflexivity.
Qed.

Lemma update_where_dec_inc (pk : string) (a b : Z) (l : list Inventory.doc) :
  update_where (has_inventory_id pk) (apply_operator (inc__quantity b))
    (update_where (has_inventory_id pk) (apply_operator (dec__quantity a)) l)
  = update_where (has_inventory_id pk) (apply_operator (inc__quantity (b - a))) l.
Proof.
  unfold update_where. rewrite List.map_map.
  apply List.map_ext. intros d.
  destruct (has_inventory_id pk d) eqn:E.
  - rewrite has_inventory_id_apply, E.
    destruct d as [i p n loc]; unfold apply_operator; cbn. f_equal. lia.
  - rewrite E. reflexivity.
Qed.

Lemma update_where_nothing (pk : string) (l : list Inventory.doc) :
  update_where (has_inventory_id pk) (apply_operator (inc__quantity 0)) l = l.
Proof.
  apply update_where_id. intros [i p n loc]. unfold apply_operator. cbn.
  f_equal. lia.
Qed.

(** What a successful update has done. *)
Lemma update_order_detail_success
    (w w1 : world) (order_id product_id : string) (new_quantity : pyval) (msg : string) :
  run (db.update_order_detail order_id product_id new_quantity) w = (Return (true, msg), w1) ->
  exists (nq : Z) (line : OrderDetails.doc) (item : Inventory.doc),
    py_int new_quantity = Some nq
    /\ line_of order_id product_id w = Some line
    /\ List.find (has_product_id product_id) (Inventory_objects (mongo w)) = Some item
    /\ ~ (0 < nq - OrderDetails.quantity line
          /\ Inventory.quantity item < nq - OrderDetails.quantity line)
    /\ Inventory_objects (mongo w1)
       = update_where (has_inventory_id (Inventory.inventory_id item))
           (apply_operator (inc__quantity (- (nq - OrderDetails.quantity line))))
           (Inventory_objects (mongo w))
    /\ OrderDetails_objects (mongo w1)
       = update_where (has_id (OrderDetails.id line)) (set_quantity nq)
           (OrderDetails_objects (mongo w)).
Proof.
  intros H. unfold line_of.
  open_world w.
  unfold db.update_order_detail in H.
  destruct (py_int new_quantity) as [nq|]; exec_store_in H; [| congruence].
  destruct (List.find (is_line order_id product_id) details) as [line|] eqn:Hl;
    exec_store_in H; [| congruence].
  destruct (List.find (has_product_id product_id) inventory) as [item|] eqn:Hi;
    exec_store_in H; [| congruence].
  destruct ((0 <? nq - OrderDetails.quantity line)
            && (Inventory.quantity item <? nq - OrderDetails.quantity line)) eqn:Hc;
    exec_store_in H; [congruence |].
  assert (Hn : ~ (0 < nq - OrderDetails.quantity line
                  /\ Inventory.quantity item < nq - OrderDetails.quantity line)).
  { intros [H1 H2]. apply Z.ltb_lt in H1, H2. rewrite H1, H2 in Hc. discriminate. }
  exists nq, line, item.
  destruct faults as [|[m|] faults]; exec_store_in H.
  - inversion H; subst; cbn; auto 10.
  - congruence.
  - destruct faults as [|[m'|] faults]; exec_store_in H;
      [ inversion H; subst; cbn; auto 10 | congruence | inversion H; subst; cbn; auto 10 ].
Qed.

Lemma set_quantity_back (q : Z) (line : OrderDetails.doc) :
  set_quantity (OrderDetails.quantity line) (set_quantity q line) = line.
Proof. destruct line; reflexivity. Qed.

(** X1.  A successful update of a line can be taken back: when the
    quantity on hand was not negative, an update to the quantity the line
    held before succeeds as soon as the store accepts its writes, and it
    leaves the inventory collection and the line as they were before the
    first update. *)
Theorem update_order_detail_can_be_undone
    (w w1 : world) (order_id product_id : string) (new_quantity : pyval) (msg : string)
    (line : OrderDetails.doc) (item : Inventory.doc) :
  line_of order_id product_id w = Some line ->
  List.find (has_product_id product_id) (Inventory_objects (mongo w)) = Some item ->
  0 <= Inventory.quantity item ->
  run (db.update_order_detail order_id product_id new_quantity) w = (Return (true, msg), w1) ->
  writes_succeed 2 (oracle w1) = true ->
  exists w2,
    run (db.update_order_detail order_id product_id (PyInt (OrderDetails.quantity line))) w1
    = (Return (true, "Order detail and inventory updated successfully."), w2)
    /\ Inventory_objects (mongo w2) = Inventory_objects (mongo w)
    /\ line_of order_id product_id w2 = Some line.
Proof.
  intros Hline Hitem Hpos Hrun Hok.
  apply update_order_detail_success in Hrun
    as (nq & line' & item' & _ & Hline' & Hitem' & Hfit & Hinv & Hdet).
  rewrite Hline in Hline'. inversion Hline'; subst line'.
  rewrite Hitem in Hitem'. inversion Hitem'; subst item'.
  unfold line_of in *.
  open_world w1. subst inventory details.
  unfold db.update_order_detail. cbn [py_int].
  exec_store.
  rewrite find_update_where by apply is_line_set_quantity.
  rewrite Hline. cbn [fmap option_fmap option_map]. rewrite has_id_self.
  exec_store.
  rewrite find_update_where by apply has_product_id_apply.
  rewrite Hitem. cbn [fmap option_fmap option_map]. rewrite has_inventory_id_self.
  set (d := nq - OrderDetails.quantity line) in *.
  assert (Hcheck : (0 <? OrderDetails.quantity line
                            - OrderDetails.quantity (set_quantity nq line))
                   && (Inventory.quantity (apply_operator (inc__quantity (- d)) item)
                       <? OrderDetails.quantity line
                          - OrderDetails.quantity (set_quantity nq line)) = false).
  { apply andb_false_iff. right. apply Z.ltb_ge. cbn. unfold d. lia. }
  rewrite Hcheck.
  next_write faults; try next_write faults; exec_store;
    (eexists; split; [reflexivity|]); exec_store;
    (split;
     [ change (Inventory.inventory_id (apply_operator (inc__quantity (- d)) item))
         with (Inventory.inventory_id item);
       rewrite update_where_twice;
       replace (- d + - (OrderDetails.quantity line
                          - OrderDetails.quantity (set_quantity nq line))) with 0
         by (cbn; unfold d; lia);
       apply update_where_nothing
     | rewrite find_update_where by apply is_line_set_quantity;
       rewrite find_update_where by apply is_line_set_quantity;
       rewrite Hline; cbn [fmap option_fmap option_map];
       rewrite has_id_self; cbv iota;
       rewrite (has_id_self (set_quantity nq line)); cbv iota;
       rewrite set_quantity_back; reflexivity ]).
Qed.

Lemma update_order_detail_can_be_undone_witness :
  exists w2,
    run (db.update_order_detail "O1" "P1" (PyInt 4))
        (snd (run (db.update_order_detail "O1" "P1" (PyStr "7")) (calm shop_with_line)))
    = (Return (true, "Order detail and inventory updated successfully."), w2)
    /\ Inventory_objects (mongo w2) = Inventory_objects shop_with_line
    /\ line_of "O1" "P1" w2 = Some (OrderDetails.Doc 0 "O1" "P1" 4).
Proof.
  apply (update_order_detail_can_be_undone
           (calm shop_with_line) _ "O1" "P1" (PyStr "7")
           "Order detail and inventory updated successfully."
           (OrderDetails.Doc 0 "O1" "P1" 4) (Inventory.Doc "I1" "P1" 6 "A1"));
    try reflexivity.
  cbn. lia.
Defined.

(** X2.  The life of a line: when the pair of order and product has no
    line yet, a successful create, a successful update of that line to any
    quantity and then a delete give the inventory collection back exactly as
    it was before the create. *)
Theorem create_update_delete_restores
    (w w1 w2 : world) (order_id product_id : string) (quantity new_quantity : pyval)
    (m1 m2 : string) :
  line_of order_id product_id w = None ->
  run (db.create_order_detail order_id product_id quantity) w = (Return (true, m1), w1) ->
  run (db.update_order_detail order_id product_id new_quantity) w1 = (Return (true, m2), w2) ->
  writes_succeed 2 (oracle w2) = true ->
  exists w3,
    run (db.delete_order_detail order_id product_id) w2
    = (Return (true, "Order detail deleted successfully and inventory updated."), w3)
    /\ Inventory_objects (mongo w3) = Inventory_objects (mongo w).
Proof.
  intros Hnone Hcreate Hupdate Hok.
  apply create_order_detail_success in Hcreate
    as (q & order & item & _ & _ & Hi & _ & Hinv1 & Hdet1 & _).
  apply update_order_detail_success in Hupdate
    as (nq & line & item1 & _ & Hline & Hi1 & _ & Hinv2 & Hdet2).
  unfold line_of in *.
  rewrite Hdet1 in Hline.
  rewrite (find_app_new _ _ _ Hnone) in Hline
    by (unfold is_line; cbn; rewrite !String.eqb_refl; reflexivity).
  inversion Hline; subst line; clear Hline.
  rewrite Hinv1 in Hi1.
  rewrite find_update_where in Hi1 by apply has_product_id_apply.
  rewrite Hi in Hi1. cbn [fmap option_fmap option_map] in Hi1.
  rewrite has_inventory_id_self in Hi1. inversion Hi1; subst item1; clear Hi1.
  rewrite Hinv1 in Hinv2. rewrite Hdet1 in Hdet2.
  cbn [OrderDetails.id OrderDetails.quantity] in Hinv2, Hdet2.
  change (Inventory.inventory_id (apply_operator (dec__quantity q) item))
    with (Inventory.inventory_id item) in Hinv2.
  open_world w2. subst inventory details.
  unfold db.delete_order_detail.
  exec_store.
  rewrite find_update_where by apply is_line_set_quantity.
  rewrite (find_app_new _ _ _ Hnone)
    by (unfold is_line; cbn; rewrite !String.eqb_refl; reflexivity).
  cbn [fmap option_fmap option_map].
  unfold has_id. cbn [OrderDetails.id]. rewrite Nat.eqb_refl.
  exec_store.
  rewrite !find_update_where by apply has_product_id_apply.
  rewrite Hi. cbn [fmap option_fmap option_map].
  rewrite has_inventory_id_self.
  change (has_inventory_id (Inventory.inventory_id item)
            (apply_operator (dec__quantity q) item))
    with (has_inventory_id (Inventory.inventory_id item) item).
  rewrite has_inventory_id_self.
  next_write faults; try next_write faults; exec_store;
    (eexists; split; [reflexivity|]); exec_store;
    cbn [OrderDetails.quantity set_quantity];
    change (Inventory.inventory_id
              (apply_operator (inc__quantity (- (nq - q)))
                 (apply_operator (dec__quantity q) item)))
      with (Inventory.inventory_id item);
    rewrite update_where_dec_inc, update_where_twice;
    replace (- (nq - q) - q + nq) with 0 by lia;
    apply update_where_nothing.
Qed.

Lemma create_update_delete_restores_witness :
  exists w3,
    run (db.delete_order_detail "O1" "P1")
        (snd (run (db.update_order_detail "O1" "P1" (PyStr "7"))
                  (snd (run (db.create_order_detail "O1" "P1" (PyInt 4)) (calm shop)))))
    = (Return (true, "Order detail deleted successfully and inventory updated."), w3)
    /\ Inventory_objects (mongo w3) = Inventory_objects shop.
Proof.
  eapply (create_update_delete_restores
            (calm shop) _ _ "O1" "P1" (PyInt 4) (PyStr "7")
            "Order detail added successfully."
            "Order detail and inventory updated successfully."); reflexivity.
Defined.

(** X3.  [delete_order_detail]: without a line for the pair it fails and
    changes nothing; with a line but no inventory record for the product it
    fails and changes nothing; otherwise, the store accepting its writes, it
    succeeds, the quantity on hand grows by the quantity of the line, the
    line is gone and every other line is kept. *)
Theorem delete_order_detail_behaviour :
  (forall (w : world) (order_id product_id : string),
      line_of order_id product_id w = None ->
      run (db.delete_order_detail order_id product_id) w
      = (Return (false, "Order detail not found."), w))
  /\ (forall (w : world) (order_id product_id : string) (line : OrderDetails.doc),
      line_of order_id product_id w = Some line ->
      stock product_id w = None ->
      run (db.delete_order_detail order_id product_id) w
      = (Return (false, "Inventory item not found for this product."), w))
  /\ (forall (w : world) (order_id product_id : string) (line : OrderDetails.doc)
             (item : Inventory.doc),
      line_of order_id product_id w = Some line ->
      List.find (has_product_id product_id) (Inventory_objects (mongo w)) = Some item ->
      writes_succeed 2 (oracle w) = true ->
      exists w',
        run (db.delete_order_detail order_id product_id) w
        = (Return (true, "Order detail deleted successfully and inventory updated."), w')
        /\ stock product_id w'
           = Some (Inventory.quantity item + OrderDetails.quantity line)
        /\ (forall d, In d (OrderDetails_objects (mongo w')) ->
                      OrderDetails.id d <> OrderDetails.id line)
        /\ (forall d, In d (OrderDetails_objects (mongo w)) ->
                      OrderDetails.id d <> OrderDetails.id line ->
                      In d (OrderDetails_objects (mongo w')))).
Proof.
  unfold line_of, stock.
  split; [| split].
  - intros w o p Hline. open_world w.
    unfold db.delete_order_detail. exec_store. rewrite Hline. reflexivity.
  - intros w o p line Hline Hnone. open_world w.
    unfold db.delete_order_detail. exec_store. rewrite Hline. exec_store.
    destruct (List.find (has_product_id p) inventory); [discriminate | reflexivity].
  - intros w o p line item Hline Hi Hok. open_world w.
    unfold db.delete_order_detail. exec_store. rewrite Hline. exec_store. rewrite Hi.
    next_write faults; try next_write faults; exec_store;
      (eexists; split; [reflexivity|]); exec_store;
      (split; [| split]).
    all: try (rewrite find_update_where by apply has_product_id_apply;
              rewrite Hi; cbn [fmap option_fmap option_map];
              rewrite has_inventory_id_self; reflexivity).
    all: try (intros d Hd; unfold delete_where in Hd;
              apply List.filter_In in Hd as [_ Hd];
              apply negb_true_iff, Nat.eqb_neq in Hd; congruence).
    all: intros d Hd Hne; unfold delete_where;
      apply List.filter_In; split; [exact Hd|];
      apply negb_true_iff, Nat.eqb_neq; congruence.
Qed.

Lemma delete_order_detail_behaviour_witness :
  run (db.delete_order_detail "O2" "P1") (calm shop_with_line)
  = (Return (false, "Order detail not found."), calm shop_with_line)
  /\ run (db.delete_order_detail "O1" "P1")
         (calm (with_inventory [Inventory.Doc "I2" "P2" 2 "B4"] shop_with_line))
     = (Return (false, "Inventory item not found for this product."),
        calm (with_inventory [Inventory.Doc "I2" "P2" 2 "B4"] shop_with_line))
  /\ (exists w',
        run (db.delete_order_detail "O1" "P1") (calm shop_with_line)
        = (Return (true, "Order detail deleted successfully and inventory updated."), w')
        /\ stock "P1" w' = Some 10
        /\ (forall d, In d (OrderDetails_objects (mongo w')) -> OrderDetails.id d <> 0%nat)
        /\ (forall d, In d (OrderDetails_objects shop_with_line) ->
                      OrderDetails.id d <> 0%nat ->
                      In d (OrderDetails_objects (mongo w')))).
Proof.
  destruct delete_order_detail_behaviour as (Hnone & Hnostock & Hdone).
  split; [| split].
  - apply (Hnone (calm shop_with_line) "O2" "P1"). reflexivity.
  - apply (Hnostock (calm (with_inventory [Inventory.Doc "I2" "P2" 2 "B4"] shop_with_line))
                    "O1" "P1" (OrderDetails.Doc 0 "O1" "P1" 4)); reflexivity.
  - apply (Hdone (calm shop_with_line) "O1" "P1" (OrderDetails.Doc 0 "O1" "P1" 4)
                 (Inventory.Doc "I1" "P1" 6 "A1")); reflexivity.
Defined.

(** X4.  A delete is not compensated: when the store accepts the credit and
    refuses the removal of the line, the delete returns a failure with the
    quantity on hand already raised and the line still in place; a second
    delete that goes through then credits the same quantity once more. *)
Theorem delete_order_detail_retry_credits_twice
    (w : world) (order_id product_id : string) (line : OrderDetails.doc)
    (item : Inventory.doc) (msg : string) (rest : list (option string)) :
  line_of order_id product_id w = Some line ->
  List.find (has_product_id product_id) (Inventory_objects (mongo w)) = Some item ->
  oracle w = None :: Some msg :: rest ->
  writes_succeed 2 rest = true ->
  exists w1 w2,
    run (db.delete_order_detail order_id product_id) w
    = (Return (false, "Failed to delete order detail: " +:+ msg), w1)
    /\ stock product_id w1 = Some (Inventory.quantity item + OrderDetails.quantity line)
    /\ OrderDetails_objects (mongo w1) = OrderDetails_objects (mongo w)
    /\ run (db.delete_order_detail order_id product_id) w1
       = (Return (true, "Order detail deleted successfully and inventory updated."), w2)
    /\ stock product_id w2
       = Some (Inventory.quantity item + 2 * OrderDetails.quantity line).
Proof.
  unfold line_of, stock.
  intros Hline Hi Hor Hok. open_world w. subst faults.
  assert (Hi1 : List.find (has_product_id product_id)
                  (update_where (has_inventory_id (Inventory.inventory_id item))
                     (apply_operator (inc__quantity (OrderDetails.quantity line)))
                     inventory)
                = Some (apply_operator (inc__quantity (OrderDetails.quantity line)) item)).
  { rewrite find_update_where by apply has_product_id_apply.
    rewrite Hi. cbn [fmap option_fmap option_map].
    rewrite has_inventory_id_self. reflexivity. }
  unfold db.delete_order_detail.
  next_write rest; try next_write rest;
    exec_store; rewrite Hline; exec_store; rewrite Hi; exec_store;
    (do 2 eexists; split; [reflexivity|]); exec_store;
    (split; [rewrite Hi1; reflexivity|]); (split; [reflexivity|]);
    rewrite Hline; exec_store; rewrite Hi1; exec_store;
    (split; [reflexivity|]); exec_store;
    change (Inventory.inventory_id
              (apply_operator (inc__quantity (OrderDetails.quantity line)) item))
      with (Inventory.inventory_id item);
    rewrite update_where_twice;
    rewrite find_update_where by apply has_product_id_apply;
    rewrite Hi; cbn [fmap option_fmap option_map];
    rewrite has_inventory_id_self; cbn; f_equal; lia.
Qed.

Lemma delete_order_detail_retry_credits_twice_witness :
  exists w1 w2,
    run (db.delete_order_detail "O1" "P1") (faulty shop_with_line [None; Some "timed out"])
    = (Return (false, "Failed to delete order detail: timed out"), w1)
    /\ stock "P1" w1 = Some 10
    /\ OrderDetails_objects (mongo w1) = OrderDetails_objects shop_with_line
    /\ run (db.delete_order_detail "O1" "P1") w1
       = (Return (true, "Order detail deleted successfully and inventory updated."), w2)
    /\ stock "P1" w2 = Some 14.
Proof.
  apply (delete_order_detail_retry_credits_twice
           (faulty shop_with_line [None; Some "timed out"]) "O1" "P1"
           (OrderDetails.Doc 0 "O1" "P1" 4) (Inventory.Doc "I1" "P1" 6 "A1")
           "timed out" []); reflexivity.
Defined.

(** ** What the functions never touch *)

Lemma uses_only_call (allowed : forall B : Type, store_op B -> bool) {B : Type}
    (op : store_op B) :
  allowed B op = true -> uses_only allowed (call op).
Proof. intros H. constructor; [exact H|]. intros [b|e]; constructor. Qed.

Lemma uses_only_bind (allowed : forall B : Type, store_op B -> bool) {A B : Type}
    (p : prog A) (f : A -> prog B) :
  uses_only allowed p -> (forall a, uses_only allowed (f a)) ->
  uses_only allowed (bind p f).
Proof.
  intros Hp Hf. induction Hp as [a | e | C op k Hop Hk IH]; cbn.
  - apply Hf.
  - constructor.
  - constructor; [exact Hop | exact IH].
Qed.

Lemma uses_only_try_except (allowed : forall B : Type, store_op B -> bool) {A : Type}
    (p : prog A) (h : exn -> prog A) :
  uses_only allowed p -> (forall e, uses_only allowed (h e)) ->
  uses_only allowed (try_except p h).
Proof.
  intros Hp Hh. induction Hp as [a | e | C op k Hop Hk IH]; cbn.
  - constructor.
  - apply Hh.
  - constructor; [exact Hop | exact IH].
Qed.

Lemma ledger_op_frame {B : Type} (op : store_op B) (w : world) :
  ledger_op op = true -> same_orders_and_catalog w (snd (exec op w)).
Proof.
  unfold same_orders_and_catalog. intros Hop. open_world w.
  destruct op; try discriminate Hop; cbn [exec snd]; auto;
    unfold write; cbn [oracle];
    destruct faults as [|[m|] faults]; cbn; auto.
Qed.

Lemma uses_only_ledger_frame {A : Type} (p : prog A) :
  uses_only (@ledger_op) p ->
  forall w : world, same_orders_and_catalog w (snd (run p w)).
Proof.
  induction 1 as [a | e | B op k Hop Hk IH]; intros w; cbn [run snd].
  - unfold same_orders_and_catalog; auto.
  - unfold same_orders_and_catalog; auto.
  - pose proof (ledger_op_frame op w Hop) as Hstep.
    destruct (exec op w) as [r w1]. cbn [snd] in Hstep.
    specialize (IH r w1).
    unfold same_orders_and_catalog in *.
    destruct Hstep as (H1 & H2 & H3 & H4), IH as (I1 & I2 & I3 & I4).
    repeat split; congruence.
Qed.

Ltac footprint :=
  repeat first
    [ apply uses_Ret
    | apply uses_Throw
    | apply uses_only_call; reflexivity
    | apply uses_only_try_except
    | apply uses_only_bind
    | intros [?|] | intros ? ].

(** X5.  Whatever its arguments, the state of the stores and the failures
    of the store, an order-line create, update or delete leaves the orders,
    the retailers, the catalog and the clock as they were. *)
Theorem order_lines_touch_the_ledger_only
    (w : world) (order_id product_id : string) (quantity : pyval) :
  same_orders_and_catalog w (snd (run (db.create_order_detail order_id product_id quantity) w))
  /\ same_orders_and_catalog w
       (snd (run (db.update_order_detail order_id product_id quantity) w))
  /\ same_orders_and_catalog w (snd (run (db.delete_order_detail order_id product_id) w)).
Proof.
  split; [| split]; apply uses_only_ledger_frame.
  - unfold db.create_order_detail.
    destruct (py_int quantity) as [q|]; footprint.
    match goal with |- uses_only _ (if ?c then _ else _) => destruct c end; footprint.
  - unfold db.update_order_detail.
    destruct (py_int quantity) as [q|]; footprint.
    match goal with |- uses_only _ (if ?c then _ else _) => destruct c end; footprint.
  - unfold db.delete_order_detail. footprint.
Qed.

(** ** Inventory records *)

Lemma upsert_keeps_others {A : Type} (same : A -> bool) (d x : A) (l : list A) :
  In x l -> same x = false -> In x (upsert same d l).
Proof.
  intros Hx Hne.
  induction l as [|y l IH]; cbn in *; [contradiction|].
  destruct Hx as [-> | Hx].
  - rewrite Hne. now left.
  - destruct (same y); [right; exact Hx | right; auto].
Qed.

(** X6.  [create_inventory] checks the catalog first: for a product the
    catalog does not hold it fails and changes nothing.  For a product in
    the catalog, a quantity that is not an integer or a store that refuses
    the write gives a failure and leaves the document store as it was;
    otherwise the record is stored under its inventory id, in the place of
    any record that had that id, and every record with another id is
    kept. *)
Theorem create_inventory_behaviour :
  (forall (w : world) (inventory_id product_id location : string) (quantity : pyval),
      redis w !! ("product:" +:+ product_id) = None ->
      run (db.create_inventory inventory_id product_id quantity location) w
      = (Return (false, "Unable to locate the product in the database. Please add the product entry first by using the Create Product option."), w))
  /\ (forall (w : world) (inventory_id product_id location : string) (quantity : pyval),
      is_Some (redis w !! ("product:" +:+ product_id)) ->
      py_int quantity = None ->
      exists msg,
        run (db.create_inventory inventory_id product_id quantity location) w
        = (Return (false, "Failed to create inventory: " +:+ msg), w))
  /\ (forall (w : world) (inventory_id product_id location : string) (quantity : pyval)
             (q : Z) (msg : string) (rest : list (option string)),
      is_Some (redis w !! ("product:" +:+ product_id)) ->
      py_int quantity = Some q ->
      oracle w = Some msg :: rest ->
      exists w',
        run (db.create_inventory inventory_id product_id quantity location) w
        = (Return (false, "Failed to create inventory: " +:+ msg), w')
        /\ mongo w' = mongo w)
  /\ (forall (w : world) (inventory_id product_id location : string) (quantity : pyval)
             (q : Z),
      is_Some (redis w !! ("product:" +:+ product_id)) ->
      py_int quantity = Some q ->
      writes_succeed 1 (oracle w) = true ->
      exists w',
        run (db.create_inventory inventory_id product_id quantity location) w
        = (Return (true, "Inventory item " +:+ inventory_id +:+ " created with product "
                         +:+ product_id +:+ "."), w')
        /\ List.find (has_inventory_id inventory_id) (Inventory_objects (mongo w'))
           = Some (Inventory.Doc inventory_id product_id q location)
        /\ (forall d, In d (Inventory_objects (mongo w)) ->
                      Inventory.inventory_id d <> inventory_id ->
                      In d (Inventory_objects (mongo w')))
        /\ OrderDetails_objects (mongo w') = OrderDetails_objects (mongo w)).
Proof.
  split; [| split; [| split]].
  - intros w i p loc v Hnone. open_world w.
    unfold db.create_inventory, db.check_product_exists_in_redis. exec_store.
    rewrite bool_decide_eq_false_2 by (rewrite Hnone; apply is_Some_None).
    reflexivity.
  - intros w i p loc v Hp Hq. open_world w.
    unfold db.create_inventory, db.check_product_exists_in_redis, db.IntField_clean.
    exec_store. rewrite (bool_decide_eq_true_2 _ Hp). rewrite Hq.
    exec_store. eexists. reflexivity.
  - intros w i p loc v q msg rest Hp Hq Hor. open_world w. subst faults.
    unfold db.create_inventory, db.check_product_exists_in_redis, db.IntField_clean.
    exec_store. rewrite (bool_decide_eq_true_2 _ Hp). rewrite Hq.
    exec_store. eexists. split; reflexivity.
  - intros w i p loc v q Hp Hq Hok. open_world w.
    unfold db.create_inventory, db.check_product_exists_in_redis, db.IntField_clean.
    exec_store. rewrite (bool_decide_eq_true_2 _ Hp). rewrite Hq.
    next_write faults; exec_store;
      (eexists; split; [reflexivity|]); exec_store;
      (split; [apply (find_upsert (has_inventory_id i)); apply String.eqb_refl|]);
      (split; [| reflexivity]);
      intros d Hd Hne;
      (apply upsert_keeps_others;
       [ exact Hd
       | unfold has_inventory_id; cbn [Inventory.inventory_id];
         apply String.eqb_neq; congruence ]).
Qed.

Lemma create_inventory_behaviour_witness :
  run (db.create_inventory "I3" "P7" (PyInt 5) "C2") (calm shop)
  = (Return (false, "Unable to locate the product in the database. Please add the product entry first by using the Create Product option."), calm shop)
  /\ (exists msg,
        run (db.create_inventory "I3" "P1" (PyStr "five") "C2") (calm shop)
        = (Return (false, "Failed to create inventory: " +:+ msg), calm shop))
  /\ (exists w',
        run (db.create_inventory "I3" "P1" (PyInt 5) "C2") (faulty shop [Some "timed out"])
        = (Return (false, "Failed to create inventory: timed out"), w')
        /\ mongo w' = shop)
  /\ (exists w',
        run (db.create_inventory "I1" "P1" (PyInt 5) "C2") (calm shop)
        = (Return (true, "Inventory item I1 created with product P1."), w')
        /\ List.find (has_inventory_id "I1") (Inventory_objects (mongo w'))
           = Some (Inventory.Doc "I1" "P1" 5 "C2")
        /\ (forall d, In d (Inventory_objects shop) ->
                      Inventory.inventory_id d <> "I1" ->
                      In d (Inventory_objects (mongo w')))
        /\ OrderDetails_objects (mongo w') = OrderDetails_objects shop).
Proof.
  destruct create_inventory_behaviour as (Hmissing & Hbad & Hrefused & Hstored).
  split; [| split; [| split]].
  - apply (Hmissing (calm shop) "I3" "P7" "C2" (PyInt 5)). reflexivity.
  - apply (Hbad (calm shop) "I3" "P1" "C2" (PyStr "five")); [eexists|]; reflexivity.
  - apply (Hrefused (faulty shop [Some "timed out"]) "I3" "P1" "C2" (PyInt 5) 5
                    "timed out" []); [eexists| |]; reflexivity.
  - apply (Hstored (calm shop) "I1" "P1" "C2" (PyInt 5) 5); [eexists| |]; reflexivity.
Defined.

(** X7.  [update_inventory_quantity]: for an unknown inventory id it fails
    and changes nothing; for a known id and a text that is not an integer it
    raises, out of the function, and changes nothing; otherwise, the store
    accepting the write, the record keeps its product and its location and
    holds the integer given, whatever the order lines say, and the order
    lines are left as they were. *)
Theorem update_inventory_quantity_behaviour :
  (forall (w : world) (inventory_id : string) (new_quantity : pyval),
      List.find (has_inventory_id inventory_id) (Inventory_objects (mongo w)) = None ->
      run (db.update_inventory_quantity inventory_id new_quantity) w
      = (Return (false, "Inventory item not found."), w))
  /\ (forall (w : world) (inventory_id : string) (new_quantity : pyval) (item : Inventory.doc),
      List.find (has_inventory_id inventory_id) (Inventory_objects (mongo w)) = Some item ->
      py_int new_quantity = None ->
      exists msg,
        run (db.update_inventory_quantity inventory_id new_quantity) w
        = (Raise (ValidationError msg), w))
  /\ (forall (w : world) (inventory_id : string) (new_quantity : pyval) (q : Z)
             (item : Inventory.doc),
      List.find (has_inventory_id inventory_id) (Inventory_objects (mongo w)) = Some item ->
      py_int new_quantity = Some q ->
      writes_succeed 1 (oracle w) = true ->
      exists w',
        run (db.update_inventory_quantity inventory_id new_quantity) w
        = (Return (true, "Inventory item " +:+ inventory_id +:+ " updated successfully."), w')
        /\ List.find (has_inventory_id inventory_id) (Inventory_objects (mongo w'))
           = Some (Inventory.Doc inventory_id (Inventory.product_id item) q
                                 (Inventory.location item))
        /\ OrderDetails_objects (mongo w') = OrderDetails_objects (mongo w)).
Proof.
  split; [| split].
  - intros w i v Hnone. open_world w.
    unfold db.update_inventory_quantity. exec_store. rewrite Hnone. reflexivity.
  - intros w i v item Hi Hq. open_world w.
    unfold db.update_inventory_quantity, db.IntField_clean.
    exec_store. rewrite Hi, Hq. exec_store. eexists. reflexivity.
  - intros w i v q item Hi Hq Hok. open_world w.
    assert (Hid : Inventory.inventory_id item = i).
    { apply find_holds in Hi. symmetry. apply String.eqb_eq. exact Hi. }
    unfold db.update_inventory_quantity, db.IntField_clean.
    exec_store. rewrite Hi, Hq, Hid.
    next_write faults; exec_store;
      (eexists; split; [reflexivity|]); exec_store;
      (split; [apply (find_upsert (has_inventory_id i)); apply String.eqb_refl
              | reflexivity]).
Qed.

Lemma update_inventory_quantity_behaviour_witness :
  run (db.update_inventory_quantity "I9" (PyStr "3")) (calm shop)
  = (Return (false, "Inventory item not found."), calm shop)
  /\ (exists msg,
        run (db.update_inventory_quantity "I1" (PyStr "three")) (calm shop)
        = (Raise (ValidationError msg), calm shop))
  /\ (exists w',
        run (db.update_inventory_quantity "I1" (PyStr "3")) (calm shop_with_line)
        = (Return (true, "Inventory item I1 updated successfully."), w')
        /\ List.find (has_inventory_id "I1") (Inventory_objects (mongo w'))
           = Some (Inventory.Doc "I1" "P1" 3 "A1")
        /\ OrderDetails_objects (mongo w') = OrderDetails_objects shop_with_line).
Proof.
  destruct update_inventory_quantity_behaviour as (Hmissing & Hbad & Hset).
  split; [| split].
  - apply (Hmissing (calm shop) "I9" (PyStr "3")). reflexivity.
  - apply (Hbad (calm shop) "I1" (PyStr "three") (Inventory.Doc "I1" "P1" 10 "A1"));
      reflexivity.
  - apply (Hset (calm shop_with_line) "I1" (PyStr "3") 3 (Inventory.Doc "I1" "P1" 6 "A1"));
      reflexivity.
Defined.

(** ** The catalog *)

Ltac play_store :=
  cbn [play and_then ask rescue perform commit exec write apply_write str text_of
       oracle mongo redis clock with_oracle with_mongo with_redis
       with_inventory with_orders with_order_details with_retailers
       Retailer_objects Order_objects Inventory_objects OrderDetails_objects next_id
       run bind call try_except].

Lemma exists_true (kv : gmap string (gmap string string)) (key : string)
    (h : gmap string string) :
  kv !! key = Some h -> bool_decide (is_Some (kv !! key)) = true.
Proof. intros H. apply bool_decide_eq_true_2. rewrite H. eauto. Qed.

Lemma exists_false (kv : gmap string (gmap string string)) (key : string) :
  kv !! key = None -> bool_decide (is_Some (kv !! key)) = false.
Proof. intros H. apply bool_decide_eq_false_2. rewrite H. apply is_Some_None. Qed.

(** X8.  What [create_supplier] and [create_product] store under a new id
    is what [retrieve_supplier] and [retrieve_product] give back: a dict with
    exactly the attributes of the call, the price as the text of the value
    passed. *)
Theorem catalog_round_trip :
  (forall (w : world) (supplier_id name location contact_info : string),
      redis w !! ("supplier:" +:+ supplier_id) = None ->
      writes_succeed 1 (oracle w) = true ->
      let w1 := snd (run (redis_db.create_supplier supplier_id name location contact_info) w) in
      play (redis_db_rest.retrieve_supplier supplier_id) w1
      = (Value (true, Dict (<["name" := PyStr name]>
                           (<["location" := PyStr location]>
                            (<["contact_info" := PyStr contact_info]> ∅)))), w1))
  /\ (forall (w : world) (product_id name description : string) (price : pyval)
             (supplier_id : string),
      is_Some (redis w !! ("supplier:" +:+ supplier_id)) ->
      redis w !! ("product:" +:+ product_id) = None ->
      writes_succeed 1 (oracle w) = true ->
      let w1 := snd (run (redis_db.create_product product_id name description price
                                                  supplier_id) w) in
      play (redis_db_rest.retrieve_product product_id) w1
      = (Value (true, Dict (<["name" := PyStr name]>
                           (<["description" := PyStr description]>
                            (<["price" := PyStr (py_str price)]>
                             (<["supplier_id" := PyStr supplier_id]> ∅))))), w1)).
Proof.
  split.
  - intros w s n l c Hnew Hok. open_world w.
    unfold redis_db.create_supplier, redis_db_rest.retrieve_supplier.
    exec_store. rewrite (exists_false _ _ Hnew).
    next_write faults; exec_store; cbn [snd]; play_store;
      rewrite (exists_true _ _ _ (lookup_insert_eq _ _ _));
      play_store; rewrite lookup_insert_eq, Hnew; cbn [default from_option id foldr fst snd];
      rewrite !fmap_insert, fmap_empty; reflexivity.
  - intros w p n d price s Hs Hnew Hok. open_world w.
    unfold redis_db.create_product, redis_db_rest.retrieve_product.
    exec_store. rewrite (bool_decide_eq_true_2 _ Hs). cbn [negb].
    exec_store. rewrite (exists_false _ _ Hnew).
    next_write faults; exec_store; cbn [snd]; play_store;
      rewrite (exists_true _ _ _ (lookup_insert_eq _ _ _));
      play_store; rewrite lookup_insert_eq, Hnew; cbn [default from_option id foldr fst snd];
      rewrite !fmap_insert, fmap_empty; reflexivity.
Qed.

Lemma catalog_round_trip_witness :
  play (redis_db_rest.retrieve_supplier "S2")
       (snd (run (redis_db.create_supplier "S2" "Bolts Ltd" "Hull" "b@example.org") (calm shop)))
  = (Value (true, Dict (<["name" := PyStr "Bolts Ltd"]>
                       (<["location" := PyStr "Hull"]>
                        (<["contact_info" := PyStr "b@example.org"]> ∅)))),
     snd (run (redis_db.create_supplier "S2" "Bolts Ltd" "Hull" "b@example.org") (calm shop)))
  /\ play (redis_db_rest.retrieve_product "P2")
          (snd (run (redis_db.create_product "P2" "Nut" "M8" (PyInt 3) "S1") (calm shop)))
     = (Value (true, Dict (<["name" := PyStr "Nut"]>
                          (<["description" := PyStr "M8"]>
                           (<["price" := PyStr "3"]>
                            (<["supplier_id" := PyStr "S1"]> ∅))))),
        snd (run (redis_db.create_product "P2" "Nut" "M8" (PyInt 3) "S1") (calm shop))).
Proof.
  split.
  - apply (proj1 catalog_round_trip (calm shop) "S2" "Bolts Ltd" "Hull" "b@example.org");
      reflexivity.
  - apply (proj2 catalog_round_trip (calm shop) "P2" "Nut" "M8" (PyInt 3) "S1");
      [eexists; reflexivity | reflexivity | reflexivity].
Defined.

Lemma supplier_key_is_no_product_key (s p : string) :
  "supplier:" +:+ s <> "product:" +:+ p.
Proof. cbn. discriminate. Qed.

(** X9.  [delete_product] on an id the catalog does not hold answers with
    the failure and leaves both stores as they were.  On an id it holds, the
    store accepting the write, it succeeds, the product is gone (a
    [retrieve_product] answers not found and a second delete fails), and
    every other entry of the catalog is untouched. *)
Theorem delete_product_behaviour :
  (forall (w : world) (product_id : string),
      redis w !! ("product:" +:+ product_id) = None ->
      writes_succeed 1 (oracle w) = true ->
      exists w',
        play (redis_db_rest.delete_product product_id) w
        = (Value (false, "Product " +:+ product_id +:+ " not found or already deleted."), w')
        /\ redis w' = redis w /\ mongo w' = mongo w)
  /\ (forall (w : world) (product_id : string),
      is_Some (redis w !! ("product:" +:+ product_id)) ->
      writes_succeed 2 (oracle w) = true ->
      exists w',
        play (redis_db_rest.delete_product product_id) w
        = (Value (true, "Product " +:+ product_id +:+ " deleted successfully."), w')
        /\ (forall key, key <> "product:" +:+ product_id -> redis w' !! key = redis w !! key)
        /\ mongo w' = mongo w
        /\ play (redis_db_rest.retrieve_product product_id) w'
           = (Value (false, Str "Product not found."), w')
        /\ fst (play (redis_db_rest.delete_product product_id) w')
           = Value (false, "Product " +:+ product_id +:+ " not found or already deleted.")).
Proof.
  split.
  - intros w p Hnone Hok. open_world w.
    unfold redis_db_rest.delete_product.
    next_write faults; play_store; rewrite (exists_false _ _ Hnone);
      (eexists; split; [reflexivity|]); play_store;
      (split; [apply delete_id; exact Hnone | reflexivity]).
  - intros w p Hsome Hok. open_world w.
    unfold redis_db_rest.delete_product, redis_db_rest.retrieve_product.
    next_write faults; try next_write faults;
      play_store; rewrite (bool_decide_eq_true_2 _ Hsome);
      (eexists; split; [reflexivity|]); play_store;
      (split; [intros key Hkey; apply lookup_delete_ne; congruence|]);
      (split; [reflexivity|]);
      rewrite (exists_false _ _ (lookup_delete_eq _ _));
      split; reflexivity.
Qed.

Lemma delete_product_behaviour_witness :
  (exists w',
     play (redis_db_rest.delete_product "P7") (calm shop)
     = (Value (false, "Product P7 not found or already deleted."), w')
     /\ redis w' = catalog /\ mongo w' = shop)
  /\ (exists w',
        play (redis_db_rest.delete_product "P1") (calm shop)
        = (Value (true, "Product P1 deleted successfully."), w')
        /\ (forall key, key <> "product:" +:+ "P1" -> redis w' !! key = catalog !! key)
        /\ mongo w' = shop
        /\ play (redis_db_rest.retrieve_product "P1") w'
           = (Value (false, Str "Product not found."), w')
        /\ fst (play (redis_db_rest.delete_product "P1") w')
           = Value (false, "Product P1 not found or already deleted.")).
Proof.
  split.
  - apply (proj1 delete_product_behaviour (calm shop) "P7"); reflexivity.
  - apply (proj2 delete_product_behaviour (calm shop) "P1"); [eexists|]; reflexivity.
Defined.

(** X10.  [delete_supplier] does not look at the products: after a
    successful delete every product of the catalog is still there with the
    attributes it had, the supplier id included, and a [create_product] that
    names the deleted supplier fails and changes nothing. *)
Theorem delete_supplier_keeps_products
    (w : world) (supplier_id : string) :
  is_Some (redis w !! ("supplier:" +:+ supplier_id)) ->
  writes_succeed 1 (oracle w) = true ->
  exists w',
    play (redis_db_rest.delete_supplier supplier_id) w
    = (Value (true, "Supplier " +:+ supplier_id +:+ " deleted successfully."), w')
    /\ (forall product_id,
          redis w' !! ("product:" +:+ product_id) = redis w !! ("product:" +:+ product_id))
    /\ (forall product_id name description price,
          run (redis_db.create_product product_id name description price supplier_id) w'
          = (Return (false, "Supplier does not exist. Add the supplier first."), w')).
Proof.
  intros Hsome Hok. open_world w.
  unfold redis_db_rest.delete_supplier.
  next_write faults; play_store; rewrite (bool_decide_eq_true_2 _ Hsome);
    (eexists; split; [reflexivity|]); play_store;
    (split;
     [ intros p; apply lookup_delete_ne; apply supplier_key_is_no_product_key
     | intros p nm d price; unfold redis_db.create_product; exec_store;
       rewrite (exists_false _ _ (lookup_delete_eq _ _)); reflexivity ]).
Qed.

Lemma delete_supplier_keeps_products_witness :
  exists w',
    play (redis_db_rest.delete_supplier "S1") (calm shop)
    = (Value (true, "Supplier S1 deleted successfully."), w')
    /\ (forall product_id,
          redis w' !! ("product:" +:+ product_id) = catalog !! ("product:" +:+ product_id))
    /\ (forall product_id name description price,
          run (redis_db.create_product product_id name description price "S1") w'
          = (Return (false, "Supplier does not exist. Add the supplier first."), w')).
Proof.
  apply (delete_supplier_keeps_products (calm shop) "S1"); [eexists|]; reflexivity.
Defined.

Lemma hmset_other_fields (mapping : list (string * string)) (h : gmap string string)
    (field : string) :
  ~ In field (List.map fst mapping) ->
  foldr (fun fv acc => <[fv.1 := fv.2]> acc) h mapping !! field = h !! field.
Proof.
  induction mapping as [|[f v] mapping IH]; cbn; intros Hnot; [reflexivity|].
  rewrite lookup_insert_ne by (intros ->; apply Hnot; now left).
  apply IH. intros Hin. apply Hnot. now right.
Qed.

Lemma hmset_named_field (mapping : list (string * string)) (h : gmap string string)
    (field value : string) :
  List.NoDup (List.map fst mapping) -> In (field, value) mapping ->
  foldr (fun fv acc => <[fv.1 := fv.2]> acc) h mapping !! field = Some value.
Proof.
  induction mapping as [|[f v] mapping IH]; cbn; intros Hnd Hin; [contradiction|].
  inversion Hnd as [|? ? Hfresh Hnd']; subst.
  destruct Hin as [Heq | Hin].
  - inversion Heq; subst. apply lookup_insert_eq.
  - rewrite lookup_insert_ne.
    + apply IH; assumption.
    + intros ->. apply Hfresh. apply (List.in_map fst) in Hin. exact Hin.
Qed.

Lemma given_keys (kwargs : list (string * option pyval)) (field : string) :
  In field (List.map fst (redis_db_rest.given kwargs)) -> In field (List.map fst kwargs).
Proof.
  induction kwargs as [|[f [v|]] kwargs IH]; cbn; intros H; auto.
  destruct H as [H | H]; auto.
Qed.

Lemma given_nodup (kwargs : list (string * option pyval)) :
  List.NoDup (List.map fst kwargs) ->
  List.NoDup (List.map fst (redis_db_rest.given kwargs)).
Proof.
  induction kwargs as [|[f [v|]] kwargs IH]; cbn; intros Hnd.
  - constructor.
  - inversion Hnd as [|? ? Hfresh Hnd']; subst.
    constructor; [| auto].
    intros Hin. apply Hfresh. apply given_keys. exact Hin.
  - inversion Hnd; subst. auto.
Qed.

Lemma given_value (kwargs : list (string * option pyval)) (field : string) (v : pyval) :
  In (field, Some v) kwargs -> In (field, py_str v) (redis_db_rest.given kwargs).
Proof.
  induction kwargs as [|[f [u|]] kwargs IH]; cbn; intros H; [contradiction | |].
  - destruct H as [H | H]; [inversion H; subst; now left | right; auto].
  - destruct H as [H | H]; [discriminate | auto].
Qed.

Lemma given_nothing (kwargs : list (string * option pyval)) :
  Forall (fun kv => kv.2 = None) kwargs -> redis_db_rest.given kwargs = [].
Proof.
  induction 1 as [|[f v] kwargs Hv _ IH]; cbn in *; [reflexivity|].
  rewrite Hv. exact IH.
Qed.

(** X11.  [update_product] never creates a product: for an id the catalog
    does not hold it fails and changes nothing.  With only [None] values it
    fails with "No updates provided." and changes nothing.  Otherwise, the
    store accepting the write, each keyword given a value becomes a field
    of that name holding the text of the value, every field the call does
    not name keeps what it held, and the other entries of the catalog
    and the document store are untouched. *)
Theorem update_product_behaviour :
  (forall (w : world) (product_id : string) (kwargs : list (string * option pyval)),
      redis w !! ("product:" +:+ product_id) = None ->
      play (redis_db_rest.update_product product_id kwargs) w
      = (Value (false, "Product not found."), w))
  /\ (forall (w : world) (product_id : string) (kwargs : list (string * option pyval)),
      is_Some (redis w !! ("product:" +:+ product_id)) ->
      Forall (fun kv => kv.2 = None) kwargs ->
      play (redis_db_rest.update_product product_id kwargs) w
      = (Value (false, "No updates provided."), w))
  /\ (forall (w : world) (product_id : string) (kwargs : list (string * option pyval))
             (h : gmap string string) (field : string) (value : pyval),
      redis w !! ("product:" +:+ product_id) = Some h ->
      List.NoDup (List.map fst kwargs) ->
      In (field, Some value) kwargs ->
      writes_succeed 1 (oracle w) = true ->
      exists (w' : world) (h' : gmap string string),
        play (redis_db_rest.update_product product_id kwargs) w
        = (Value (true, "Product updated successfully."), w')
        /\ redis w' !! ("product:" +:+ product_id) = Some h'
        /\ h' !! field = Some (py_str value)
        /\ (forall f v, In (f, Some v) kwargs -> h' !! f = Some (py_str v))
        /\ (forall f, ~ In f (List.map fst kwargs) -> h' !! f = h !! f)
        /\ (forall key, key <> "product:" +:+ product_id -> redis w' !! key = redis w !! key)
        /\ mongo w' = mongo w).
Proof.
  split; [| split].
  - intros w p kwargs Hnone. open_world w.
    unfold redis_db_rest.update_product. play_store.
    rewrite (exists_false _ _ Hnone). reflexivity.
  - intros w p kwargs Hsome Hall. open_world w.
    unfold redis_db_rest.update_product. play_store.
    rewrite (bool_decide_eq_true_2 _ Hsome). cbn [negb].
    rewrite (given_nothing _ Hall). reflexivity.
  - intros w p kwargs h field value Hh Hnd Hin Hok. open_world w.
    unfold redis_db_rest.update_product. play_store.
    rewrite (exists_true _ _ _ Hh). cbn [negb].
    pose proof (given_value _ _ _ Hin) as Hgiven.
    destruct (redis_db_rest.given kwargs) as [|fv updates] eqn:Eg; [contradiction|].
    rewrite <- Eg in *. clear Eg fv updates.
    next_write faults; play_store;
      (do 2 eexists; split; [reflexivity|]); play_store;
      (split; [apply lookup_insert_eq|]);
      rewrite Hh; cbn [default from_option id];
      (split; [apply hmset_named_field; [apply given_nodup; exact Hnd | exact Hgiven]|]);
      (split; [intros f v Hfv; apply hmset_named_field;
               [apply given_nodup; exact Hnd | apply given_value; exact Hfv]|]);
      (split; [intros f Hf; apply hmset_other_fields;
               intros Hg; apply Hf; apply given_keys; exact Hg|]);
      (split; [intros key Hkey; apply lookup_insert_ne; congruence | reflexivity]).
Qed.

Lemma update_product_behaviour_witness :
  play (redis_db_rest.update_product "P7" [("price", Some (PyInt 4))]) (calm shop)
  = (Value (false, "Product not found."), calm shop)
  /\ play (redis_db_rest.update_product "P1" [("price", None)]) (calm shop)
     = (Value (false, "No updates provided."), calm shop)
  /\ (exists (w' : world) (h' : gmap string string),
        play (redis_db_rest.update_product "P1" [("new_price", Some (PyStr "4"))]) (calm shop)
        = (Value (true, "Product updated successfully."), w')
        /\ redis w' !! ("product:" +:+ "P1") = Some h'
        /\ h' !! "new_price" = Some "4"
        /\ (forall f v, In (f, Some v) [("new_price", Some (PyStr "4"))] ->
                        h' !! f = Some (py_str v))
        /\ (forall f, ~ In f (List.map fst [("new_price", Some (PyStr "4"))]) ->
                      h' !! f
                      = (<["name" := "Bolt"]> (<["supplier_id" := "S1"]> ∅)
                         : gmap string string) !! f)
        /\ (forall key, key <> "product:" +:+ "P1" -> redis w' !! key = catalog !! key)
        /\ mongo w' = shop).
Proof.
  destruct update_product_behaviour as (Hmissing & Hnothing & Hset).
  split; [| split].
  - apply (Hmissing (calm shop) "P7"). reflexivity.
  - apply (Hnothing (calm shop) "P1"); [eexists; reflexivity|].
    repeat constructor.
  - apply (Hset (calm shop) "P1" [("new_price", Some (PyStr "4"))]
                (<["name" := "Bolt"]> (<["supplier_id" := "S1"]> ∅))
                "new_price" (PyStr "4")).
    + reflexivity.
    + repeat constructor. intros [].
    + now left.
    + reflexivity.
Defined.

(** ** Listing the catalog *)

Lemma append_assoc (a b c : string) : (a +:+ b) +:+ c = a +:+ (b +:+ c).
Proof.
  induction a as [|x a IH]; [reflexivity|].
  change (String x ((a +:+ b) +:+ c) = String x (a +:+ (b +:+ c))).
  rewrite IH. reflexivity.
Qed.

Lemma append_empty (a : string) : a +:+ "" = a.
Proof.
  induction a as [|x a IH]; [reflexivity|].
  change (String x (a +:+ "") = String x a). rewrite IH. reflexivity.
Qed.

Lemma rev_string_acc (acc s : string) : rev_string acc s = rev_string "" s +:+ acc.
Proof.
  revert acc. induction s as [|c s IH]; intros acc; cbn; [reflexivity|].
  rewrite (IH (String c acc)), (IH (String c "")).
  rewrite append_assoc. reflexivity.
Qed.

Lemma split_on_first (acc s : string) :
  List.nth_error (split_on ":" acc s) 0 = Some (rev_string "" acc +:+ before_colon s).
Proof.
  revert acc. induction s as [|c s IH]; intros acc; cbn [split_on before_colon].
  - cbn [List.nth_error]. rewrite append_empty. reflexivity.
  - destruct (Ascii.eqb c ":").
    + cbn [List.nth_error]. rewrite append_empty. reflexivity.
    + rewrite IH. cbn [rev_string]. rewrite (rev_string_acc (String c "") acc).
      rewrite append_assoc. reflexivity.
Qed.

(** The id [get_all_products] reports for a key. *)
Lemma split_product_key (product_id : string) :
  List.nth_error (split ":" ("product:" +:+ product_id)) 1 = Some (before_colon product_id).
Proof. unfold split. cbn. apply (split_on_first "" product_id). Qed.

Lemma before_colon_id (s : string) : has_colon s = false -> before_colon s = s.
Proof.
  induction s as [|c s IH]; cbn; [reflexivity|].
  destruct (Ascii.eqb c ":"); cbn; [discriminate|].
  intros H. rewrite IH by exact H. reflexivity.
Qed.

Lemma prefix_app (p s : string) :
  String.prefix p s = true <-> exists rest, s = p +:+ rest.
Proof.
  revert s. induction p as [|a p IH]; intros s.
  - destruct s; cbn; split; eauto.
  - destruct s as [|b s]; cbn.
    + split; [discriminate | intros [r Hr]; discriminate].
    + destruct (Ascii.ascii_dec a b) as [-> | Hne].
      * split.
        -- intros H. apply IH in H as [r ->]. exists r. reflexivity.
        -- intros [r Hr]. apply IH. exists r. inversion Hr. reflexivity.
      * split; [discriminate | intros [r Hr]; inversion Hr; congruence].
Qed.

Lemma keys_spec (kv : gmap string (gmap string string)) (p key : string) :
  In key (List.filter (String.prefix p) (map_to_list kv).*1)
  <-> String.prefix p key = true /\ is_Some (kv !! key).
Proof.
  rewrite List.filter_In, <- list_elem_of_In, list_elem_of_fmap.
  split.
  - intros [[[k h] [-> Hin]] Hp]. apply elem_of_map_to_list in Hin.
    split; [exact Hp | eauto].
  - intros [Hp [h Hh]]. split; [| exact Hp].
    exists (key, h). split; [reflexivity | apply elem_of_map_to_list; exact Hh].
Qed.

Lemma play_and_then {A B : Type} (p : script A) (f : A -> script B) (a : A)
    (w w' : world) :
  play p w = (Value a, w') -> play (and_then p f) w = play (f a) w'.
Proof.
  revert w. induction p as [x | e | C op k IH]; intros w H; cbn in *.
  - inversion H; reflexivity.
  - discriminate.
  - destruct (perform op w) as [r w1]. apply IH. exact H.
Qed.

(** A loop whose body only reads answers with the list of what the body
    answers. *)
Lemma for_each_reads {A : Type} (body : string -> script A) (g : string -> A)
    (keys : list string) (w : world) :
  (forall key, In key keys -> play (body key) w = (Value (g key), w)) ->
  play (redis_db_rest.for_each body keys) w = (Value (List.map g keys), w).
Proof.
  induction keys as [|key keys IH]; intros Hbody; cbn [redis_db_rest.for_each List.map].
  - reflexivity.
  - rewrite (play_and_then _ _ (g key) w w) by (apply Hbody; now left).
    rewrite (play_and_then _ _ (List.map g keys) w w)
      by (apply IH; intros; apply Hbody; now right).
    reflexivity.
Qed.

Lemma product_details_complete (w : world) (product_id : string) (h : gmap string string) :
  complete_products (redis w) ->
  redis w !! ("product:" +:+ product_id) = Some h ->
  play (redis_db_rest.product_details ("product:" +:+ product_id)) w
  = (Value (listed product_id h), w).
Proof.
  intros Hc Hh.
  destruct (Hc _ h (proj2 (prefix_app "product:" _) (ex_intro _ product_id eq_refl)) Hh)
    as ([n Hn] & [d Hd] & [pr Hpr] & [s Hs]).
  unfold redis_db_rest.product_details, index, item, listed.
  cbn [play and_then ask perform]. rewrite Hh. cbn [default from_option id].
  rewrite split_product_key. cbn [and_then play].
  rewrite Hn, Hd, Hpr, Hs. reflexivity.
Qed.

(** X12.  On a catalog where every product has its four attributes,
    [get_all_products] does not raise and changes nothing, and its answer
    lists exactly the products of the catalog, each with its attributes; the
    id it reports for a product is the part of the product id before its
    first colon, the whole id when there is no colon in it. *)
Theorem get_all_products_lists_the_catalog (w : world) :
  complete_products (redis w) ->
  exists l : list (gmap string string),
    play redis_db_rest.get_all_products w = (Value l, w)
    /\ (forall product_id h,
          redis w !! ("product:" +:+ product_id) = Some h -> In (listed product_id h) l)
    /\ (forall d, In d l ->
          exists product_id h,
            redis w !! ("product:" +:+ product_id) = Some h /\ d = listed product_id h)
    /\ (forall product_id h,
          has_colon product_id = false ->
          listed product_id h !! "product_id" = Some product_id).
Proof.
  intros Hc.
  set (g := fun key : string =>
              match redis w !! key with
              | Some h => listed (skip 8 key) h
              | None => ∅
              end).
  assert (Hsub : forall p, skip 8 ("product:" +:+ p) = p) by reflexivity.
  exists (List.map g (List.filter (String.prefix "product:") (map_to_list (redis w)).*1)).
  split; [| split; [| split]].
  - unfold redis_db_rest.get_all_products. cbn [play and_then ask perform].
    apply for_each_reads. intros key Hkey.
    apply keys_spec in Hkey as [Hp [h Hh]].
    apply prefix_app in Hp as [p ->].
    unfold g. rewrite Hh, Hsub.
    apply product_details_complete; assumption.
  - intros p h Hh. apply List.in_map_iff.
    exists ("product:" +:+ p). split.
    + unfold g. rewrite Hh, Hsub. reflexivity.
    + apply keys_spec. split; [apply prefix_app; eauto | eauto].
  - intros d Hd. apply List.in_map_iff in Hd as (key & <- & Hkey).
    apply keys_spec in Hkey as [Hp [h Hh]].
    apply prefix_app in Hp as [p ->].
    exists p, h. split; [exact Hh|]. unfold g. rewrite Hh, Hsub. reflexivity.
  - intros p h Hcolon. unfold listed. rewrite lookup_insert_eq.
    rewrite before_colon_id by exact Hcolon. reflexivity.
Qed.

Lemma full_catalog_complete : complete_products full_catalog.
Proof.
  intros key h Hp Hh. unfold full_catalog in Hh.
  apply lookup_insert_Some in Hh as [[<- <-] | [_ Hh]];
    [repeat split; eexists; reflexivity|].
  apply lookup_insert_Some in Hh as [[<- <-] | [_ Hh]];
    [repeat split; eexists; reflexivity|].
  apply lookup_insert_Some in Hh as [[<- <-] | [_ Hh]]; [discriminate Hp|].
  rewrite lookup_empty in Hh. discriminate.
Qed.

Lemma get_all_products_lists_the_catalog_witness :
  exists l : list (gmap string string),
    play redis_db_rest.get_all_products (tidy shop) = (Value l, tidy shop)
    /\ (forall product_id h,
          full_catalog !! ("product:" +:+ product_id) = Some h -> In (listed product_id h) l)
    /\ (forall d, In d l ->
          exists product_id h,
            full_catalog !! ("product:" +:+ product_id) = Some h /\ d = listed product_id h)
    /\ (forall product_id h,
          has_colon product_id = false ->
          listed product_id h !! "product_id" = Some product_id).
Proof.
  apply (get_all_products_lists_the_catalog (tidy shop)).
  exact full_catalog_complete.
Defined.

(** ** The catalog stays complete *)

Lemma hmset_keeps_field (mapping : list (string * string)) (h : gmap string string)
    (field : string) :
  is_Some (h !! field) ->
  is_Some (foldr (fun fv acc => <[fv.1 := fv.2]> acc) h mapping !! field).
Proof.
  intros Hf. induction mapping as [|[f v] mapping IH]; cbn; [exact Hf|].
  apply lookup_insert_is_Some'. right. exact IH.
Qed.

Lemma complete_insert_product (kv : gmap string (gmap string string)) (key : string)
    (h : gmap string string) :
  complete_products kv ->
  (is_Some (h !! "name") /\ is_Some (h !! "description")
   /\ is_Some (h !! "price") /\ is_Some (h !! "supplier_id")) ->
  complete_products (<[key := h]> kv).
Proof.
  intros Hc Hh key' h' Hp Hl.
  apply lookup_insert_Some in Hl as [[_ <-] | [_ Hl]]; [exact Hh | eapply Hc; eauto].
Qed.

Lemma complete_insert_other (kv : gmap string (gmap string string)) (key : string)
    (h : gmap string string) :
  complete_products kv -> String.prefix "product:" key = false ->
  complete_products (<[key := h]> kv).
Proof.
  intros Hc Hk key' h' Hp Hl.
  apply lookup_insert_Some in Hl as [[<- _] | [_ Hl]]; [congruence | eapply Hc; eauto].
Qed.

Lemma complete_delete (kv : gmap string (gmap string string)) (key : string) :
  complete_products kv -> complete_products (delete key kv).
Proof.
  intros Hc key' h' Hp Hl.
  apply lookup_delete_Some in Hl as [_ Hl]. eapply Hc; eauto.
Qed.

Lemma complete_hmset (kv : gmap string (gmap string string)) (key : string)
    (mapping : list (string * string)) :
  complete_products kv -> is_Some (kv !! key) ->
  complete_products
    (<[key := foldr (fun fv acc => <[fv.1 := fv.2]> acc) (default ∅ (kv !! key)) mapping]> kv).
Proof.
  intros Hc [h Hh] key' h' Hp Hl.
  apply lookup_insert_Some in Hl as [[<- <-] | [_ Hl]]; [| eapply Hc; eauto].
  rewrite Hh. cbn [default from_option id].
  destruct (Hc _ _ Hp Hh) as (H1 & H2 & H3 & H4).
  repeat split; apply hmset_keeps_field; assumption.
Qed.

(** X13.  A catalog where every product has its four attributes stays so
    under every function that writes to the catalog, whatever the arguments
    and whatever the store refuses: [create_product], [create_supplier],
    [update_product], [update_supplier], [delete_product] and
    [delete_supplier]. *)
Theorem catalog_stays_complete (w : world) :
  complete_products (redis w) ->
  (forall product_id name description price supplier_id,
      complete_products
        (redis (snd (run (redis_db.create_product product_id name description price
                                                  supplier_id) w))))
  /\ (forall supplier_id name location contact_info,
      complete_products
        (redis (snd (run (redis_db.create_supplier supplier_id name location
                                                   contact_info) w))))
  /\ (forall product_id kwargs,
      complete_products (redis (snd (play (redis_db_rest.update_product product_id kwargs) w))))
  /\ (forall supplier_id kwargs,
      complete_products
        (redis (snd (play (redis_db_rest.update_supplier supplier_id kwargs) w))))
  /\ (forall product_id,
      complete_products (redis (snd (play (redis_db_rest.delete_product product_id) w))))
  /\ (forall supplier_id,
      complete_products (redis (snd (play (redis_db_rest.delete_supplier supplier_id) w)))).
Proof.
  intros Hc. open_world w.
  split; [| split; [| split; [| split; [| split]]]].
  - intros p nm d price s.
    unfold redis_db.create_product. exec_store.
    destruct (bool_decide (is_Some (kv !! ("supplier:" +:+ s)))); cbn [negb];
      exec_store; [| exact Hc].
    destruct (bool_decide (is_Some (kv !! ("product:" +:+ p)))) eqn:E;
      exec_store; [exact Hc|].
    apply bool_decide_eq_false_1 in E.
    assert (Hnone : kv !! ("product:" +:+ p) = None).
    { destruct (kv !! ("product:" +:+ p)) eqn:El; [exfalso; apply E; eauto | reflexivity]. }
    destruct faults as [|[m|] faults]; exec_store; cbn [snd redis]; try exact Hc;
      rewrite Hnone; apply complete_insert_product; auto;
      cbn; repeat split; eexists;
      repeat (rewrite lookup_insert_eq || rewrite lookup_insert_ne by discriminate);
      reflexivity.
  - intros s nm l c.
    unfold redis_db.create_supplier. exec_store.
    destruct (bool_decide (is_Some (kv !! ("supplier:" +:+ s)))); exec_store; [exact Hc|].
    destruct faults as [|[m|] faults]; exec_store; cbn [snd redis]; try exact Hc;
      apply complete_insert_other; auto.
  - intros p kwargs.
    unfold redis_db_rest.update_product. play_store.
    destruct (bool_decide (is_Some (kv !! ("product:" +:+ p)))) eqn:E;
      cbn [negb]; [| exact Hc].
    apply bool_decide_eq_true_1 in E.
    destruct (redis_db_rest.given kwargs) as [|fv updates]; [exact Hc|].
    destruct faults as [|[m|] faults]; play_store; cbn [snd redis]; try exact Hc;
      apply complete_hmset; assumption.
  - intros s kwargs.
    unfold redis_db_rest.update_supplier. play_store.
    destruct (bool_decide (is_Some (kv !! ("supplier:" +:+ s)))); cbn [negb]; [| exact Hc].
    destruct (redis_db_rest.given kwargs) as [|fv updates]; [exact Hc|].
    destruct faults as [|[m|] faults]; play_store; cbn [snd redis]; try exact Hc;
      apply complete_insert_other; auto.
  - intros p. unfold redis_db_rest.delete_product.
    destruct faults as [|[m|] faults]; play_store;
      try (destruct (bool_decide (is_Some (kv !! ("product:" +:+ p)))));
      cbn [play snd redis]; try exact Hc; apply complete_delete; exact Hc.
  - intros s. unfold redis_db_rest.delete_supplier.
    destruct faults as [|[m|] faults]; play_store;
      try (destruct (bool_decide (is_Some (kv !! ("supplier:" +:+ s)))));
      cbn [play snd redis]; try exact Hc; apply complete_delete; exact Hc.
Qed.

Lemma catalog_stays_complete_witness :
  complete_products
    (redis (snd (run (redis_db.create_product "P2" "Washer" "M8" (PyInt 2) "S1") (tidy shop))))
  /\ complete_products
       (redis (snd (play (redis_db_rest.update_product "P1" [("new_price", Some (PyStr "4"))])
                         (tidy shop))))
  /\ complete_products
       (redis (snd (play (redis_db_rest.delete_supplier "S1") (tidy shop)))).
Proof.
  destruct (catalog_stays_complete (tidy shop) full_catalog_complete)
    as (Hnew & _ & Hupd & _ & _ & Hdel).
  split; [| split].
  - apply Hnew.
  - apply Hupd.
  - apply Hdel.
Defined.

(** ** Products of a supplier *)

Lemma names_of_reads (w : world) (supplier_id : string) (keys : list string) :
  (forall key, In key keys ->
     exists h, redis w !! key = Some h /\ is_Some (h !! "name")) ->
  play (redisQueries.names_of supplier_id keys) w
  = (Value (List.flat_map
              (fun key =>
                 let h := default ∅ (redis w !! key) in
                 if String.eqb (default "" (h !! "supplier_id")) supplier_id
                 then [default "" (h !! "name")] else []) keys), w).
Proof.
  induction keys as [|key keys IH]; intros Hkeys; [reflexivity|].
  destruct (Hkeys key (or_introl eq_refl)) as (h & Hh & [n Hn]).
  specialize (IH (fun k Hk => Hkeys k (or_intror Hk))).
  cbn [redisQueries.names_of List.flat_map play and_then ask perform].
  rewrite Hh. cbn [default from_option id].
  destruct (String.eqb (default "" (h !! "supplier_id")) supplier_id).
  - unfold item. rewrite Hn. cbn [and_then default from_option id].
    rewrite (play_and_then _ _ _ w w IH). reflexivity.
  - exact IH.
Qed.

(** X14.  On a catalog where every product has its four attributes,
    [list_products_by_supplier] does not raise and changes nothing, and a
    name is in its answer exactly when some product of the catalog carries
    that name and the supplier id asked for; for a supplier without products
    the answer is the empty list. *)
Theorem list_products_by_supplier_spec (w : world) (supplier_id : string) :
  complete_products (redis w) ->
  exists names : list string,
    play (redisQueries.list_products_by_supplier supplier_id) w = (Value names, w)
    /\ (forall name,
          In name names
          <-> exists product_id h,
                redis w !! ("product:" +:+ product_id) = Some h
                /\ h !! "supplier_id" = Some supplier_id
                /\ h !! "name" = Some name)
    /\ ((forall product_id h,
           redis w !! ("product:" +:+ product_id) = Some h ->
           h !! "supplier_id" <> Some supplier_id) ->
        names = []).
Proof.
  intros Hc.
  eexists. split; [| split].
  - unfold redisQueries.list_products_by_supplier.
    cbn [play and_then ask perform].
    apply names_of_reads. intros key Hkey.
    apply keys_spec in Hkey as [Hp [h Hh]].
    exists h. split; [exact Hh|]. exact (proj1 (Hc key h Hp Hh)).
  - intros name. rewrite List.in_flat_map. split.
    + intros (key & Hkey & Hname).
      apply keys_spec in Hkey as [Hp [h Hh]].
      pose proof (Hc key h Hp Hh) as ([n Hn] & _ & _ & [s Hs]).
      apply prefix_app in Hp as [p ->].
      cbn zeta in Hname. rewrite Hh in Hname. cbn [default from_option id] in Hname.
      rewrite Hs, Hn in Hname. cbn [default from_option id] in Hname.
      destruct (String.eqb s supplier_id) eqn:E; [| contradiction].
      apply String.eqb_eq in E. subst s.
      destruct Hname as [<- | []]. exists p, h. auto.
    + intros (p & h & Hh & Hs & Hn).
      exists ("product:" +:+ p). split.
      * apply keys_spec. split; [apply prefix_app; eauto | eauto].
      * cbn zeta. rewrite Hh. cbn [default from_option id].
        rewrite Hs, Hn. cbn [default from_option id].
        rewrite String.eqb_refl. now left.
  - intros Hnone.
    match goal with |- ?l = [] => destruct l as [|name names] eqn:E end; [reflexivity|].
    exfalso.
    assert (Hin : In name (name :: names)) by now left.
    rewrite <- E in Hin. apply List.in_flat_map in Hin as (key & Hkey & Hname).
    apply keys_spec in Hkey as [Hp [h Hh]].
    pose proof (Hc key h Hp Hh) as (_ & _ & _ & [s Hs]).
    apply prefix_app in Hp as [p ->].
    cbn zeta in Hname. rewrite Hh in Hname. cbn [default from_option id] in Hname.
    rewrite Hs in Hname. cbn [default from_option id] in Hname.
    destruct (String.eqb s supplier_id) eqn:E'; [| contradiction].
    apply String.eqb_eq in E'. subst s.
    exact (Hnone p h Hh Hs).
Qed.

Lemma list_products_by_supplier_spec_witness :
  exists names : list string,
    play (redisQueries.list_products_by_supplier "S1") (tidy shop) = (Value names, tidy shop)
    /\ (forall name,
          In name names
          <-> exists product_id h,
                full_catalog !! ("product:" +:+ product_id) = Some h
                /\ h !! "supplier_id" = Some "S1"
                /\ h !! "name" = Some name)
    /\ ((forall product_id h,
           full_catalog !! ("product:" +:+ product_id) = Some h ->
           h !! "supplier_id" <> Some "S1") ->
        names = []).
Proof.
  apply (list_products_by_supplier_spec (tidy shop) "S1").
  exact full_catalog_complete.
Defined.

(** ** Retailers, orders and what refers to them *)

Lemma find_delete_where {A : Type} (P : A -> bool) (l : list A) :
  List.find P (delete_where P l) = None.
Proof.
  unfold delete_where.
  induction l as [|x l IH]; cbn; [reflexivity|].
  destruct (P x) eqn:E; cbn; [exact IH | rewrite E; exact IH].
Qed.

Lemma delete_where_keeps {A : Type} (P : A -> bool) (l : list A) (x : A) :
  In x l -> P x = false -> In x (delete_where P l).
Proof.
  intros Hx HP. unfold delete_where. apply List.filter_In.
  split; [exact Hx | rewrite HP; reflexivity].
Qed.

(** X15.  [create_retailer] stores the retailer under its id, in the place
    of any retailer that had that id: a [retrieve_retailer] of the id then
    answers with the four attributes of the call, and the retailers with
    another id and the orders are as before.  When the store refuses the
    write the call answers with a failure and nothing has changed. *)
Theorem create_retailer_round_trip :
  (forall (w : world) (retailer_id name location contact_info : string),
      writes_succeed 1 (oracle w) = true ->
      exists w',
        play (db_rest.create_retailer retailer_id name location contact_info) w
        = (Value (true, "Retailer " +:+ name +:+ " created successfully."), w')
        /\ play (db_rest.retrieve_retailer retailer_id) w'
           = (Value (true, Dict (<["Retailer ID" := PyStr retailer_id]>
                                (<["Name" := PyStr name]>
                                 (<["Location" := PyStr location]>
                                  (<["Contact Info" := PyStr contact_info]> ∅))))), w')
        /\ (forall d, In d (Retailer_objects (mongo w)) ->
                      Retailer.retailer_id d <> retailer_id ->
                      In d (Retailer_objects (mongo w')))
        /\ Order_objects (mongo w') = Order_objects (mongo w))
  /\ (forall (w : world) (retailer_id name location contact_info msg : string)
             (rest : list (option string)),
      oracle w = Some msg :: rest ->
      exists w',
        play (db_rest.create_retailer retailer_id name location contact_info) w
        = (Value (false, "Failed to create retailer: " +:+ msg), w')
        /\ mongo w' = mongo w).
Proof.
  split.
  - intros w r nm l c Hok. open_world w.
    unfold db_rest.create_retailer, db_rest.retrieve_retailer.
    next_write faults; play_store;
      (eexists; split; [reflexivity|]); play_store;
      rewrite (find_upsert (has_retailer_id r)) by apply String.eqb_refl;
      (split; [reflexivity|]);
      (split; [| reflexivity]);
      intros d Hd Hne;
      (apply upsert_keeps_others;
       [ exact Hd
       | unfold has_retailer_id; cbn [Retailer.retailer_id];
         apply String.eqb_neq; congruence ]).
  - intros w r nm l c msg rest Hor. open_world w. subst faults.
    unfold db_rest.create_retailer. play_store.
    eexists. split; reflexivity.
Qed.

Lemma create_retailer_round_trip_witness :
  (exists w',
     play (db_rest.create_retailer "R1" "Acme North" "York" "north@example.org") (calm shop)
     = (Value (true, "Retailer Acme North created successfully."), w')
     /\ play (db_rest.retrieve_retailer "R1") w'
        = (Value (true, Dict (<["Retailer ID" := PyStr "R1"]>
                             (<["Name" := PyStr "Acme North"]>
                              (<["Location" := PyStr "York"]>
                               (<["Contact Info" := PyStr "north@example.org"]> ∅))))), w')
     /\ (forall d, In d (Retailer_objects shop) ->
                   Retailer.retailer_id d <> "R1" ->
                   In d (Retailer_objects (mongo w')))
     /\ Order_objects (mongo w') = Order_objects shop)
  /\ (exists w',
        play (db_rest.create_retailer "R2" "Bolt" "Hull" "b@example.org")
             (faulty shop [Some "timed out"])
        = (Value (false, "Failed to create retailer: timed out"), w')
        /\ mongo w' = shop).
Proof.
  split.
  - apply (proj1 create_retailer_round_trip (calm shop) "R1" "Acme North" "York"
                 "north@example.org"). reflexivity.
  - apply (proj2 create_retailer_round_trip (faulty shop [Some "timed out"])
                 "R2" "Bolt" "Hull" "b@example.org" "timed out" []). reflexivity.
Defined.

(** X16.  [update_retailer] never updates a retailer.  For an unknown id
    it answers "Retailer not found."; with no attribute given, "No updates
    provided."; with an attribute given for a stored retailer it raises
    [InvalidQueryError] on the name [id].  Whatever the arguments and the
    store, the world is afterwards as it was and the answer is no
    success. *)
Theorem update_retailer_behaviour :
  (forall (w : world) (retailer_id : string) (new_name new_location new_contact_info : option string),
      List.find (has_retailer_id retailer_id) (Retailer_objects (mongo w)) = None ->
      play (db_rest.update_retailer retailer_id new_name new_location new_contact_info) w
      = (Value (false, "Retailer not found."), w))
  /\ (forall (w : world) (retailer_id : string) (retailer : Retailer.doc),
      List.find (has_retailer_id retailer_id) (Retailer_objects (mongo w)) = Some retailer ->
      play (db_rest.update_retailer retailer_id None None None) w
      = (Value (false, "No updates provided."), w))
  /\ (forall (w : world) (retailer_id : string) (retailer : Retailer.doc)
             (new_name new_location new_contact_info : option string),
      List.find (has_retailer_id retailer_id) (Retailer_objects (mongo w)) = Some retailer ->
      is_Some new_name \/ is_Some new_location \/ is_Some new_contact_info ->
      play (db_rest.update_retailer retailer_id new_name new_location new_contact_info) w
      = (Exception (InvalidQueryError "id"), w))
  /\ (forall (w : world) (retailer_id : string)
             (new_name new_location new_contact_info : option string),
      snd (play (db_rest.update_retailer retailer_id new_name new_location
                                         new_contact_info) w) = w
      /\ forall msg : string,
           fst (play (db_rest.update_retailer retailer_id new_name new_location
                                              new_contact_info) w)
           <> Value (true, msg)).
Proof.
  split; [| split; [| split]].
  - intros w r a b c Hnone. open_world w.
    unfold db_rest.update_retailer. play_store. rewrite Hnone. reflexivity.
  - intros w r retailer Hr. open_world w.
    unfold db_rest.update_retailer. play_store. rewrite Hr. reflexivity.
  - intros w r retailer a b c Hr Hgiven. open_world w.
    unfold db_rest.update_retailer. play_store. rewrite Hr.
    assert (Hany : bool_decide (is_Some a) || bool_decide (is_Some b)
                   || bool_decide (is_Some c) = true).
    { destruct Hgiven as [H | [H | H]]; rewrite (bool_decide_eq_true_2 _ H);
        rewrite ?orb_true_r; reflexivity. }
    rewrite Hany. reflexivity.
  - intros w r a b c. open_world w.
    unfold db_rest.update_retailer. play_store.
    destruct (List.find (has_retailer_id r) retailers) as [retailer|];
      [| split; [reflexivity | intros msg; cbn; discriminate]].
    destruct (bool_decide (is_Some a) || bool_decide (is_Some b)
              || bool_decide (is_Some c));
      (split; [reflexivity | intros msg; cbn; discriminate]).
Qed.

Lemma update_retailer_behaviour_witness :
  play (db_rest.update_retailer "R9" (Some "x") None None) (calm shop)
  = (Value (false, "Retailer not found."), calm shop)
  /\ play (db_rest.update_retailer "R1" None None None) (calm shop)
     = (Value (false, "No updates provided."), calm shop)
  /\ play (db_rest.update_retailer "R1" None (Some "York") None) (calm shop)
     = (Exception (InvalidQueryError "id"), calm shop).
Proof.
  destruct update_retailer_behaviour as (Hmissing & Hnothing & Hraise & _).
  split; [| split].
  - apply (Hmissing (calm shop) "R9"). reflexivity.
  - apply (Hnothing (calm shop) "R1" (Retailer.Doc "R1" "Acme" "Leeds" "acme@example.org")).
    reflexivity.
  - apply (Hraise (calm shop) "R1" (Retailer.Doc "R1" "Acme" "Leeds" "acme@example.org")
                  None (Some "York") None);
      [reflexivity | right; left; eexists; reflexivity].
Defined.

(** X17.  [delete_retailer] does not look at the orders: after a
    successful delete the retailer is gone (a [retrieve_retailer] answers
    not found), every order is still stored as it was, those of the deleted
    retailer included, and neither [create_order] nor [update_order] accepts
    the id any more. *)
Theorem delete_retailer_keeps_orders
    (w : world) (retailer_id : string) (retailer : Retailer.doc) :
  List.find (has_retailer_id retailer_id) (Retailer_objects (mongo w)) = Some retailer ->
  writes_succeed 1 (oracle w) = true ->
  exists w',
    play (db_rest.delete_retailer retailer_id) w
    = (Value (true, "Retailer " +:+ retailer_id +:+ " deleted successfully."), w')
    /\ play (db_rest.retrieve_retailer retailer_id) w'
       = (Value (false, Str "Retailer not found."), w')
    /\ Order_objects (mongo w') = Order_objects (mongo w)
    /\ (forall order_id,
          run (db.create_order order_id retailer_id) w'
          = (Return (false, "Retailer does not exist."), w'))
    /\ (forall order_id order,
          List.find (has_order_id order_id) (Order_objects (mongo w)) = Some order ->
          truthy retailer_id = true ->
          run (db.update_order order_id (Some retailer_id)) w'
          = (Return (false, "New retailer not found. Order's retailer not updated."), w')).
Proof.
  intros Hr Hok. open_world w.
  pose proof (has_retailer_id_eq _ _ (find_holds _ _ _ Hr)) as Hid.
  unfold db_rest.delete_retailer, db_rest.retrieve_retailer.
  play_store. rewrite Hr, Hid.
  next_write faults; play_store;
    (eexists; split; [reflexivity|]); play_store;
    rewrite find_delete_where;
    (split; [reflexivity|]); (split; [reflexivity|]);
    (split;
     [ intros o; unfold db.create_order; play_store;
       rewrite find_delete_where; reflexivity
     | intros o order Ho Ht; unfold db.update_order; play_store;
       rewrite Ho; change (default "" (Some retailer_id)) with retailer_id;
       rewrite Ht; play_store; rewrite find_delete_where; reflexivity ]).
Qed.

Lemma delete_retailer_keeps_orders_witness :
  exists w',
    play (db_rest.delete_retailer "R1") (calm shop)
    = (Value (true, "Retailer R1 deleted successfully."), w')
    /\ play (db_rest.retrieve_retailer "R1") w' = (Value (false, Str "Retailer not found."), w')
    /\ Order_objects (mongo w') = Order_objects shop
    /\ (forall order_id,
          run (db.create_order order_id "R1") w'
          = (Return (false, "Retailer does not exist."), w'))
    /\ (forall order_id order,
          List.find (has_order_id order_id) (Order_objects shop) = Some order ->
          truthy "R1" = true ->
          run (db.update_order order_id (Some "R1")) w'
          = (Return (false, "New retailer not found. Order's retailer not updated."), w')).
Proof.
  apply (delete_retailer_keeps_orders (calm shop) "R1"
           (Retailer.Doc "R1" "Acme" "Leeds" "acme@example.org")); reflexivity.
Defined.

(** X18.  [delete_order] does not look at the order lines and returns no
    stock: after a successful delete the lines of the order and the
    inventory are as before, a [create_order_detail] on the order fails
    with "Order does not exist.", a [retrieve_order_detail] of one of its
    lines raises, while a [delete_order_detail] of the line still goes
    through and credits its quantity. *)
Theorem delete_order_keeps_lines
    (w : world) (order_id : string) (order : Order.doc) :
  List.find (has_order_id order_id) (Order_objects (mongo w)) = Some order ->
  writes_succeed 3 (oracle w) = true ->
  exists w',
    play (db_rest.delete_order order_id) w
    = (Value (true, "Order " +:+ order_id +:+ " deleted successfully."), w')
    /\ OrderDetails_objects (mongo w') = OrderDetails_objects (mongo w)
    /\ Inventory_objects (mongo w') = Inventory_objects (mongo w)
    /\ (forall product_id quantity q,
          py_int quantity = Some q ->
          run (db.create_order_detail order_id product_id quantity) w'
          = (Return (false, "Order does not exist."), w'))
    /\ (forall product_id line,
          line_of order_id product_id w = Some line ->
          exists msg,
            play (db_rest.retrieve_order_detail order_id product_id) w'
            = (Exception (DoesNotExist msg), w'))
    /\ (forall product_id line item,
          line_of order_id product_id w = Some line ->
          List.find (has_product_id product_id) (Inventory_objects (mongo w)) = Some item ->
          exists w'',
            run (db.delete_order_detail order_id product_id) w'
            = (Return (true, "Order detail deleted successfully and inventory updated."), w'')
            /\ stock product_id w''
               = Some (Inventory.quantity item + OrderDetails.quantity line)).
Proof.
  intros Ho Hok. unfold line_of, stock. open_world w.
  pose proof (has_order_id_eq _ _ (find_holds _ _ _ Ho)) as Hid.
  unfold db_rest.delete_order. play_store. rewrite Ho, Hid.
  next_write faults; play_store;
    (eexists; split; [reflexivity|]); play_store;
    (split; [reflexivity|]); (split; [reflexivity|]);
    (split; [intros p v q Hq; unfold db.create_order_detail; rewrite Hq; play_store;
             rewrite find_delete_where; reflexivity|]);
    (split;
     [ intros p line Hline; unfold db_rest.retrieve_order_detail; play_store;
       rewrite Hline; play_store;
       assert (Hlo : OrderDetails.order line = order_id)
         by (apply find_holds in Hline; unfold is_line in Hline;
             apply andb_true_iff in Hline as [Hl _];
             symmetry; apply String.eqb_eq; exact Hl);
       rewrite Hlo, find_delete_where; eexists; reflexivity
     | intros p line item Hline Hi; unfold db.delete_order_detail; play_store;
       rewrite Hline; play_store; rewrite Hi;
       try next_write faults; try next_write faults; play_store;
       (eexists; split; [reflexivity|]); play_store;
       rewrite find_update_where by apply has_product_id_apply;
       rewrite Hi; cbn [fmap option_fmap option_map];
       rewrite has_inventory_id_self; reflexivity ]).
Qed.

Lemma delete_order_keeps_lines_witness :
  exists w',
    play (db_rest.delete_order "O1") (calm shop_with_line)
    = (Value (true, "Order O1 deleted successfully."), w')
    /\ OrderDetails_objects (mongo w') = OrderDetails_objects shop_with_line
    /\ Inventory_objects (mongo w') = Inventory_objects shop_with_line
    /\ (forall product_id quantity q,
          py_int quantity = Some q ->
          run (db.create_order_detail "O1" product_id quantity) w'
          = (Return (false, "Order does not exist."), w'))
    /\ (forall product_id line,
          line_of "O1" product_id (calm shop_with_line) = Some line ->
          exists msg,
            play (db_rest.retrieve_order_detail "O1" product_id) w'
            = (Exception (DoesNotExist msg), w'))
    /\ (forall product_id line item,
          line_of "O1" product_id (calm shop_with_line) = Some line ->
          List.find (has_product_id product_id) (Inventory_objects shop_with_line)
          = Some item ->
          exists w'',
            run (db.delete_order_detail "O1" product_id) w'
            = (Return (true, "Order detail deleted successfully and inventory updated."), w'')
            /\ stock product_id w''
               = Some (Inventory.quantity item + OrderDetails.quantity line)).
Proof.
  apply (delete_order_keeps_lines (calm shop_with_line) "O1" (Order.Doc "O1" "R1" 0));
    reflexivity.
Defined.

(** ** Listing the order lines *)

Lemma order_detail_row_reads (w : world) (od : OrderDetails.doc) :
  play (db_rest.order_detail_row od) w
  = (Value (match List.find (has_order_id (OrderDetails.order od)) (Order_objects (mongo w)) with
            | Some _ => OrderDetails.order od
            | None => "Unknown"
            end,
            if truthy (OrderDetails.product_id od) then OrderDetails.product_id od
            else "Unknown",
            OrderDetails.quantity od), w).
Proof.
  unfold db_rest.order_detail_row.
  cbn [play and_then rescue ask perform].
  destruct (List.find (has_order_id (OrderDetails.order od)) (Order_objects (mongo w)))
    as [order|] eqn:Ho; cbn [play and_then rescue ask perform].
  - pose proof (has_order_id_eq _ _ (find_holds _ _ _ Ho)) as Hid.
    rewrite Hid, Ho. cbn [play and_then rescue]. rewrite Hid. reflexivity.
  - reflexivity.
Qed.

(** X19.  [get_all_order_details] never raises and changes nothing: it
    answers with one row per stored line, in their order, that carries the
    quantity of the line, the order id of the line when that order is still
    stored and "Unknown" when it is gone, and the product id of the line,
    "Unknown" when that is empty. *)
Theorem get_all_order_details_total (w : world) :
  play db_rest.get_all_order_details w
  = (Value (List.map
              (fun od =>
                 (if bool_decide
                       (is_Some (List.find (has_order_id (OrderDetails.order od))
                                           (Order_objects (mongo w))))
                  then OrderDetails.order od else "Unknown",
                  if truthy (OrderDetails.product_id od) then OrderDetails.product_id od
                  else "Unknown",
                  OrderDetails.quantity od))
              (OrderDetails_objects (mongo w))), w).
Proof.
  unfold db_rest.get_all_order_details. cbn [play and_then ask perform].
  induction (OrderDetails_objects (mongo w)) as [|od ods IH];
    cbn [db_rest.order_detail_rows List.map]; [reflexivity|].
  rewrite (play_and_then _ _ _ w w (order_detail_row_reads w od)).
  rewrite (play_and_then _ _ _ w w IH).
  cbn [play]. do 3 f_equal.
  destruct (List.find (has_order_id (OrderDetails.order od)) (Order_objects (mongo w)));
    reflexivity.
Qed.

(** ** Inventory records, once more *)

(** X20.  [delete_inventory]: for an unknown id it fails and changes
    nothing; otherwise, the store accepting the write, the record is gone (a
    [retrieve_inventory] answers not found), the records with another id and
    the order lines are as before, and the lines of a product left without
    any record can be neither updated nor deleted. *)
Theorem delete_inventory_behaviour :
  (forall (w : world) (inventory_id : string),
      List.find (has_inventory_id inventory_id) (Inventory_objects (mongo w)) = None ->
      play (db_rest.delete_inventory inventory_id) w
      = (Value (false, "Inventory item not found."), w))
  /\ (forall (w : world) (inventory_id : string) (item : Inventory.doc),
      List.find (has_inventory_id inventory_id) (Inventory_objects (mongo w)) = Some item ->
      writes_succeed 1 (oracle w) = true ->
      exists w',
        play (db_rest.delete_inventory inventory_id) w
        = (Value (true, "Inventory item " +:+ inventory_id +:+ " deleted successfully."), w')
        /\ play (db_rest.retrieve_inventory inventory_id) w'
           = (Value (false, Str "Inventory item not found."), w')
        /\ (forall d, In d (Inventory_objects (mongo w)) ->
                      Inventory.inventory_id d <> inventory_id ->
                      In d (Inventory_objects (mongo w')))
        /\ OrderDetails_objects (mongo w') = OrderDetails_objects (mongo w)
        /\ (forall order_id product_id line new_quantity nq,
              stock product_id w' = None ->
              line_of order_id product_id w = Some line ->
              py_int new_quantity = Some nq ->
              run (db.update_order_detail order_id product_id new_quantity) w'
              = (Return (false, "Inventory item not found."), w')
              /\ run (db.delete_order_detail order_id product_id) w'
                 = (Return (false, "Inventory item not found for this product."), w'))).
Proof.
  split.
  - intros w i Hnone. open_world w.
    unfold db_rest.delete_inventory. play_store. rewrite Hnone. reflexivity.
  - intros w i item Hi Hok. unfold stock, line_of. open_world w.
    assert (Hid : Inventory.inventory_id item = i).
    { apply find_holds in Hi. symmetry. apply String.eqb_eq. exact Hi. }
    unfold db_rest.delete_inventory, db_rest.retrieve_inventory.
    play_store. rewrite Hi, Hid.
    next_write faults; play_store;
      (eexists; split; [reflexivity|]); play_store;
      rewrite find_delete_where;
      (split; [reflexivity|]);
      (split; [intros d Hd Hne; apply delete_where_keeps; [exact Hd|];
               apply String.eqb_neq; congruence|]);
      (split; [reflexivity|]);
      intros o p line v nq Hstock Hline Hq;
      unfold db.update_order_detail, db.delete_order_detail;
      rewrite Hq; play_store; rewrite Hline; play_store;
      (destruct (List.find (has_product_id p)
                   (delete_where (has_inventory_id i) inventory));
       [discriminate Hstock | split; reflexivity]).
Qed.

Lemma delete_inventory_behaviour_witness :
  play (db_rest.delete_inventory "I9") (calm shop)
  = (Value (false, "Inventory item not found."), calm shop)
  /\ (exists w',
        play (db_rest.delete_inventory "I1") (calm shop_with_line)
        = (Value (true, "Inventory item I1 deleted successfully."), w')
        /\ play (db_rest.retrieve_inventory "I1") w'
           = (Value (false, Str "Inventory item not found."), w')
        /\ (forall d, In d (Inventory_objects shop_with_line) ->
                      Inventory.inventory_id d <> "I1" ->
                      In d (Inventory_objects (mongo w')))
        /\ OrderDetails_objects (mongo w') = OrderDetails_objects shop_with_line
        /\ (forall order_id product_id line new_quantity nq,
              stock product_id w' = None ->
              line_of order_id product_id (calm shop_with_line) = Some line ->
              py_int new_quantity = Some nq ->
              run (db.update_order_detail order_id product_id new_quantity) w'
              = (Return (false, "Inventory item not found."), w')
              /\ run (db.delete_order_detail order_id product_id) w'
                 = (Return (false, "Inventory item not found for this product."), w'))).
Proof.
  split.
  - apply (proj1 delete_inventory_behaviour (calm shop) "I9"). reflexivity.
  - apply (proj2 delete_inventory_behaviour (calm shop_with_line) "I1"
                 (Inventory.Doc "I1" "P1" 6 "A1")); reflexivity.
Defined.

Lemma catalog_op_frame {B : Type} (op : store_op B) (w : world) :
  catalog_op op = true ->
  mongo (snd (exec op w)) = mongo w /\ clock (snd (exec op w)) = clock w.
Proof.
  intros Hop. open_world w.
  destruct op; try discriminate Hop; cbn [exec snd]; auto;
    unfold write; cbn [oracle];
    destruct faults as [|[m|] faults]; cbn; auto.
Qed.

Lemma uses_only_catalog_frame {A : Type} (p : prog A) :
  uses_only (@catalog_op) p ->
  forall w : world, mongo (snd (run p w)) = mongo w /\ clock (snd (run p w)) = clock w.
Proof.
  induction 1 as [a | e | B op k Hop Hk IH]; intros w; cbn [run snd]; auto.
  pose proof (catalog_op_frame op w Hop) as [H1 H2].
  destruct (exec op w) as [r w1]. cbn [snd] in H1, H2.
  destruct (IH r w1) as [I1 I2]. split; congruence.
Qed.

(** X21.  Whatever their arguments, the state of the stores and the
    failures of the store, [create_supplier] and [create_product] leave the
    document store and the clock as they were. *)
Theorem catalog_creation_touches_the_catalog_only
    (w : world) (id name text contact supplier_id : string) (price : pyval) :
  (mongo (snd (run (redis_db.create_supplier id name text contact) w)) = mongo w
   /\ clock (snd (run (redis_db.create_supplier id name text contact) w)) = clock w)
  /\ (mongo (snd (run (redis_db.create_product id name text price supplier_id) w)) = mongo w
      /\ clock (snd (run (redis_db.create_product id name text price supplier_id) w))
         = clock w).
Proof.
  split; apply uses_only_catalog_frame.
  - unfold redis_db.create_supplier. footprint.
    match goal with |- uses_only _ (if ?c then _ else _) => destruct c end; footprint.
  - unfold redis_db.create_product. footprint.
    match goal with |- uses_only _ (if ?c then _ else _) => destruct c end; footprint.
    match goal with |- uses_only _ (if ?c then _ else _) => destruct c end; footprint.
Qed.

(** ** Two creates at once: no debit is lost *)

Lemma create_step
    (w0 w : world) (order_id product_id : string) (quantity others : Z)
    (order : Order.doc) (item : Inventory.doc) (st : stage) :
  List.find (has_order_id order_id) (Order_objects (mongo w0)) = Some order ->
  ledger_at w0 product_id item (others + taken st quantity) w ->
  reads_record item st ->
  exists (st' : stage) (w' : world),
    step (program_at order_id product_id quantity order st) w
    = (program_at order_id product_id quantity order st', w')
    /\ ledger_at w0 product_id item (others + taken st' quantity) w'
    /\ reads_record item st'.
Proof.
  intros Ho (Hor & Hord & item' & Hi & Hid & Hq) Hst.
  open_world w. subst faults orders.
  destruct st as [| | snap | snap | |]; cbn [program_at taken reads_record] in *.
  - exists SawOrder. eexists. split; [| split; [| exact I]].
    + unfold db.create_order_detail. cbn [py_int step bind call exec mongo Order_objects].
      rewrite Ho. reflexivity.
    + unfold ledger_at. cbn. eauto 10.
  - cbn [step bind call exec mongo Inventory_objects]. rewrite Hi.
    destruct (Inventory.quantity item' <? quantity) eqn:Hlt.
    + exists Refused. eexists. split; [reflexivity|]. split; [| exact I].
      unfold ledger_at. cbn. eauto 10.
    + exists (Checked item'). eexists. split; [reflexivity|]. split; [| exact Hid].
      unfold ledger_at. cbn. eauto 10.
  - exists (Debited snap). eexists. split; [reflexivity|]. split; [| exact Hst].
    unfold ledger_at. cbn [oracle mongo Order_objects Inventory_objects apply_write
                           with_mongo with_inventory redis clock Retailer_objects
                           OrderDetails_objects next_id taken].
    split; [reflexivity|]. split; [reflexivity|].
    exists (apply_operator (dec__quantity quantity) item').
    split; [| split; [exact Hid | cbn; lia]].
    rewrite find_update_where by apply has_product_id_apply.
    rewrite Hi. cbn [fmap option_fmap option_map].
    rewrite Hst, <- Hid, has_inventory_id_self. reflexivity.
  - exists Granted. eexists. split; [reflexivity|]. split; [| exact I].
    unfold ledger_at. cbn. eauto 10.
  - exists Granted. eexists. split; [reflexivity|]. split; [| exact I].
    unfold ledger_at. cbn. eauto 10.
  - exists Refused. eexists. split; [reflexivity|]. split; [| exact I].
    unfold ledger_at. cbn. eauto 10.
Qed.

Lemma ledger_at_total (w0 w : world) (product_id : string) (item : Inventory.doc)
    (total total' : Z) :
  total = total' -> ledger_at w0 product_id item total w ->
  ledger_at w0 product_id item total' w.
Proof. intros ->. auto. Qed.

(** Under any schedule the two creates stay at stages of their program,
    and the stock is down by what they have taken. *)
Lemma two_creates_invariant
    (w0 : world) (product_id : string) (item : Inventory.doc)
    (o1 o2 : string) (a b : Z) (order1 order2 : Order.doc) (schedule : list nat) :
  List.find (has_order_id o1) (Order_objects (mongo w0)) = Some order1 ->
  List.find (has_order_id o2) (Order_objects (mongo w0)) = Some order2 ->
  forall (st1 st2 : stage) (w : world),
    ledger_at w0 product_id item (taken st1 a + taken st2 b) w ->
    reads_record item st1 -> reads_record item st2 ->
    exists (st1' st2' : stage) (w' : world),
      interleave schedule [program_at o1 product_id a order1 st1;
                           program_at o2 product_id b order2 st2] w
      = ([program_at o1 product_id a order1 st1';
          program_at o2 product_id b order2 st2'], w')
      /\ ledger_at w0 product_id item (taken st1' a + taken st2' b) w'.
Proof.
  intros Ho1 Ho2.
  induction schedule as [|i schedule IH]; intros st1 st2 w Hw H1 H2.
  - exists st1, st2, w. split; [reflexivity | exact Hw].
  - destruct i as [|[|i]]; cbn [interleave lookup list_lookup].
    + destruct (create_step w0 w o1 product_id a (taken st2 b) order1 item st1 Ho1
                  (ledger_at_total _ _ _ _ _ _ (Z.add_comm _ _) Hw) H1)
        as (st1' & w' & Hstep & Hw' & H1').
      rewrite Hstep. cbn [insert list_insert].
      apply IH; [| exact H1' | exact H2].
      exact (ledger_at_total _ _ _ _ _ _ (Z.add_comm _ _) Hw').
    + destruct (create_step w0 w o2 product_id b (taken st1 a) order2 item st2 Ho2 Hw H2)
        as (st2' & w' & Hstep & Hw' & H2').
      rewrite Hstep. cbn [insert list_insert].
      apply IH; [exact Hw' | exact H1 | exact H2'].
    + apply IH; assumption.
Qed.

Lemma program_at_granted (order_id product_id : string) (quantity : Z) (order : Order.doc)
    (st : stage) (msg : string) :
  program_at order_id product_id quantity order st = Ret (true, msg) -> st = Granted.
Proof.
  destruct st; cbn [program_at]; try discriminate; try reflexivity.
Qed.

(** X22.  Two creates on the same product, run at once in any
    interleaving of their store operations against a store that accepts
    every write, lose no debit: once both have answered with success the
    quantity on hand is the quantity of the start less both quantities
    (below zero when the two together exceed it). *)
Theorem concurrent_creates_lose_no_debit
    (w : world) (product_id o1 o2 : string) (a b : Z)
    (order1 order2 : Order.doc) (item : Inventory.doc)
    (schedule : list nat) (m1 m2 : string) (w' : world) :
  List.find (has_order_id o1) (Order_objects (mongo w)) = Some order1 ->
  List.find (has_order_id o2) (Order_objects (mongo w)) = Some order2 ->
  List.find (has_product_id product_id) (Inventory_objects (mongo w)) = Some item ->
  oracle w = [] ->
  interleave schedule (debit_calls product_id [(o1, a); (o2, b)]) w
  = ([Ret (true, m1); Ret (true, m2)], w') ->
  stock product_id w' = Some (Inventory.quantity item - a - b).
Proof.
  intros Ho1 Ho2 Hi Hor Hrun.
  assert (Hstart : ledger_at w product_id item (taken Fresh a + taken Fresh b) w).
  { unfold ledger_at. split; [exact Hor|]. split; [reflexivity|].
    exists item. split; [exact Hi|]. split; [reflexivity | cbn; lia]. }
  destruct (two_creates_invariant w product_id item o1 o2 a b order1 order2 schedule
              Ho1 Ho2 Fresh Fresh w Hstart I I)
    as (st1 & st2 & w1 & Hsched & Hw1).
  change (debit_calls product_id [(o1, a); (o2, b)])
    with [program_at o1 product_id a order1 Fresh; program_at o2 product_id b order2 Fresh]
    in Hrun.
  rewrite Hsched in Hrun. inversion Hrun as [[Hp1 Hp2 Hw]]. subst w1.
  apply program_at_granted in Hp1, Hp2. subst st1 st2.
  destruct Hw1 as (_ & _ & item' & Hfind & _ & Hq).
  unfold stock. rewrite Hfind. cbn [fmap option_fmap option_map taken] in *.
  f_equal. lia.
Qed.

Lemma concurrent_creates_lose_no_debit_witness :
  stock "P1" (snd (interleave [0; 0; 1; 1; 0; 1; 0; 1]%nat
                              (debit_calls "P1" [("O1", 6); ("O2", 6)]) (calm shop)))
  = Some (-2).
Proof.
  apply (concurrent_creates_lose_no_debit
           (calm shop) "P1" "O1" "O2" 6 6 (Order.Doc "O1" "R1" 0) (Order.Doc "O2" "R1" 0)
           (Inventory.Doc "I1" "P1" 10 "A1") [0; 0; 1; 1; 0; 1; 0; 1]%nat
           "Order detail added successfully." "Order detail added successfully.");
    reflexivity.
Defined.

(** ** Reading back what was written *)

Lemma find_app_old {A : Type} (P : A -> bool) (l l' : list A) (x : A) :
  List.find P l = Some x -> List.find P (l ++ l') = Some x.
Proof.
  induction l as [|y l IH]; cbn; [discriminate|].
  destruct (P y); auto.
Qed.

(** X23.  [retrieve_order_detail] answers with the first line of the pair:
    after a successful create on a pair that had no line it gives back the
    order, the product and the quantity of the call; on a pair that already
    had a line it still gives back that older line, whatever was created
    since. *)
Theorem order_line_round_trip :
  (forall (w w1 : world) (order_id product_id : string) (quantity : pyval) (q : Z)
          (msg : string),
      line_of order_id product_id w = None ->
      py_int quantity = Some q ->
      run (db.create_order_detail order_id product_id quantity) w = (Return (true, msg), w1) ->
      play (db_rest.retrieve_order_detail order_id product_id) w1
      = (Value (true, Dict (<["Order ID" := PyStr order_id]>
                           (<["Product ID" := PyStr product_id]>
                            (<["Quantity" := PyInt q]> ∅)))), w1))
  /\ (forall (w w1 : world) (order_id product_id : string) (quantity : pyval)
             (old : OrderDetails.doc) (msg : string),
      line_of order_id product_id w = Some old ->
      run (db.create_order_detail order_id product_id quantity) w = (Return (true, msg), w1) ->
      play (db_rest.retrieve_order_detail order_id product_id) w1
      = (Value (true, Dict (<["Order ID" := PyStr order_id]>
                           (<["Product ID" := PyStr product_id]>
                            (<["Quantity" := PyInt (OrderDetails.quantity old)]> ∅)))), w1)).
Proof.
  unfold line_of. split.
  - intros w w1 o p v q msg Hnone Hq Hrun.
    apply create_order_detail_success in Hrun
      as (q' & order & item & Hq' & Ho & _ & _ & _ & Hdet & Hord).
    rewrite Hq in Hq'. inversion Hq'; subst q'.
    pose proof (has_order_id_eq _ _ (find_holds _ _ _ Ho)) as Hid.
    open_world w1. subst details orders.
    unfold db_rest.retrieve_order_detail. play_store.
    rewrite (find_app_new _ _ _ Hnone)
      by (unfold is_line; cbn; rewrite !String.eqb_refl; reflexivity).
    play_store. cbn [OrderDetails.order OrderDetails.product_id OrderDetails.quantity].
    rewrite Ho. play_store. rewrite Hid. reflexivity.
  - intros w w1 o p v old msg Hold Hrun.
    apply create_order_detail_success in Hrun
      as (q' & order & item & _ & Ho & _ & _ & _ & Hdet & Hord).
    pose proof (has_order_id_eq _ _ (find_holds _ _ _ Ho)) as Hid.
    assert (Hline : is_line o p old = true) by (eapply find_holds; eauto).
    unfold is_line in Hline. apply andb_true_iff in Hline as [Hlo Hlp].
    apply String.eqb_eq in Hlo, Hlp.
    open_world w1. subst details orders.
    unfold db_rest.retrieve_order_detail. play_store.
    rewrite (find_app_old _ _ _ _ Hold). play_store.
    rewrite <- Hlo, Ho. play_store. rewrite Hid, <- Hlp. reflexivity.
Qed.

Lemma order_line_round_trip_witness :
  play (db_rest.retrieve_order_detail "O1" "P1")
       (snd (run (db.create_order_detail "O1" "P1" (PyInt 4)) (calm shop)))
  = (Value (true, Dict (<["Order ID" := PyStr "O1"]>
                       (<["Product ID" := PyStr "P1"]>
                        (<["Quantity" := PyInt 4]> ∅)))),
     snd (run (db.create_order_detail "O1" "P1" (PyInt 4)) (calm shop)))
  /\ play (db_rest.retrieve_order_detail "O1" "P1")
          (snd (run (db.create_order_detail "O1" "P1" (PyInt 1)) (calm shop_with_line)))
     = (Value (true, Dict (<["Order ID" := PyStr "O1"]>
                          (<["Product ID" := PyStr "P1"]>
                           (<["Quantity" := PyInt 4]> ∅)))),
        snd (run (db.create_order_detail "O1" "P1" (PyInt 1)) (calm shop_with_line))).
Proof.
  split.
  - apply (proj1 order_line_round_trip (calm shop) _ "O1" "P1" (PyInt 4) 4
                 "Order detail added successfully."); reflexivity.
  - apply (proj2 order_line_round_trip (calm shop_with_line) _ "O1" "P1" (PyInt 1)
                 (OrderDetails.Doc 0 "O1" "P1" 4) "Order detail added successfully.");
      reflexivity.
Defined.

(** X24.  [retrieve_inventory] reads back what was stored last under the
    id: after a successful [create_inventory] the attributes of the call,
    and after a successful [update_inventory_quantity] the product and the
    location of the record with the new quantity; for an id that is not
    stored it answers not found. *)
Theorem inventory_round_trip :
  (forall (w w1 : world) (inventory_id product_id location : string) (quantity : pyval)
          (q : Z) (msg : string),
      py_int quantity = Some q ->
      run (db.create_inventory inventory_id product_id quantity location) w
      = (Return (true, msg), w1) ->
      play (db_rest.retrieve_inventory inventory_id) w1
      = (Value (true, Dict (<["Inventory ID" := PyStr inventory_id]>
                           (<["Product ID" := PyStr product_id]>
                            (<["Quantity" := PyInt q]>
                             (<["Location" := PyStr location]> ∅))))), w1))
  /\ (forall (w w1 : world) (inventory_id : string) (new_quantity : pyval) (q : Z)
             (item : Inventory.doc) (msg : string),
      List.find (has_inventory_id inventory_id) (Inventory_objects (mongo w)) = Some item ->
      py_int new_quantity = Some q ->
      run (db.update_inventory_quantity inventory_id new_quantity) w
      = (Return (true, msg), w1) ->
      play (db_rest.retrieve_inventory inventory_id) w1
      = (Value (true, Dict (<["Inventory ID" := PyStr inventory_id]>
                           (<["Product ID" := PyStr (Inventory.product_id item)]>
                            (<["Quantity" := PyInt q]>
                             (<["Location" := PyStr (Inventory.location item)]> ∅))))), w1))
  /\ (forall (w : world) (inventory_id : string),
      List.find (has_inventory_id inventory_id) (Inventory_objects (mongo w)) = None ->
      play (db_rest.retrieve_inventory inventory_id) w
      = (Value (false, Str "Inventory item not found."), w)).
Proof.
  split; [| split].
  - intros w w1 i p loc v q msg Hq Hrun. open_world w.
    unfold db.create_inventory, db.check_product_exists_in_redis, db.IntField_clean in Hrun.
    rewrite Hq in Hrun. exec_store_in Hrun.
    destruct (bool_decide (is_Some (kv !! ("product:" +:+ p))));
      exec_store_in Hrun; [| congruence].
    destruct faults as [|[m|] faults]; exec_store_in Hrun; [| congruence |];
      inversion Hrun; subst; clear Hrun;
      unfold db_rest.retrieve_inventory; play_store;
      rewrite (find_upsert (has_inventory_id i)) by apply String.eqb_refl;
      reflexivity.
  - intros w w1 i v q item msg Hi Hq Hrun. open_world w.
    assert (Hid : Inventory.inventory_id item = i).
    { apply find_holds in Hi. symmetry. apply String.eqb_eq. exact Hi. }
    unfold db.update_inventory_quantity, db.IntField_clean in Hrun.
    exec_store_in Hrun. rewrite Hi, Hq, Hid in Hrun. exec_store_in Hrun.
    destruct faults as [|[m|] faults]; exec_store_in Hrun; [| congruence |];
      inversion Hrun; subst w1; clear Hrun;
      unfold db_rest.retrieve_inventory; play_store;
      rewrite (find_upsert (has_inventory_id i)) by apply String.eqb_refl;
      reflexivity.
  - intros w i Hnone. open_world w.
    unfold db_rest.retrieve_inventory. play_store. rewrite Hnone. reflexivity.
Qed.

Lemma inventory_round_trip_witness :
  play (db_rest.retrieve_inventory "I3")
       (snd (run (db.create_inventory "I3" "P1" (PyInt 5) "C2") (calm shop)))
  = (Value (true, Dict (<["Inventory ID" := PyStr "I3"]>
                       (<["Product ID" := PyStr "P1"]>
                        (<["Quantity" := PyInt 5]>
                         (<["Location" := PyStr "C2"]> ∅))))),
     snd (run (db.create_inventory "I3" "P1" (PyInt 5) "C2") (calm shop)))
  /\ play (db_rest.retrieve_inventory "I1")
          (snd (run (db.update_inventory_quantity "I1" (PyStr "12")) (calm shop)))
     = (Value (true, Dict (<["Inventory ID" := PyStr "I1"]>
                          (<["Product ID" := PyStr "P1"]>
                           (<["Quantity" := PyInt 12]>
                            (<["Location" := PyStr "A1"]> ∅))))),
        snd (run (db.update_inventory_quantity "I1" (PyStr "12")) (calm shop)))
  /\ play (db_rest.retrieve_inventory "I9") (calm shop)
     = (Value (false, Str "Inventory item not found."), calm shop).
Proof.
  destruct inventory_round_trip as (Hnew & Hset & Hmissing).
  split; [| split].
  - apply (Hnew (calm shop) _ "I3" "P1" "C2" (PyInt 5) 5
                "Inventory item I3 created with product P1."); reflexivity.
  - apply (Hset (calm shop) _ "I1" (PyStr "12") 12 (Inventory.Doc "I1" "P1" 10 "A1")
                "Inventory item I1 updated successfully."); reflexivity.
  - apply (Hmissing (calm shop) "I9"). reflexivity.
Defined.
